(** * prep_isce: ISCE metadata to ROI_PAC .rsc sidecars

    A shallow embedding of [mintpy/prep_isce.py].  Python values are a small
    tagged union, dictionaries are [gmap string _], the file system is a
    finite map from paths to regular files with a set of directories,
    exceptions are an error monad, and the in-place mutation of a
    dictionary argument is explicit state passing.

    Numbers: Python [float] and numpy floats are idealised as exact
    rationals ([Q]) together with one not-a-number value; rounding error and
    infinities are outside the model.  Division by a zero denominator is
    modelled as Python's [ZeroDivisionError].  The one float that is turned
    back into an integer, the quotient of two image sizes, is rounded as a
    binary64 float. *)

From Stdlib Require Import QArith Qround Qabs Lqa.
From stdpp Require Import gmap strings list fin_maps sorting pretty.
From Stdlib Require Import Ascii String.

Open Scope Z_scope.
Open Scope string_scope.

(** ** Exceptions and the error monad *)

Inductive exn : Type :=
  | ValueError
  | KeyError (k : string)
  | IndexError
  | TypeError
  | ZeroDivisionError
  | FileNotFoundError
  | UnboundLocalError
  | SystemExit
  | IOError
  | OverflowError.

Inductive result (A : Type) : Type :=
  | Ok (a : A)
  | Raise (e : exn).
Arguments Ok {A} a.
Arguments Raise {A} e.

Definition bind {A B} (r : result A) (k : A -> result B) : result B :=
  match r with
  | Ok a => k a
  | Raise e => Raise e
  end.

Notation "'let^' x ':=' r 'in' k" := (bind r (fun x => k))
  (at level 10, x pattern, r at level 100, k at level 200).

Definition is_raise {A} (r : result A) : bool :=
  match r with Ok _ => false | Raise _ => true end.

(** ** Strings and POSIX paths *)

Definition chars (s : string) : list ascii := list_ascii_of_string s.
Definition str_of (l : list ascii) : string := string_of_list_ascii l.

Definition slash : ascii := "/"%char.
Definition dot : ascii := "."%char.

Fixpoint starts_with (p s : list ascii) : bool :=
  match p, s with
  | [], _ => true
  | _ :: _, [] => false
  | a :: p', b :: s' => Ascii.eqb a b && starts_with p' s'
  end.

Definition startswith (s p : string) : bool := starts_with (chars p) (chars s).
Definition endswith (s p : string) : bool :=
  starts_with (rev (chars p)) (rev (chars s)).

(** [s.split(sep)] for a non-empty separator; [skip] counts the characters
    of a separator just matched that are still to be passed over. *)
Fixpoint split_go (sep : list ascii) (skip : nat) (cur : list ascii)
    (s : list ascii) : list (list ascii) :=
  match s with
  | [] => [rev cur]
  | c :: s' =>
      match skip with
      | S n => split_go sep n cur s'
      | O =>
          if starts_with sep s
          then rev cur :: split_go sep (Nat.pred (List.length sep)) [] s'
          else split_go sep O (c :: cur) s'
      end
  end.

Definition split (s sep : string) : list string :=
  str_of <$> split_go (chars sep) O [] (chars s).

(** The part after the last slash, and the part up to and including it. *)
Fixpoint after_last_slash (acc : list ascii) (s : list ascii) : list ascii :=
  match s with
  | [] => rev acc
  | c :: s' => if Ascii.eqb c slash then after_last_slash [] s'
               else after_last_slash (c :: acc) s'
  end.

Definition basename (p : string) : string := str_of (after_last_slash [] (chars p)).

Fixpoint strip_leading (c : ascii) (s : list ascii) : list ascii :=
  match s with
  | d :: s' => if Ascii.eqb c d then strip_leading c s' else s
  | [] => []
  end.

Definition rstrip (c : ascii) (s : list ascii) : list ascii :=
  rev (strip_leading c (rev s)).

(** [os.path.dirname]: the head up to the last slash, trailing slashes
    removed unless the head consists of slashes only. *)
Definition dirname (p : string) : string :=
  let s := chars p in
  let head := take (List.length s - List.length (after_last_slash [] s))%nat s in
  match rstrip slash head with
  | [] => str_of head
  | h => str_of h
  end.

(** [os.path.join] of two components. *)
Definition join (a b : string) : string :=
  if startswith b "/" then b
  else if (String.eqb a "" || endswith a "/")%bool then a ++ b
  else a ++ "/" ++ b.

(** [os.path.splitext(p)[0]]: the extension starts at the last dot of the
    last component, leading dots of that component not counting. *)
Fixpoint drop_ext (seen : bool) (s : list ascii) : option (list ascii) :=
  match s with
  | [] => None
  | c :: s' =>
      if Ascii.eqb c slash then None
      else
        match drop_ext (seen || negb (Ascii.eqb c dot)) s' with
        | Some r => Some (c :: r)
        | None => if (Ascii.eqb c dot && seen)%bool then Some [] else None
        end
  end.

Definition splitext_root (p : string) : string :=
  let s := chars p in
  let base := after_last_slash [] s in
  let head := take (List.length s - List.length base)%nat s in
  match drop_ext false base with
  | Some r => str_of (head ++ r)
  | None => p
  end.

(** ** Shell-style patterns ([fnmatch]) and [glob] *)

(** The characters of [s] before the first [c] *)
Fixpoint before (c : ascii) (s : list ascii) : list ascii :=
  match s with
  | [] => []
  | d :: s' => if Ascii.eqb c d then [] else d :: before c s'
  end.

(** The items of a pattern: [*], [?], a character, and a bracket class
    with its text as written, a leading [!] included *)
Inductive token : Type :=
  | Star
  | Any
  | Lit (c : ascii)
  | Class (stuff : list ascii).

(** The text of a class, from the character after the opening bracket up
    to the closing one: a [!] at the start, and a closing bracket right
    after it or at the start, belong to the text.  [None] when no bracket
    closes the class: the opening bracket is then an ordinary character. *)
Definition class_stuff (p : list ascii) : option (list ascii) :=
  let '(bang, p1) :=
    match p with
    | c :: p' => if Ascii.eqb c "!"%char then ([c], p') else ([], p)
    | [] => ([], p)
    end in
  let '(brk, p2) :=
    match p1 with
    | c :: p' => if Ascii.eqb c "]"%char then ([c], p') else ([], p1)
    | [] => ([], p1)
    end in
  if existsb (Ascii.eqb "]"%char) p2
  then Some (bang ++ brk ++ before "]"%char p2)%list
  else None.

(** [skip] counts the characters of a class still to be passed over. *)
Fixpoint tokens (skip : nat) (p : list ascii) : list token :=
  match p with
  | [] => []
  | c :: p' =>
      match skip with
      | S n => tokens n p'
      | O =>
          if Ascii.eqb c "*"%char then Star :: tokens O p'
          else if Ascii.eqb c "?"%char then Any :: tokens O p'
          else if Ascii.eqb c "["%char then
            match class_stuff p' with
            | Some stuff => Class stuff :: tokens (S (List.length stuff)) p'
            | None => Lit c :: tokens O p'
            end
          else Lit c :: tokens O p'
      end
  end.

(** The members of a class, read from the left: [lo-hi] is the range of
    the characters from [lo] to [hi] by code (none when [hi] comes before
    [lo]), anything else stands for itself, a backslash too. *)
Fixpoint class_mem (body : list ascii) (d : ascii) : bool :=
  match body with
  | [] => false
  | lo :: rest =>
      match rest with
      | dash :: hi :: rest' =>
          if Ascii.eqb dash "-"%char
          then ((N_of_ascii lo <=? N_of_ascii d)%N && (N_of_ascii d <=? N_of_ascii hi)%N)
               || class_mem rest' d
          else Ascii.eqb lo d || class_mem rest d
      | _ => Ascii.eqb lo d || class_mem rest d
      end
  end.

Definition token_match (t : token) (d : ascii) : bool :=
  match t with
  | Star | Any => true
  | Lit c => Ascii.eqb c d
  | Class ("!"%char :: body) => negb (class_mem body d)
  | Class body => class_mem body d
  end.

Fixpoint match_tokens (ts : list token) (s : list ascii) : bool :=
  match ts with
  | [] => match s with [] => true | _ => false end
  | t :: ts' =>
      match t with
      | Star =>
          (fix star (s : list ascii) : bool :=
             match_tokens ts' s || match s with [] => false | _ :: s' => star s' end) s
      | _ =>
          match s with
          | [] => false
          | d :: s' => token_match t d && match_tokens ts' s'
          end
      end
  end.

(** [fnmatch.fnmatchcase(s, p)] *)
Definition wild (p : list ascii) (s : list ascii) : bool :=
  match_tokens (tokens O p) s.

(** One path component: names starting with a dot are matched only by a
    pattern that starts with a dot. *)
Definition fnmatch_component (pat name : list ascii) : bool :=
  (negb (starts_with [dot] name) || starts_with [dot] pat) && wild pat name.

Fixpoint match_components (ps ns : list (list ascii)) : bool :=
  match ps, ns with
  | [], [] => true
  | p :: ps', n :: ns' => fnmatch_component p n && match_components ps' ns'
  | _, _ => false
  end.

Definition glob_match (pat path : string) : bool :=
  match_components (split_go [slash] O [] (chars pat))
                   (split_go [slash] O [] (chars path)).

(** ** Python values and dictionaries *)

(** The values the program stores in a metadata dictionary: [str],
    [bytes], [int], [float] (with not-a-number apart) and [datetime]
    (microseconds since the epoch). *)
Inductive pyval : Type :=
  | VStr (s : string)
  | VBytes (s : string)
  | VInt (z : Z)
  | VFloat (q : Q)
  | VNaN
  | VDate (us : Z).

Abbreviation dict := (gmap string pyval).

Definition is_str (v : pyval) : bool :=
  match v with VStr _ => true | _ => false end.

(** [d[k]] *)
Definition getitem {A} (d : gmap string A) (k : string) : result A :=
  match d !! k with
  | Some v => Ok v
  | None => Raise (KeyError k)
  end.

(** [l[i]] for a non-negative index *)
Definition index {A} (l : list A) (i : nat) : result A :=
  match l !! i with
  | Some v => Ok v
  | None => Raise IndexError
  end.

(** [l[-1]] *)
Definition index_last {A} (l : list A) : result A :=
  match last l with
  | Some v => Ok v
  | None => Raise IndexError
  end.

(** [s[2:]] and [s[2:4]] *)
Definition slice_from (n : nat) (s : string) : string := str_of (drop n (chars s)).
Definition slice (a b : nat) (s : string) : string :=
  str_of (take (b - a) (drop a (chars s))).

(** *** Arithmetic on values *)

Definition is_zero (v : pyval) : bool :=
  match v with
  | VInt z => Z.eqb z 0
  | VFloat q => Qeq_bool q 0
  | _ => false
  end.

Definition is_num (v : pyval) : bool :=
  match v with VInt _ | VFloat _ | VNaN => true | _ => false end.

Definition to_Q (v : pyval) : option Q :=
  match v with
  | VInt z => Some (inject_Z z)
  | VFloat q => Some q
  | _ => None
  end.

(** [a / b] (true division) *)
Definition py_div (a b : pyval) : result pyval :=
  if negb (is_num a && is_num b) then Raise TypeError
  else if is_zero b then Raise ZeroDivisionError
  else match to_Q a, to_Q b with
       | Some x, Some y => Ok (VFloat (x / y))
       | _, _ => Ok VNaN
       end.

(** [a * b] on numbers *)
Definition py_mul (a b : pyval) : result pyval :=
  match a, b with
  | VInt x, VInt y => Ok (VInt (x * y))
  | _, _ =>
      if negb (is_num a && is_num b) then Raise TypeError
      else match to_Q a, to_Q b with
           | Some x, Some y => Ok (VFloat (x * y))
           | _, _ => Ok VNaN
           end
  end.

(** [a - b] on numbers *)
Definition py_sub (a b : pyval) : result pyval :=
  match a, b with
  | VInt x, VInt y => Ok (VInt (x - y))
  | _, _ =>
      if negb (is_num a && is_num b) then Raise TypeError
      else match to_Q a, to_Q b with
           | Some x, Some y => Ok (VFloat (x - y))
           | _, _ => Ok VNaN
           end
  end.

(** [int(x)] of a float: truncation toward zero *)
Definition Qtrunc (q : Q) : Z :=
  if Qle_bool 0 q then Qfloor q else Qceiling q.

(** *** The quotient of two ints as a binary64 float *)

(** [n / d] rounded to the nearest integer, halves to the even one, for
    [0 <= n] and [0 < d] *)
Definition round_half_even (n d : Z) : Z :=
  let q := n / d in
  match (2 * (n mod d) ?= d)%Z with
  | Lt => q
  | Gt => q + 1
  | Eq => if Z.even q then q else q + 1
  end.

(** The binary exponent of [a / b], the [e] with [2^e <= a / b < 2^(e+1)],
    for positive [a] and [b] *)
Definition ilog2_ratio (a b : Z) : Z :=
  let k := Z.log2 a - Z.log2 b in
  if (b * 2 ^ Z.max k 0 <=? a * 2 ^ Z.max (- k) 0)%Z then k else k - 1.

(** [a / b] as a float, for positive [a] and [b]: the quotient rounded to
    53 significant bits (fewer below [2^-1022]), as the pair of an integer
    [m] and an exponent [e] that stand for [m * 2^e] *)
Definition float_ratio (a b : Z) : Z * Z :=
  let e := Z.max (ilog2_ratio a b - 52) (-1074) in
  (round_half_even (a * 2 ^ Z.max (- e) 0) (b * 2 ^ Z.max e 0), e).

(** [a / b] on two ints: the correctly rounded float, [ZeroDivisionError]
    for a zero divisor, [OverflowError] beyond the largest float *)
Definition int_true_div (a b : Z) : result Q :=
  if (b =? 0)%Z then Raise ZeroDivisionError
  else if (a =? 0)%Z then Ok 0%Q
  else
    let '(m, e) := float_ratio (Z.abs a) (Z.abs b) in
    let sg := Z.sgn a * Z.sgn b in
    if (0 <=? e)%Z then
      if (2 ^ 1024 <=? m * 2 ^ e)%Z then Raise OverflowError
      else Ok (inject_Z (sg * (m * 2 ^ e)))
    else Ok ((sg * m) # Z.to_pos (2 ^ (- e))).

(** *** [datetime] fields *)

Definition dt_hour (us : Z) : Z := (us / 3600000000) mod 24.
Definition dt_minute (us : Z) : Z := (us / 60000000) mod 60.
Definition dt_second (us : Z) : Z := (us / 1000000) mod 60.
(** [(a - b).total_seconds()] *)
Definition total_seconds (a b : Z) : Q := (a - b) # 1000000.

(** ** The file system *)

(** A regular file: its modification time and the key/value pairs
    [readfile.read_roipac_rsc] parses from it.  Files and directories are
    known by their paths as the program spells them. *)
Record file : Type := File { mtime : Z; rsc : gmap string string }.

(** The regular files, the directories named apart from those that lie
    above a file or a named directory (which exist with it), and the
    clock. *)
Record World : Type := MkWorld {
  files : gmap string file;
  dirs : gset string;
  clock : Z;
}.

(** [os.path.isfile]: regular files only *)
Definition isfile (w : World) (p : string) : bool :=
  bool_decide (is_Some (files w !! p)).

(** The directories above a path: what stands before each slash of it,
    unless that is empty or ends with a slash itself *)
Fixpoint parents_go (acc : list ascii) (s : list ascii) : list (list ascii) :=
  match s with
  | [] => []
  | c :: s' =>
      let rest := parents_go (c :: acc) s' in
      if Ascii.eqb c slash
      then match acc with
           | d :: _ => if Ascii.eqb d slash then rest else rev acc :: rest
           | [] => rest
           end
      else rest
  end.

Definition parents (p : string) : list string :=
  str_of <$> parents_go [] (chars p).

(** The paths the world names, and all that exist in it: the named ones
    and the directories above them *)
Definition named (w : World) : list string :=
  ((fst <$> map_to_list (files w)) ++ elements (dirs w))%list.

Definition entries (w : World) : gset string :=
  list_to_set (named w ++ (named w ≫= parents))%list.

(** [glob.glob(pat)], in the order the file system enumerates: files and
    directories alike *)
Definition glob (w : World) (pat : string) : list string :=
  List.filter (glob_match pat) (elements (entries w)).

(** [sorted] on strings *)
Definition sorted (l : list string) : list string := merge_sort String.le l.

(** Sentinel-1 TOPS spatial resolution, Table 7-5 of the product
    definition: (rangeResolution, azimuthResolution). *)
Definition TOPS_RESOLUTION (iw : string) : result (Q * Q) :=
  if String.eqb iw "IW1" then Ok (27 # 10, 225 # 10)%Q
  else if String.eqb iw "IW2" then Ok (31 # 10, 227 # 10)%Q
  else if String.eqb iw "IW3" then Ok (35 # 10, 226 # 10)%Q
  else Raise (KeyError iw).

(** [get_processor]: the argument is [None] when Python's [None] is
    passed, on which [os.path.dirname] raises [TypeError]. *)
Definition get_processor (w : World) (meta_file : option string)
  : result string :=
  match meta_file with
  | None => Raise TypeError
  | Some meta_file =>
      let meta_dir := dirname meta_file in
      let tops_meta_file := join meta_dir "IW*.xml" in
      let stripmap_meta_file := join meta_dir "data.dat" in
      if (0 <? List.length (glob w tops_meta_file))%nat then Ok "tops"
      else if isfile w stripmap_meta_file then Ok "stripmap"
      else if endswith meta_file ".xml" then Ok "stripmap"
      else Raise ValueError
  end.

(** ** The ISCE object model

    The products are read by an external toolkit; only the fields the
    program touches are kept.  Times are microseconds since the epoch. *)

Record StateVector : Type := {
  getPosition : list Q;
  getVelocity : list Q;
}.

Record Orbit : Type := {
  interpolateOrbit : Z -> result StateVector;   (* method='hermite' *)
  getENUHeading : Z -> Q;
}.

Module Burst.
Record t : Type := {
  prf : Q;
  burstStartUTC : Z;
  burstStopUTC : Z;
  radarWavelength : Q;
  startingRange : Q;
  passDirection : string;
  polarization : string;
  trackNumber : Z;
  orbitNumber : Z;
  sensingMid : Z;
  azimuthTimeInterval : Q;
  rangePixelSize : Q;
  swathNumber : Z;
  orbit : Orbit;
}.
End Burst.

Record TopsProduct : Type := {
  bursts : list Burst.t;
  ascendingNodeTime : Z;
}.

Module Frame.
Record t : Type := {
  PRF : Q;
  sensingStart : Z;
  sensingStop : Z;
  sensingMid : Z;
  radarWavelegth : Q;
  startingRange : Q;
  polarization : pyval;
  trackNumber : Z;
  orbitNumber : Z;
  orbit : Orbit;
  antennaLength : Q;        (* frame.platform.antennaLength *)
  pulseLength : Q;          (* frame.instrument.pulseLength *)
  chirpSlope : Q;           (* frame.instrument.chirpSlope *)
  rangePixelSize : Q;       (* frame.instrument.rangePixelSize *)
}.
End Frame.

(** ** External collaborators

    Python built-ins, numpy, the ISCE toolkit and the readers of
    [mintpy.utils] whose code is not part of this file.  Each reader is a
    function of the path it is given. *)
Record Extern : Type := {
  float_repr : Q -> string;                 (* str(x) of a finite float *)
  date_repr : Z -> string;                  (* str(x) of a datetime *)
  int_of_str : string -> result Z;          (* int(s) *)
  float_of_str : string -> result pyval;    (* float(s) *)
  abspath : string -> string;               (* os.path.abspath *)
  norm : list Q -> Q;                       (* np.linalg.norm *)
  xyz_to_llh : list Q -> Q * Q * Q;         (* ellipsoid.xyz_to_llh *)
  pegRadCur : Q -> Q -> Q -> Q;             (* after setSCH(lat, lon, hdg) *)
  load_tops : string -> result TopsProduct; (* load_product of a TOPS xml *)
  load_frame : string -> result Frame.t;    (* load_product of a stripmap xml *)
  shelve_frame : string -> result Frame.t;  (* shelve.open(fbase)['frame'] *)
  read_isce_xml : string -> result (gmap string string);
  read_attribute : string -> result (gmap string string);
  read_raster : string -> option string -> result (list (list (option Q)));
                                            (* readfile.read(f, datasetName)[0]; None is nan *)
  read_lines : string -> result (list string);
  read_template : string -> result (gmap string string);
  standardize_metadata : dict -> dict;
}.

(** ** Functions that update their dictionary argument in place

    A Python function that mutates the dictionary it is given (and returns
    that same object) is a state transformer on the dictionary's content:
    the final state is what the caller's object holds afterwards, also when
    an exception is raised half way. *)

Definition ST (S A : Type) : Type := S -> result A * S.

Definition ret {S A} (a : A) : ST S A := fun st => (Ok a, st).
Definition lift {S A} (r : result A) : ST S A := fun st => (r, st).
Definition bindM {S A B} (m : ST S A) (k : A -> ST S B) : ST S B :=
  fun st => match m st with
            | (Ok a, st') => k a st'
            | (Raise e, st') => (Raise e, st')
            end.

Abbreviation M := (ST dict).

(** [metadata[k]] and [metadata[k] = v] *)
Definition get (k : string) : M pyval := fun md => (getitem md k, md).
Definition set (k : string) (v : pyval) : M unit := fun md => (Ok tt, <[k := v]> md).

Notation "x <- m ;; k" := (bindM m (fun x => k))
  (at level 100, m at next level, right associativity).
Notation "m ;;; k" := (bindM m (fun _ => k))
  (at level 100, right associativity).

Abbreviation IO := (ST World).

(** A geometry raster: rows of pixels, [None] for not-a-number *)
Abbreviation raster := (list (list (option Q))).

(** A baseline entry [[bperp_top, bperp_bottom]] per date *)
Abbreviation baselines := (gmap string (pyval * pyval)).

Definition SPEED_OF_LIGHT : Q := 299792458 # 1.

(** ** The text of a [bytes] value *)

Definition squote : ascii := "'"%char.
Definition dquote : ascii := "034"%char.
Definition backslash : ascii := "092"%char.

(** The quote [repr] wraps the bytes in: the double one when they hold a
    single quote and no double quote *)
Definition bytes_quote (s : list ascii) : ascii :=
  if existsb (Ascii.eqb squote) s && negb (existsb (Ascii.eqb dquote) s)
  then dquote else squote.

Definition hex_digit (n : nat) : ascii :=
  nth n (chars "0123456789abcdef") "0"%char.

(** One byte as [repr] writes it: the quote in use and the backslash
    escaped, tab, line feed and carriage return by their letters, other
    bytes outside the printable range in hexadecimal *)
Definition bytes_repr_char (quote c : ascii) : list ascii :=
  let n := nat_of_ascii c in
  if Ascii.eqb c quote || Ascii.eqb c backslash then [backslash; c]
  else if (n =? 9)%nat then [backslash; "t"%char]
  else if (n =? 10)%nat then [backslash; "n"%char]
  else if (n =? 13)%nat then [backslash; "r"%char]
  else if ((n <? 32) || (127 <=? n))%nat
  then [backslash; "x"%char; hex_digit (n / 16); hex_digit (n mod 16)]
  else [c].

(** [repr(b)] of a [bytes] value, which is also its [str] *)
Definition bytes_repr (s : list ascii) : list ascii :=
  let quote := bytes_quote s in
  ("b"%char :: quote :: List.concat (bytes_repr_char quote <$> s) ++ [quote])%list.

Section Program.

Variable E : Extern.

(** [str(v)] *)
Definition py_str (v : pyval) : string :=
  match v with
  | VStr s => s
  | VBytes s => str_of (bytes_repr (chars s))
  | VInt z => pretty z
  | VFloat q => float_repr E q
  | VNaN => "nan"
  | VDate us => date_repr E us
  end.

(** [s.replace('/', '')] *)
Definition remove_slashes (s : string) : string :=
  str_of (List.filter (fun c => negb (Ascii.eqb c slash)) (chars s)).

Fixpoint mapM {A B} (f : A -> result B) (l : list A) : result (list B) :=
  match l with
  | [] => Ok []
  | x :: l' => let^ y := f x in let^ ys := mapM f l' in Ok (y :: ys)
  end.

Definition concat_strs (l : list string) : string := foldr String.append "" l.

(** The satellite speed at a time on an orbit *)
Definition speed_at (o : Orbit) (t : Z) : result (StateVector * Q) :=
  let^ peg := interpolateOrbit o t in
  Ok (peg, norm E (getVelocity peg)).

Definition center_line_utc (t : Z) : Q :=
  (inject_Z (dt_hour t) * 3600 + inject_Z (dt_minute t) * 60
   + inject_Z (dt_second t))%Q.

Definition extract_tops_metadata (w : World) (xml_file : string)
  : result (dict * Burst.t) :=
  let^ obj := load_tops E xml_file in
  let^ burst := index (bursts obj) 0 in
  let^ burstEnd := index_last (bursts obj) in
  let metadata : dict := ∅ in
  let metadata := <["prf" := VFloat (Burst.prf burst)]> metadata in
  let metadata := <["startUTC" := VDate (Burst.burstStartUTC burst)]> metadata in
  let metadata := <["stopUTC" := VDate (Burst.burstStopUTC burstEnd)]> metadata in
  let metadata := <["radarWavelength" := VFloat (Burst.radarWavelength burst)]> metadata in
  let metadata := <["startingRange" := VFloat (Burst.startingRange burst)]> metadata in
  let metadata := <["passDirection" := VStr (Burst.passDirection burst)]> metadata in
  let metadata := <["polarization" := VStr (Burst.polarization burst)]> metadata in
  let metadata := <["trackNumber" := VInt (Burst.trackNumber burst)]> metadata in
  let metadata := <["orbitNumber" := VInt (Burst.orbitNumber burst)]> metadata in
  let time_seconds := center_line_utc (Burst.burstStartUTC burst) in
  let metadata := <["CENTER_LINE_UTC" := VFloat time_seconds]> metadata in
  let orbit := Burst.orbit burst in
  let^ (peg, Vs) := speed_at orbit (Burst.sensingMid burst) in
  let metadata :=
    <["azimuthPixelSize" := VFloat (Vs * Burst.azimuthTimeInterval burst)]> metadata in
  let metadata := <["rangePixelSize" := VFloat (Burst.rangePixelSize burst)]> metadata in
  let iw_str :=
    if startswith (basename xml_file) "IW"
    then splitext_root (basename xml_file)
    else "IW2" in
  let^ res := TOPS_RESOLUTION iw_str in
  let metadata := <["azimuthResolution" := VFloat (snd res)]> metadata in
  let metadata := <["rangeResolution" := VFloat (fst res)]> metadata in
  let '(lat, lon, hgt) := xyz_to_llh E (getPosition peg) in
  let metadata :=
    <["earthRadius" :=
        VFloat (pegRadCur E lat lon (getENUHeading orbit (Burst.sensingMid burst)))]>
      metadata in
  let metadata := <["altitude" := VFloat hgt]> metadata in
  let metadata := <["beam_mode" := VStr "IW"]> metadata in
  let metadata := <["swathNumber" := VInt (Burst.swathNumber burst)]> metadata in
  let xml_files := glob w (join (dirname xml_file) "IW*.xml") in
  let^ metadata :=
    if (1 <? List.length xml_files)%nat then
      let^ swath_num :=
        mapM (fun fname =>
                let^ o := load_tops E fname in
                let^ b := index (bursts o) 0 in
                Ok (Burst.swathNumber b)) xml_files in
      Ok (<["swathNumber" :=
              VStr (concat_strs (pretty <$> merge_sort Z.le swath_num))]> metadata)
    else Ok metadata in
  let metadata :=
    <["firstFrameNumber" :=
        VInt (Qtrunc ((2 # 10) *
                total_seconds (Burst.burstStartUTC burst) (ascendingNodeTime obj)))]>
      metadata in
  let metadata :=
    <["lastFrameNumber" :=
        VInt (Qtrunc ((2 # 10) *
                total_seconds (Burst.burstStopUTC burstEnd) (ascendingNodeTime obj)))]>
      metadata in
  Ok (metadata, burst).

Definition extract_stripmap_metadata (meta_file : string)
  : result (dict * Frame.t) :=
  let^ frame :=
    if String.eqb (basename meta_file) "data.dat"
    then shelve_frame E (splitext_root meta_file)
    else if endswith meta_file ".xml" then load_frame E meta_file
    else Raise ValueError in
  let metadata : dict := ∅ in
  let metadata := <["prf" := VFloat (Frame.PRF frame)]> metadata in
  let metadata := <["startUTC" := VDate (Frame.sensingStart frame)]> metadata in
  let metadata := <["stopUTC" := VDate (Frame.sensingStop frame)]> metadata in
  let metadata := <["radarWavelength" := VFloat (Frame.radarWavelegth frame)]> metadata in
  let metadata := <["startingRange" := VFloat (Frame.startingRange frame)]> metadata in
  let pol := remove_slashes (py_str (Frame.polarization frame)) in
  let pol := if startswith pol "b'" then slice 2 4 pol else pol in
  let metadata := <["polarization" := VStr pol]> metadata in
  let metadata := <["trackNumber" := VInt (Frame.trackNumber frame)]> metadata in
  let metadata := <["orbitNumber" := VInt (Frame.orbitNumber frame)]> metadata in
  let time_seconds := center_line_utc (Frame.sensingStart frame) in
  let metadata := <["CENTER_LINE_UTC" := VFloat time_seconds]> metadata in
  let orbit := Frame.orbit frame in
  let^ (peg, Vs) := speed_at orbit (Frame.sensingMid frame) in
  let metadata :=
    <["azimuthResolution" := VFloat (Frame.antennaLength frame / 2)]> metadata in
  let^ azps := py_div (VFloat Vs) (VFloat (Frame.PRF frame)) in
  let metadata := <["azimuthPixelSize" := azps]> metadata in
  let rgBandwidth := (Frame.pulseLength frame * Frame.chirpSlope frame)%Q in
  let^ rgres := py_div (VFloat SPEED_OF_LIGHT) (VFloat (2 * rgBandwidth)) in
  let metadata :=
    <["rangeResolution" :=
        match rgres with VFloat q => VFloat (Qabs q) | v => v end]> metadata in
  let metadata := <["rangePixelSize" := VFloat (Frame.rangePixelSize frame)]> metadata in
  let '(lat, lon, hgt) := xyz_to_llh E (getPosition peg) in
  let metadata :=
    <["earthRadius" :=
        VFloat (pegRadCur E lat lon (getENUHeading orbit (Frame.sensingMid frame)))]>
      metadata in
  let metadata := <["altitude" := VFloat hgt]> metadata in
  let metadata := <["beam_mode" := VStr "SM"]> metadata in
  Ok (metadata, frame).

(** [int(int(full[key]) / int(xml[key]))] *)
Definition looks_ratio (full xml : gmap string string) (key : string) : result Z :=
  let^ a := getitem full key in
  let^ a := int_of_str E a in
  let^ b := getitem xml key in
  let^ b := int_of_str E b in
  let^ q := int_true_div a b in
  Ok (Qtrunc q).

Section Multilook.

Variable w : World.
Variable geom_dir : string.

(** The loop over ['hgt','lat','lon','los'] of [extract_multilook_number] *)
Fixpoint looks_loop (fbases : list string) : M unit :=
  match fbases with
  | [] => ret tt
  | fb :: rest =>
      let fbase := join geom_dir fb in
      let fnames := (glob w (fbase ++ "*.rdr") ++ glob w (fbase ++ "*.geo"))%list in
      match fnames with
      | [] => looks_loop rest
      | f0 :: _ =>
          let fullXmlFile := f0 ++ ".full.xml" in
          if isfile w fullXmlFile then
            fullXmlDict <- lift (read_isce_xml E fullXmlFile) ;;
            xmlDict <- lift (read_attribute E f0) ;;
            a <- lift (looks_ratio fullXmlDict xmlDict "LENGTH") ;;
            set "ALOOKS" (VInt a) ;;;
            r <- lift (looks_ratio fullXmlDict xmlDict "WIDTH") ;;
            set "RLOOKS" (VInt r)
          else looks_loop rest
      end
  end.

(** [if key not in metadata: metadata[key] = 1] *)
Definition set_default (k : string) : M unit :=
  fun md => match md !! k with
            | Some _ => (Ok tt, md)
            | None => (Ok tt, <[k := VInt 1]> md)
            end.

Definition extract_multilook_number : M unit :=
  looks_loop ["hgt"; "lat"; "lon"; "los"] ;;;
  set_default "ALOOKS" ;;;
  set_default "RLOOKS" ;;;
  rr <- get "rangeResolution" ;;
  rp <- get "rangePixelSize" ;;
  rgfact <- lift (py_div rr rp) ;;
  ar <- get "azimuthResolution" ;;
  ap <- get "azimuthPixelSize" ;;
  azfact <- lift (py_div ar ap) ;;
  rl <- get "RLOOKS" ;;
  al <- get "ALOOKS" ;;
  looks <- lift (py_mul rl al) ;;
  fact <- lift (py_mul rgfact azfact) ;;
  n <- lift (py_div looks fact) ;;
  set "NCORRLOOKS" n.

End Multilook.

(** ** Geometry rasters *)

(** A pixel is true unless it is zero (not-a-number is true). *)
Definition nonzero (x : option Q) : bool :=
  match x with
  | Some q => negb (Qeq_bool q 0)
  | None => true
  end.

(** [a[i]] of numpy or Python, a negative index counting from the end *)
Definition np_index {A} (l : list A) (i : Z) : result A :=
  let n := Z.of_nat (List.length l) in
  if ((0 <=? i) && (i <? n))%Z then index l (Z.to_nat i)
  else if ((i <? 0) && (0 <=? n + i))%Z then index l (Z.to_nat (n + i))
  else Raise IndexError.

(** [data[r, c]] *)
Definition np_index2 (data : raster) (r c : Z) : result (option Q) :=
  let^ row := np_index data r in np_index row c.

(** The indices of the rows of a rectangular raster without a zero *)
Definition full_rows (data : raster) : list Z :=
  fst <$> List.filter (fun p => forallb nonzero (snd p))
                      (zip (Z.of_nat <$> seq 0 (List.length data)) data).

Definition get_nonzero_row_number (data : raster) (buffer : Z) : result (Z * Z) :=
  if forallb (forallb nonzero) data then Ok (0 + buffer, -1 - buffer)
  else
    let row_idx := full_rows data in
    let^ first := index row_idx 0 in
    let^ last := index_last row_idx in
    Ok (first + buffer, last - buffer).

Definition str_pixel (x : option Q) : pyval :=
  VStr (match x with Some q => float_repr E q | None => "nan" end).

(** The pixels [np.nanmean] averages once [data[data == 0.] = np.nan] *)
Definition nonzero_pixels (data : raster) : list Q :=
  omap (fun x => match x with
                 | Some q => if Qeq_bool q 0 then None else Some q
                 | None => None
                 end) (List.concat data).

Definition Qsum (l : list Q) : Q := foldr Qplus 0%Q l.

Definition nanmean (data : raster) : option Q :=
  match nonzero_pixels data with
  | [] => None
  | l => Some (Qsum l / inject_Z (Z.of_nat (List.length l)))%Q
  end.

(** [np.round]: to the nearest integer, halves to the even one *)
Definition np_round (q : Q) : Z :=
  let f := Qfloor q in
  let d := (q - inject_Z f)%Q in
  match Qcompare d (1 # 2) with
  | Lt => f
  | Gt => f + 1
  | Eq => if Z.even f then f else f + 1
  end.

(** [head_angle = -1 * (270 + az_angle)] reduced by
    [np.round(head_angle / 360.) * 360.] *)
Definition heading_of (az_angle : Q) : Q :=
  let head_angle := (-1 * (270 + az_angle))%Q in
  (head_angle - inject_Z (np_round (head_angle / 360)) * 360)%Q.

Definition heading_str (data : raster) : pyval :=
  VStr (match nanmean data with
        | Some az_angle => float_repr E (heading_of az_angle)
        | None => "nan"
        end).

(** [sub in s] *)
Fixpoint contains_go (sub s : list ascii) : bool :=
  starts_with sub s ||
  match s with
  | [] => false
  | _ :: s' => contains_go sub s'
  end.
Definition contains (sub s : string) : bool := contains_go (chars sub) (chars s).

Section Geometry.

Variable w : World.
Variable geom_dir : string.

(** The four corner values of a lat or lon raster *)
Definition set_corners (pre : string) (geom_file : string) : M unit :=
  data <- lift (read_raster E geom_file None) ;;
  rr <- lift (get_nonzero_row_number data 2) ;;
  let '(r0, r1) := rr in
  v <- lift (np_index2 data r0 0) ;;
  set (pre ++ "_REF1") (str_pixel v) ;;;
  v <- lift (np_index2 data r0 (-1)) ;;
  set (pre ++ "_REF2") (str_pixel v) ;;;
  v <- lift (np_index2 data r1 0) ;;
  set (pre ++ "_REF3") (str_pixel v) ;;;
  v <- lift (np_index2 data r1 (-1)) ;;
  set (pre ++ "_REF4") (str_pixel v).

Definition when (b : bool) (m : M unit) : M unit := if b then m else ret tt.

(** The body of the loop over the geometry files *)
Definition geom_step (geom_file : string) : M unit :=
  when (contains "lat" (basename geom_file)) (set_corners "LAT" geom_file) ;;;
  when (contains "lon" (basename geom_file)) (set_corners "LON" geom_file) ;;;
  when (contains "los" (basename geom_file))
    (data <- lift (read_raster E geom_file (Some "az")) ;;
     set "HEADING" (heading_str data)).

Fixpoint forM (l : list string) (f : string -> M unit) : M unit :=
  match l with
  | [] => ret tt
  | x :: l' => f x ;;; forM l' f
  end.

Definition geom_files : list string :=
  List.filter (isfile w)
    ((fun i => join (abspath E geom_dir) (i ++ ".rdr")) <$> ["hgt"; "lat"; "lon"; "los"]).

(** [metadata[k] *= metadata[k2]] *)
Definition imul (k k2 : string) : M unit :=
  a <- get k ;; b <- get k2 ;; c <- lift (py_mul a b) ;; set k c.

Definition extract_geometry_metadata : M unit :=
  extract_multilook_number w geom_dir ;;;
  imul "rangePixelSize" "RLOOKS" ;;;
  imul "azimuthPixelSize" "ALOOKS" ;;;
  forM geom_files geom_step.

End Geometry.
(** ** Sidecar files

    [ut.run_or_skip], [readfile.read_roipac_rsc] and
    [writefile.write_roipac_rsc] belong to [mintpy.utils]. *)

Inductive run_flag : Type := run | skip.

(** Modelled from the spec: [ut.run_or_skip(out_file, in_file)] is the
    freshness check against file modification times; the output is current
    when it exists and the input was not modified after it. *)
Definition run_or_skip (w : World) (out_file in_file : string) : run_flag :=
  match files w !! out_file with
  | None => run
  | Some fo =>
      match files w !! in_file with
      | Some fi => if (mtime fo <? mtime fi)%Z then run else skip
      | None => skip
      end
  end.

(** Modelled from the spec: [readfile.read_roipac_rsc] reads the flat
    string-valued key/value pairs of a sidecar file. *)
Definition read_roipac_rsc (w : World) (rsc_file : string) : result dict :=
  match files w !! rsc_file with
  | Some f => Ok (VStr <$> rsc f)
  | None => Raise FileNotFoundError
  end.

(** Modelled from the spec: [writefile.write_roipac_rsc] serialises a
    dictionary as flat string-valued key/value pairs into the sidecar
    file; in update mode a file that already holds exactly these pairs is
    current and is left alone. *)
Definition write_roipac_rsc (metadata : dict) (out_file : string)
    (update_mode : bool) : IO unit :=
  fun w =>
    let pairs := py_str <$> metadata in
    if update_mode &&
       bool_decide (rsc <$> files w !! out_file = Some pairs)
    then (Ok tt, w)
    else (Ok tt, {| files := <[out_file := File (clock w) pairs]> (files w);
                    dirs := dirs w;
                    clock := clock w + 1 |}).

(** Python truth of an optional string argument: the string when the
    argument is neither [None] nor empty *)
Definition truthy (s : option string) : option string :=
  match s with
  | Some s => if String.eqb s "" then None else Some s
  | None => None
  end.

(** The extraction proper of [extract_isce_metadata]: everything after the
    check of the existing rsc file. *)
Definition extract_and_write (meta_file : string) (geom_dir : option string)
    (rsc_file : option string) : IO dict :=
  fun w =>
    let res :=
      let^ processor := get_processor w (Some meta_file) in
      let^ metadata :=
        if String.eqb processor "tops"
        then let^ r := extract_tops_metadata w meta_file in Ok (fst r)
        else let^ r := extract_stripmap_metadata meta_file in Ok (fst r) in
      let^ metadata :=
        match truthy geom_dir with
        | Some g =>
            match extract_geometry_metadata w g metadata with
            | (Ok _, md) => Ok md
            | (Raise e, _) => Raise e
            end
        | None => Ok metadata
        end in
      let metadata := <["PROCESSOR" := VStr "isce"]> metadata in
      let metadata := <["ANTENNA_SIDE" := VStr "-1"]> metadata in
      let metadata : dict := (fun value => VStr (py_str value)) <$> metadata in
      Ok (standardize_metadata E metadata) in
    match res with
    | Raise e => (Raise e, w)
    | Ok metadata =>
        match truthy rsc_file with
        | Some r => (write_roipac_rsc metadata r false ;;; ret metadata) w
        | None => (Ok metadata, w)
        end
    end.

Definition default_rsc_file (meta_file : string) (rsc_file : option string)
  : string :=
  match truthy rsc_file with
  | Some r => r
  | None => join (dirname meta_file) "data.rsc"
  end.

Definition extract_isce_metadata (meta_file : string) (geom_dir : option string)
    (rsc_file : option string) (update_mode : bool) : IO dict :=
  fun w =>
    let rsc_file := default_rsc_file meta_file rsc_file in
    if update_mode &&
       match run_or_skip w rsc_file meta_file with skip => true | run => false end
    then (read_roipac_rsc w rsc_file, w)
    else extract_and_write meta_file geom_dir (Some rsc_file) w.

(** ** Interferogram metadata and baselines *)

(** Python truth of the [baseline_dict] argument: [None] and the empty
    dictionary are false. *)
Definition truthy_dict (b : option baselines) : option baselines :=
  match b with
  | Some d => if bool_decide (d = ∅) then None else Some d
  | None => None
  end.

Definition add_ifgram_metadata (metadata_in : dict) (dates : list string)
    (baseline_dict : option baselines) : result dict :=
  let metadata := metadata_in in
  let^ d0 := index dates 0 in
  let^ d1 := index dates 1 in
  let metadata :=
    <["DATE12" := VStr (slice_from 2 d0 ++ "-" ++ slice_from 2 d1)]> metadata in
  match truthy_dict baseline_dict with
  | Some bd =>
      let^ b1 := getitem bd d1 in
      let^ b0 := getitem bd d0 in
      let^ bperp_top := py_sub (fst b1) (fst b0) in
      let^ b1 := getitem bd d1 in
      let^ b0 := getitem bd d0 in
      let^ bperp_bottom := py_sub (snd b1) (snd b0) in
      let metadata := <["P_BASELINE_TOP_HDR" := VStr (py_str bperp_top)]> metadata in
      let metadata := <["P_BASELINE_BOTTOM_HDR" := VStr (py_str bperp_bottom)]> metadata in
      Ok metadata
  | None => Ok metadata
  end.

(** [np.mean] of a list of floats: not-a-number for the empty list *)
Definition np_mean (l : list pyval) : pyval :=
  match l with
  | [] => VNaN
  | _ =>
      match mapM (fun v => match to_Q v with Some q => Ok q | None => Raise ValueError end) l with
      | Ok qs => VFloat (Qsum qs / inject_Z (Z.of_nat (List.length qs)))
      | Raise _ => VNaN
      end
  end.

(** The values after ["Bperp (average)"] of a TOPS baseline file *)
Fixpoint bperp_values (lines : list string) : result (list pyval) :=
  match lines with
  | [] => Ok []
  | line :: rest =>
      let l := split line ":" in
      let^ l0 := index l 0 in
      if String.eqb l0 "Bperp (average)" then
        let^ l1 := index l 1 in
        let^ v := float_of_str E l1 in
        let^ vs := bperp_values rest in
        Ok (v :: vs)
      else bperp_values rest
  end.

Definition read_tops_baseline (baseline_file : string) : result (pyval * pyval) :=
  let^ lines := read_lines E baseline_file in
  let^ bperps := bperp_values lines in
  let bperp_top := np_mean bperps in
  let bperp_bottom := np_mean bperps in
  Ok (bperp_top, bperp_bottom).

Definition read_stripmap_baseline (baseline_file : string)
  : result (pyval * pyval) :=
  let^ fDict := read_template E baseline_file in
  let^ t := getitem fDict "PERP_BASELINE_TOP" in
  let^ bperp_top := float_of_str E t in
  let^ b := getitem fDict "PERP_BASELINE_BOTTOM" in
  let^ bperp_bottom := float_of_str E b in
  Ok (bperp_top, bperp_bottom).

(** Modelled from the spec: [ut.most_common(L)] is the most common item
    of a list, the earliest one among equally common items. *)
Definition most_common (L : list string) : result string :=
  match L with
  | [] => Raise IndexError
  | x :: _ =>
      Ok (foldl (fun best y =>
                   if (count_occ string_dec L best <? count_occ string_dec L y)%nat
                   then y else best) x L)
  end.

(** [os.path.basename(i).split('_')[0]] *)
Definition first_date (path : string) : string :=
  hd "" (split (basename path) "_").

(** [os.path.basename(bFile).split('.txt')[0].split('_')] *)
Definition file_dates (path : string) : list string :=
  split (hd "" (split (basename path) ".txt")) "_".

(** The loop that fills [bDict]; the second component is the variable
    [dates] as the last iteration leaves it. *)
Fixpoint read_baselines (read : string -> result (pyval * pyval))
    (bFiles : list string) (bDict : baselines) (dates : option (list string))
  : result (baselines * option (list string)) :=
  match bFiles with
  | [] => Ok (bDict, dates)
  | bFile :: rest =>
      let dates := file_dates bFile in
      let^ v := read bFile in
      let^ d1 := index dates 1 in
      read_baselines read rest (<[d1 := v]> bDict) (Some dates)
  end.

Definition baseline_files (w : World) (baseline_dir processor : string)
  : result (list string) :=
  if String.eqb processor "tops"
  then Ok (sorted (glob w (join baseline_dir "*/*.txt")))
  else if String.eqb processor "stripmap"
  then Ok (sorted (glob w (join baseline_dir "*.txt")))
  else Raise ValueError.

Definition read_baseline_timeseries (w : World) (baseline_dir processor : string)
  : result (option baselines) :=
  let^ bFiles := baseline_files w baseline_dir processor in
  if (List.length bFiles =? 0)%nat then Ok None
  else
    let date1s := first_date <$> bFiles in
    let^ date1 := most_common date1s in
    let bFiles := List.filter (fun i => String.eqb (first_date i) date1) bFiles in
    let^ r := read_baselines
                (if String.eqb processor "tops"
                 then read_tops_baseline else read_stripmap_baseline)
                bFiles ∅ None in
    match snd r with
    | None => Raise UnboundLocalError
    | Some dates =>
        let^ d0 := index dates 0 in
        Ok (Some (<[d0 := (VInt 0, VInt 0)]> (fst r)))
    end.

(** ** Writing the sidecar files *)

Fixpoint forIO (l : list string) (f : string -> IO unit) : IO unit :=
  match l with
  | [] => ret tt
  | x :: l' => f x ;;; forIO l' f
  end.

(** [d = read_attribute(f, metafile_ext='.xml'); d.update(metadata)] *)
Definition attributes_with (metadata : dict) (isce_file : string) : result dict :=
  let^ attrs := read_attribute E isce_file in
  Ok (metadata ∪ (VStr <$> attrs)).

Definition prepare_geometry (geom_dir : string) (metadata : dict)
    (update_mode : bool) : IO dict :=
  fun w =>
    let isce_files :=
      List.filter (isfile w)
        ((fun i => join (abspath E geom_dir) (i ++ ".rdr")) <$>
           ["hgt"; "lat"; "lon"; "los"; "shadowMask"; "incLocal"]) in
    (forIO isce_files (fun isce_file =>
       geom_metadata <- lift (attributes_with metadata isce_file) ;;
       let rsc_file := isce_file ++ ".rsc" in
       write_roipac_rsc geom_metadata rsc_file update_mode) ;;;
     ret metadata) w.

(** The metadata [prepare_stack] writes for one interferogram file *)
Definition ifgram_metadata (metadata : dict) (baseline_dict : option baselines)
    (isce_file : string) : result dict :=
  let^ ifg_metadata := attributes_with metadata isce_file in
  let dates := split (basename (dirname isce_file)) "_" in
  add_ifgram_metadata ifg_metadata dates baseline_dict.

Definition stack_files (w : World) (inputDir filePattern : string) : list string :=
  sorted (glob w (join (join (abspath E inputDir) "*") filePattern)).

Definition prepare_stack (inputDir filePattern : string) (metadata : dict)
    (baseline_dict : option baselines) (update_mode : bool) : IO unit :=
  fun w =>
    let isce_files := stack_files w inputDir filePattern in
    if (List.length isce_files =? 0)%nat then (Raise FileNotFoundError, w)
    else
      forIO isce_files (fun isce_file =>
        ifg_metadata <- lift (ifgram_metadata metadata baseline_dict isce_file) ;;
        let rsc_file := isce_file ++ ".rsc" in
        write_roipac_rsc ifg_metadata rsc_file update_mode) w.

(** ** The command line *)

(** The namespace [argparse] returns; an option that was not given holds
    its default. *)
Record Inps : Type := {
  ifgramDir : option string;
  ifgramFiles : list string;
  metaFile : option string;
  baselineDir : option string;
  geometryDir : option string;
  update_mode : bool;
}.

Definition is_truthy (s : option string) : bool :=
  match truthy s with Some _ => true | None => false end.

(** The check [cmd_line_parse] makes on the parsed arguments *)
Definition cmd_line_parse (inps : Inps) : result Inps :=
  if forallb (fun i => negb (is_truthy i))
       [ifgramDir inps; geometryDir inps; metaFile inps]
  then Raise SystemExit
  else Ok inps.

Definition main (iargs : Inps) : IO unit :=
  inps <- lift (cmd_line_parse iargs) ;;
  processor <- (fun w => (get_processor w (metaFile inps), w)) ;;
  metadata <-
    match truthy (metaFile inps) with
    | Some m => extract_isce_metadata m (geometryDir inps) None (update_mode inps)
    | None => ret ∅
    end ;;
  metadata <-
    match truthy (geometryDir inps) with
    | Some g => prepare_geometry g metadata (update_mode inps)
    | None => ret metadata
    end ;;
  baseline_dict <-
    match truthy (baselineDir inps) with
    | Some b => fun w => (read_baseline_timeseries w b processor, w)
    | None => ret (Some ∅)
    end ;;
  match truthy (ifgramDir inps) with
  | Some d =>
      forIO (ifgramFiles inps) (fun namePattern =>
        prepare_stack d namePattern metadata baseline_dict (update_mode inps))
  | None => ret tt
  end.

End Program.

(** * Vocabulary of the properties *)

(** Some path that exists in the world, a file or a directory, matches
    the pattern. *)
Definition file_matching (w : World) (pat : string) : Prop :=
  exists p, p ∈ entries w /\ glob_match pat p = true.

(** [glob.has_magic]: the text holds a wildcard character. *)
Definition has_magic (s : list ascii) : bool :=
  existsb (fun c => Ascii.eqb c "*"%char || Ascii.eqb c "?"%char
                    || Ascii.eqb c "["%char) s.

(** The components of a path, and the components put together again *)
Definition comps (s : list ascii) : list (list ascii) := split_go [slash] O [] s.

Fixpoint glue (l : list (list ascii)) : list ascii :=
  match l with
  | [] => []
  | [x] => x
  | x :: l' => (x ++ slash :: glue l')%list
  end.

(** Every value of the dictionary is a string. *)
Definition all_str (md : dict) : Prop := map_Forall (fun _ v => is_str v = true) md.

(** A computation leaves the keys satisfying [P] as they are, however it
    ends. *)
Definition preserves (P : string -> Prop) {B} (m : M B) : Prop :=
  forall st r st', m st = (r, st') -> forall k, P k -> st' !! k = st !! k.

(** The keys the loop over the geometry files writes *)
Definition geometry_keys : list string :=
  ["LAT_REF1"; "LAT_REF2"; "LAT_REF3"; "LAT_REF4";
   "LON_REF1"; "LON_REF2"; "LON_REF3"; "LON_REF4"; "HEADING"].

(** A file name without a slash *)
Definition slash_free (s : list ascii) : Prop :=
  forallb (fun c => negb (Ascii.eqb c slash)) s = true.

(** The value [extract_multilook_number] stores under [NCORRLOOKS] *)
Definition ncorrlooks_of (md : dict) : result pyval :=
  let^ rr := getitem md "rangeResolution" in
  let^ rp := getitem md "rangePixelSize" in
  let^ rgfact := py_div rr rp in
  let^ ar := getitem md "azimuthResolution" in
  let^ ap := getitem md "azimuthPixelSize" in
  let^ azfact := py_div ar ap in
  let^ rl := getitem md "RLOOKS" in
  let^ al := getitem md "ALOOKS" in
  let^ looks := py_mul rl al in
  let^ fact := py_mul rgfact azfact in
  py_div looks fact.

(** What the loop of [extract_multilook_number] writes *)
Inductive looks_written : Type :=
  | NoLooks
  | OnlyALOOKS (a : Z)
  | BothLooks (a r : Z).

Definition write_looks (lw : looks_written) (md : dict) : dict :=
  match lw with
  | NoLooks => md
  | OnlyALOOKS a => <["ALOOKS" := VInt a]> md
  | BothLooks a r => <["RLOOKS" := VInt r]> (<["ALOOKS" := VInt a]> md)
  end.

(** The dictionary after [if k not in metadata: metadata[k] = 1] *)
Definition defaulted (k : string) (md : dict) : dict :=
  match md !! k with
  | Some _ => md
  | None => <[k := VInt 1]> md
  end.

Definition ncorrlooks_step : M unit :=
  rr <- get "rangeResolution" ;;
  rp <- get "rangePixelSize" ;;
  rgfact <- lift (py_div rr rp) ;;
  ar <- get "azimuthResolution" ;;
  ap <- get "azimuthPixelSize" ;;
  azfact <- lift (py_div ar ap) ;;
  rl <- get "RLOOKS" ;;
  al <- get "ALOOKS" ;;
  looks <- lift (py_mul rl al) ;;
  fact <- lift (py_mul rgfact azfact) ;;
  n <- lift (py_div looks fact) ;;
  set "NCORRLOOKS" n.

(** The body of the loop of [prepare_stack] *)
Definition stack_step (E : Extern) (metadata : dict)
    (baseline_dict : option baselines) (update_mode : bool)
    (isce_file : string) : IO unit :=
  ifg_metadata <- lift (ifgram_metadata E metadata baseline_dict isce_file) ;;
  let rsc_file := isce_file ++ ".rsc" in
  write_roipac_rsc E ifg_metadata rsc_file update_mode.

(** The sidecar of [f] holds the metadata built for [f]. *)
Definition has_sidecar (E : Extern) (metadata : dict)
    (baseline_dict : option baselines) (w : World) (f : string) : Prop :=
  exists md file,
    ifgram_metadata E metadata baseline_dict f = Ok md
    /\ files w !! (f ++ ".rsc") = Some file
    /\ rsc file = py_str E <$> md.

(** * A sample environment

    One TOPS reference product, one stripmap shelve, a geometry directory
    with multilooked rasters, one interferogram and one baseline file. *)

Module Demo.

Definition orbit : Orbit := {|
  interpolateOrbit := fun _ => Ok {| getPosition := [0; 0; 7071000]%Q;
                                     getVelocity := [0; 7000; 0]%Q |};
  getENUHeading := fun _ => (-13)%Q;
|}.

Definition burst : Burst.t := {|
  Burst.prf := 486;
  Burst.burstStartUTC := 1418432461000000;
  Burst.burstStopUTC := 1418432464000000;
  Burst.radarWavelength := 5547 # 100000;
  Burst.startingRange := 800000;
  Burst.passDirection := "DESCENDING";
  Burst.polarization := "vv";
  Burst.trackNumber := 156;
  Burst.orbitNumber := 3673;
  Burst.sensingMid := 1418432462500000;
  Burst.azimuthTimeInterval := 2 # 1000;
  Burst.rangePixelSize := 23 # 10;
  Burst.swathNumber := 1;
  Burst.orbit := orbit;
|}.

Definition product : TopsProduct := {|
  bursts := [burst];
  ascendingNodeTime := 1418430000000000;
|}.

Definition frame : Frame.t := {|
  Frame.PRF := 2000;
  Frame.sensingStart := 1336348800000000;
  Frame.sensingStop := 1336348810000000;
  Frame.sensingMid := 1336348805000000;
  Frame.radarWavelegth := 236 # 1000;
  Frame.startingRange := 850000;
  Frame.polarization := VBytes "HH";
  Frame.trackNumber := 0;
  Frame.orbitNumber := 0;
  Frame.orbit := orbit;
  Frame.antennaLength := 89 # 10;
  Frame.pulseLength := 27 # 1000000;
  Frame.chirpSlope := 1037037037037;
  Frame.rangePixelSize := 468 # 100;
|}.

Definition digit (c : ascii) : option Z :=
  let n := Z.of_nat (nat_of_ascii c) in
  if ((48 <=? n) && (n <=? 57))%Z then Some (n - 48) else None.

Fixpoint digits (acc : Z) (s : list ascii) : result Z :=
  match s with
  | [] => Ok acc
  | c :: s' =>
      match digit c with
      | Some d => digits (10 * acc + d) s'
      | None => Raise ValueError
      end
  end.

(** Decimal integers, with an optional minus sign *)
Definition parse_int (s : string) : result Z :=
  match chars s with
  | [] => Raise ValueError
  | c :: s' =>
      if Ascii.eqb c "-"%char
      then match s' with
           | [] => Raise ValueError
           | _ => let^ z := digits 0 s' in Ok (- z)
           end
      else digits 0 (c :: s')
  end.

Definition lookup_or {A} (tbl : list (string * A)) (e : exn) (k : string) : result A :=
  match List.find (fun p => String.eqb (fst p) k) tbl with
  | Some p => Ok (snd p)
  | None => Raise e
  end.

Definition los_az : raster :=
  [[Some (-100)%Q; Some 0%Q]; [Some (-102)%Q; None]].

(** An [az] dataset without data: every pixel is zero *)
Definition zero_az : raster := [[Some 0%Q; Some 0%Q]; [Some 0%Q; Some 0%Q]].

Definition lat : raster :=
  [[Some 31%Q; Some 32%Q]; [Some 33%Q; Some 34%Q]; [Some 35%Q; Some 36%Q];
   [Some 37%Q; Some 38%Q]; [Some 39%Q; Some 40%Q]].

Definition extern : Extern := {|
  float_repr := fun q => pretty (Qnum (Qred q)) ++ "/" ++ pretty (Z.pos (Qden (Qred q)));
  date_repr := fun us => pretty us;
  int_of_str := parse_int;
  float_of_str := fun s =>
    if String.eqb s "nan" then Ok VNaN
    else let^ z := parse_int (str_of (strip_leading " "%char (chars s))) in
         Ok (VFloat (inject_Z z));
  abspath := fun p => if startswith p "/" then p else "/cwd/" ++ p;
  norm := fun v => Qsum (Qabs <$> v);
  xyz_to_llh := fun _ => (34, -118, 700000)%Q;
  pegRadCur := fun _ _ _ => 6371000%Q;
  load_tops := lookup_or [("/m/IW1.xml", product)] FileNotFoundError;
  load_frame := lookup_or [("/x/20120507_slc_crop.xml", frame)] FileNotFoundError;
  shelve_frame := lookup_or [("/s/data", frame)] FileNotFoundError;
  read_isce_xml :=
    lookup_or [("/g/hgt.rdr.full.xml",
                {["LENGTH" := "4"; "WIDTH" := "6"]} : gmap string string)]
      FileNotFoundError;
  read_attribute :=
    lookup_or [("/g/hgt.rdr", {["LENGTH" := "2"; "WIDTH" := "3"]} : gmap string string);
               ("/g/lat.rdr", {["LENGTH" := "2"; "WIDTH" := "3"]} : gmap string string);
               ("/g/los.rdr", {["LENGTH" := "2"; "WIDTH" := "3"]} : gmap string string);
               ("/i/20141213_20141225/filt_fine.unw",
                {["LENGTH" := "2"; "WIDTH" := "3"]} : gmap string string);
               ("/j/nodate/filt_fine.unw",
                {["LENGTH" := "2"; "WIDTH" := "3"]} : gmap string string)]
      FileNotFoundError;
  read_raster := fun f ds =>
    match ds with
    | Some _ =>
        lookup_or [("/g/los.rdr", los_az); ("/z/los.rdr", zero_az)] FileNotFoundError f
    | None => lookup_or [("/g/lat.rdr", lat)] FileNotFoundError f
    end;
  read_lines :=
    lookup_or [("/b/20141213_20141225/20141213_20141225.txt",
                ["Bperp (average): 104"; "Bperp (average): 110"; "Bpar: 3"])]
      FileNotFoundError;
  read_template := lookup_or [] FileNotFoundError;
  standardize_metadata := fun md =>
    match md !! "prf" with
    | Some v => <["PRF" := v]> md
    | None => md
    end;
|}.

Definition plain (t : Z) : file := File t ∅.

Definition world : World := {|
  files :=
    {[ "/m/IW1.xml" := plain 5;
       "/m/data.rsc" := File 7 {["PROCESSOR" := "isce"]};
       "/s/data.dat" := plain 3;
       "/g/hgt.rdr" := plain 4;
       "/g/hgt.rdr.full.xml" := plain 4;
       "/g/lat.rdr" := plain 4;
       "/g/los.rdr" := plain 4;
       "/z/los.rdr" := plain 4;
       "/i/20141213_20141225/filt_fine.unw" := plain 6;
       "/j/nodate/filt_fine.unw" := plain 6;
       "/b/20141213_20141225/20141213_20141225.txt" := plain 6 ]};
  dirs := ∅;
  clock := 100;
|}.

(** Single-look metadata as the TOPS extraction leaves it for IW1 *)
Definition single_look : dict :=
  {[ "rangeResolution" := VFloat (27 # 10); "rangePixelSize" := VFloat (23 # 10);
     "azimuthResolution" := VFloat (225 # 10); "azimuthPixelSize" := VFloat 14 ]}.

(** The value under a key of the dictionary a run returned *)
Definition returned {S} (r : result dict * S) (k : string) : option pyval :=
  match fst r with
  | Ok md => md !! k
  | Raise _ => None
  end.

End Demo.

(** * Vocabulary of the further properties *)

(** The sub-swath whose resolution [extract_tops_metadata] looks up *)
Definition iw_str_of (xml_file : string) : string :=
  if startswith (basename xml_file) "IW"
  then splitext_root (basename xml_file)
  else "IW2".

(** The frame [extract_stripmap_metadata] reads *)
Definition stripmap_frame (E : Extern) (meta_file : string) : result Frame.t :=
  if String.eqb (basename meta_file) "data.dat"
  then shelve_frame E (splitext_root meta_file)
  else if endswith meta_file ".xml" then load_frame E meta_file
  else Raise ValueError.

(** The polarization string [extract_stripmap_metadata] stores *)
Definition stripmap_polarization (E : Extern) (frame : Frame.t) : string :=
  let pol := remove_slashes (py_str E (Frame.polarization frame)) in
  if startswith pol "b'" then slice 2 4 pol else pol.

(** A byte that [repr] writes as itself between single quotes, and that is
    no slash: a printable character other than the single quote, the
    backslash and the slash *)
Definition plain_byte (c : ascii) : bool :=
  negb (Ascii.eqb c squote) && negb (Ascii.eqb c backslash)
  && negb (Ascii.eqb c slash)
  && (32 <=? nat_of_ascii c)%nat && (nat_of_ascii c <? 127)%nat.

(** A computation never removes a key, however it ends. *)
Definition keeps_keys {B} (m : M B) : Prop :=
  forall st r st', m st = (r, st') ->
                   forall k, is_Some (st !! k) -> is_Some (st' !! k).

(** The keys [extract_geometry_metadata] may write *)
Definition geometry_written : list string :=
  ["ALOOKS"; "RLOOKS"; "NCORRLOOKS"; "rangePixelSize"; "azimuthPixelSize"]
  ++ geometry_keys.

(** Writing the sidecar of one file: the metadata is built for the file
    and written beside it; the loops of [prepare_geometry] and
    [prepare_stack] run this step on each file. *)
Definition sidecar_step (E : Extern) (build : string -> result dict)
    (update_mode : bool) (isce_file : string) : IO unit :=
  md <- lift (build isce_file) ;;
  write_roipac_rsc E md (isce_file ++ ".rsc") update_mode.

(** The sidecar of [f] holds the metadata built for [f]. *)
Definition sidecar_holds (E : Extern) (build : string -> result dict)
    (w : World) (f : string) : Prop :=
  exists md file,
    build f = Ok md /\ files w !! (f ++ ".rsc") = Some file
    /\ rsc file = py_str E <$> md.

(** The geometry files [prepare_geometry] looks for *)
Definition geometry_rdr_files (E : Extern) (w : World) (geom_dir : string)
  : list string :=
  List.filter (isfile w)
    ((fun i => join (abspath E geom_dir) (i ++ ".rdr")) <$>
       ["hgt"; "lat"; "lon"; "los"; "shadowMask"; "incLocal"]).

(** The sample environment with a [standardize_metadata] that adds no
    key. *)
Module Demo2.

Definition extern : Extern := {|
  float_repr := float_repr Demo.extern;
  date_repr := date_repr Demo.extern;
  int_of_str := int_of_str Demo.extern;
  float_of_str := float_of_str Demo.extern;
  abspath := abspath Demo.extern;
  norm := norm Demo.extern;
  xyz_to_llh := xyz_to_llh Demo.extern;
  pegRadCur := pegRadCur Demo.extern;
  load_tops := load_tops Demo.extern;
  load_frame := load_frame Demo.extern;
  shelve_frame := shelve_frame Demo.extern;
  read_isce_xml := read_isce_xml Demo.extern;
  read_attribute := read_attribute Demo.extern;
  read_raster := read_raster Demo.extern;
  read_lines := read_lines Demo.extern;
  read_template := read_template Demo.extern;
  standardize_metadata := fun md => md;
|}.

End Demo2.

(** An environment in which every raster is the given one *)
Definition with_raster (E : Extern) (data : raster) : Extern := {|
  float_repr := float_repr E;
  date_repr := date_repr E;
  int_of_str := int_of_str E;
  float_of_str := float_of_str E;
  abspath := abspath E;
  norm := norm E;
  xyz_to_llh := xyz_to_llh E;
  pegRadCur := pegRadCur E;
  load_tops := load_tops E;
  load_frame := load_frame E;
  shelve_frame := shelve_frame E;
  read_isce_xml := read_isce_xml E;
  read_attribute := read_attribute E;
  read_raster := fun _ _ => Ok data;
  read_lines := read_lines E;
  read_template := read_template E;
  standardize_metadata := standardize_metadata E;
|}.

(** An environment in which every text file holds the given lines *)
Definition with_lines (E : Extern) (lines : list string) : Extern := {|
  float_repr := float_repr E;
  date_repr := date_repr E;
  int_of_str := int_of_str E;
  float_of_str := float_of_str E;
  abspath := abspath E;
  norm := norm E;
  xyz_to_llh := xyz_to_llh E;
  pegRadCur := pegRadCur E;
  load_tops := load_tops E;
  load_frame := load_frame E;
  shelve_frame := shelve_frame E;
  read_isce_xml := read_isce_xml E;
  read_attribute := read_attribute E;
  read_raster := read_raster E;
  read_lines := fun _ => Ok lines;
  read_template := read_template E;
  standardize_metadata := standardize_metadata E;
|}.

(** * Properties *)

(** The string and path functions on the names the program meets *)
Example split_ex : split "20141213_20141225.txt" "_" = ["20141213"; "20141225.txt"]
  /\ split "a.txtb.txt" ".txt" = ["a"; "b"; ""]
  /\ dirname "master/IW1.xml" = "master" /\ dirname "IW1.xml" = ""
  /\ dirname "/IW1.xml" = "/" /\ dirname "a/b/" = "a/b"
  /\ basename "a/b/c.d" = "c.d" /\ basename "a/" = ""
  /\ join "" "IW*.xml" = "IW*.xml" /\ join "a" "b" = "a/b" /\ join "a/" "b" = "a/b"
  /\ splitext_root "m/IW1.xml" = "m/IW1" /\ splitext_root "m/.bashrc" = "m/.bashrc"
  /\ splitext_root "a.b/c" = "a.b/c" /\ splitext_root "x/data.dat" = "x/data"
  /\ splitext_root "..a.b" = "..a"
  /\ glob_match "m/IW*.xml" "m/IW1.xml" = true
  /\ glob_match "m/IW*.xml" "m/x/IW1.xml" = false
  /\ glob_match "m/*/filt_*.unw" "m/a_b/filt_fine.unw" = true
  /\ glob_match "*" ".hid" = false
  /\ endswith "a.xml" ".xml" = true /\ endswith "xml" ".xml" = false
  /\ glob_match "/a[b]/IW*.xml" "/ab/IW1.xml" = true
  /\ glob_match "/a[b]/IW*.xml" "/a[b]/IW1.xml" = false
  /\ glob_match "x[!a-c]y" "xdy" = true /\ glob_match "x[!a-c]y" "xby" = false
  /\ glob_match "x[]]y" "x]y" = true /\ glob_match "x[a" "x[a" = true
  /\ glob_match "[a-]" "-" = true /\ glob_match "[.]x" ".x" = false
  /\ parents "/a/b/c" = ["/a"; "/a/b"] /\ parents "/x" = [].
Proof. vm_compute. repeat split. Qed.

(** ** Strings and their characters *)

Lemma chars_app (a b : string) : chars (a ++ b) = (chars a ++ chars b)%list.
Proof. unfold chars. induction a as [| c a IH]; simpl; [done | by rewrite IH]. Qed.

Lemma str_of_chars (s : string) : str_of (chars s) = s.
Proof. apply string_of_list_ascii_of_string. Qed.

Lemma chars_str_of (l : list ascii) : chars (str_of l) = l.
Proof. apply list_ascii_of_string_of_list_ascii. Qed.

Lemma split_go_nonempty sep skip cur s : split_go sep skip cur s <> [].
Proof.
  revert skip cur. induction s as [| c s IH]; intros skip cur; cbn [split_go];
    [discriminate |].
  destruct skip; [| apply IH]. destruct (starts_with sep (c :: s)); [discriminate | apply IH].
Qed.

(** ** get_processor *)

Lemma glob_In w pat p :
  In p (glob w pat) <-> p ∈ entries w /\ glob_match pat p = true.
Proof.
  unfold glob. by rewrite filter_In, <- list_elem_of_In, elem_of_elements.
Qed.

Lemma glob_nonempty w pat :
  (0 <? List.length (glob w pat))%nat = true <-> file_matching w pat.
Proof.
  unfold file_matching. split.
  - destruct (glob w pat) as [| p l] eqn:Hg; [discriminate |].
    intros _. assert (Hin : In p (glob w pat)) by (rewrite Hg; by left).
    apply glob_In in Hin as [Hp Hm]. by exists p.
  - intros (p & Hp & Hm).
    assert (Hin : In p (glob w pat)) by (by apply glob_In).
    destruct (glob w pat); [destruct Hin | reflexivity].
Qed.

Lemma sorted_In (l : list string) (x : string) : In x (sorted l) <-> In x l.
Proof.
  unfold sorted. rewrite <- !list_elem_of_In.
  by rewrite (merge_sort_Permutation String.le l).
Qed.

Lemma sorted_nil (l : list string) : sorted l = [] <-> l = [].
Proof.
  split; [| by intros ->].
  intros H. destruct l as [| x l]; [done |].
  assert (Hin : In x (sorted (x :: l))) by (apply sorted_In; by left).
  rewrite H in Hin. destruct Hin.
Qed.

Lemma glob_nil w pat : glob w pat = [] <-> ~ file_matching w pat.
Proof.
  rewrite <- glob_nonempty. destruct (glob w pat); simpl; split; try done.
Qed.

(** *** Path components and literal patterns *)

Lemma glue_cons x l : l <> [] -> glue (x :: l) = (x ++ slash :: glue l)%list.
Proof. by destruct l. Qed.

Lemma glue_split_go cur s : glue (split_go [slash] O cur s) = (rev cur ++ s)%list.
Proof.
  revert cur. induction s as [| c s IH]; intros cur; cbn [split_go starts_with].
  - simpl. by rewrite app_nil_r.
  - rewrite andb_true_r. fold slash. destruct (Ascii.eqb slash c) eqn:Hc.
    + apply Ascii.eqb_eq in Hc as <-. cbn [List.length Nat.pred].
      rewrite glue_cons by apply split_go_nonempty. by rewrite IH.
    + rewrite IH. cbn [rev]. by rewrite <- app_assoc.
Qed.

Lemma comps_inj s t : comps s = comps t -> s = t.
Proof.
  intros H. apply (f_equal glue) in H. unfold comps in H.
  by rewrite !glue_split_go in H.
Qed.

Lemma split_go_slash_free cur x :
  slash_free x -> split_go [slash] O cur x = [(rev cur ++ x)%list].
Proof.
  unfold slash_free. revert cur. induction x as [| c x IH]; intros cur H;
    cbn [split_go starts_with].
  - by rewrite app_nil_r.
  - cbn [forallb] in H. apply andb_true_iff in H as [Hc H].
    apply negb_true_iff in Hc. rewrite andb_true_r, Ascii.eqb_sym, Hc.
    rewrite IH by done. cbn [rev]. by rewrite <- app_assoc.
Qed.

Lemma split_go_snoc cur s x :
  slash_free x ->
  split_go [slash] O cur (s ++ slash :: x) = (split_go [slash] O cur s ++ [x])%list.
Proof.
  intros Hx. revert cur. induction s as [| c s IH]; intros cur.
  - cbn [app split_go starts_with]. rewrite Ascii.eqb_refl. cbn [andb List.length Nat.pred].
    by rewrite split_go_slash_free.
  - cbn [app split_go starts_with]. rewrite andb_true_r.
    destruct (Ascii.eqb slash c); cbn [List.length Nat.pred]; by rewrite IH.
Qed.

Lemma slash_free_rev l : slash_free l -> slash_free (rev l).
Proof.
  unfold slash_free. rewrite !forallb_forall. intros H x Hx. apply H. by apply in_rev.
Qed.

Lemma split_go_slash_free_components cur s :
  slash_free cur -> Forall slash_free (split_go [slash] O cur s).
Proof.
  revert cur. induction s as [| c s IH]; intros cur Hcur; cbn [split_go starts_with].
  - constructor; [| constructor]. by apply slash_free_rev.
  - rewrite andb_true_r. destruct (Ascii.eqb slash c) eqn:Hc; cbn [List.length Nat.pred].
    + constructor; [by apply slash_free_rev | by apply IH].
    + apply IH. unfold slash_free in *. cbn [forallb]. by rewrite Ascii.eqb_sym, Hc.
Qed.

(** *** Literal components *)

Lemma tokens_literal p : has_magic p = false -> tokens O p = Lit <$> p.
Proof.
  induction p as [| c p IH]; [done |]. cbn [has_magic existsb tokens].
  intros H. apply orb_false_iff in H as [Hc H].
  apply orb_false_iff in Hc as [Hc H3]. apply orb_false_iff in Hc as [H1 H2].
  rewrite H1, H2, H3. cbn [fmap list_fmap]. f_equal. by apply IH.
Qed.

Lemma match_tokens_literal p s : match_tokens (Lit <$> p) s = true <-> s = p.
Proof.
  revert s. induction p as [| c p IH]; intros s; cbn [fmap list_fmap match_tokens].
  - destruct s; split; congruence.
  - destruct s as [| d s]; [split; congruence |]. cbn [token_match].
    rewrite andb_true_iff, IH, Ascii.eqb_eq. split; [intros [-> ->] | intros [= -> ->]]; done.
Qed.

Lemma fnmatch_component_literal p n :
  has_magic p = false -> (fnmatch_component p n = true <-> n = p).
Proof.
  intros Hp. unfold fnmatch_component, wild. rewrite (tokens_literal p Hp).
  rewrite andb_true_iff, match_tokens_literal. split; [by intros [_ ->] |].
  intros ->. split; [| done]. by destruct (starts_with [dot] p).
Qed.

Lemma has_magic_app a b : has_magic (a ++ b) = has_magic a || has_magic b.
Proof. apply existsb_app. Qed.

Lemma has_magic_rev a : has_magic (rev a) = has_magic a.
Proof.
  unfold has_magic. apply eq_true_iff_eq. rewrite !existsb_exists.
  split; intros (x & Hx & H); exists x; (split; [| done]); by apply in_rev; rewrite ?rev_involutive.
Qed.

Lemma split_go_no_magic cur s :
  has_magic cur = false -> has_magic s = false ->
  Forall (fun c => has_magic c = false) (split_go [slash] O cur s).
Proof.
  revert cur. induction s as [| c s IH]; intros cur Hcur Hs; cbn [split_go starts_with].
  - constructor; [| constructor]. by rewrite has_magic_rev.
  - cbn [has_magic existsb] in Hs. apply orb_false_iff in Hs as [Hc Hs].
    rewrite andb_true_r. destruct (Ascii.eqb slash c); cbn [List.length Nat.pred].
    + constructor; [by rewrite has_magic_rev | by apply IH].
    + apply IH; [| done]. cbn [has_magic existsb]. rewrite Hc. exact Hcur.
Qed.

Lemma match_components_literal ps ns :
  Forall (fun c => has_magic c = false) ps ->
  (match_components ps ns = true <-> ns = ps).
Proof.
  intros Hps. revert ns. induction Hps as [| p ps Hp _ IH]; intros ns; cbn [match_components].
  - destruct ns; split; congruence.
  - destruct ns as [| n ns]; [split; congruence |].
    rewrite andb_true_iff, IH, (fnmatch_component_literal p n Hp).
    split; [intros [-> ->] | intros [= -> ->]]; done.
Qed.

Lemma match_components_snoc ps q ns :
  match_components (ps ++ [q]) ns = true
  <-> exists ns' n, ns = (ns' ++ [n])%list /\ match_components ps ns' = true
                    /\ fnmatch_component q n = true.
Proof.
  revert ns. induction ps as [| p ps IH]; intros ns; cbn [app match_components].
  - split.
    + destruct ns as [| n [| n' ns]]; try done; [| by rewrite andb_false_r].
      rewrite andb_true_r. intros H. by exists [], n.
    + intros (ns' & n & -> & H1 & H2). destruct ns'; [| done].
      cbn [app match_components]. by rewrite H2.
  - split.
    + destruct ns as [| n ns]; [done |]. rewrite andb_true_iff, IH.
      intros [Hp (ns' & m & -> & H1 & H2)]. exists (n :: ns'), m.
      split; [done |]. split; [| done]. cbn [match_components]. by rewrite Hp, H1.
    + intros (ns' & n & -> & H1 & H2). destruct ns' as [| m ns']; [done |].
      cbn [match_components] in H1. apply andb_true_iff in H1 as [Hm H1].
      cbn [app]. rewrite Hm. cbn [andb]. apply IH. by exists ns', n.
Qed.

(** *** Patterns below a directory without wildcard characters *)

Lemma slash_free_not_absolute x : slash_free (chars x) -> startswith x "/" = false.
Proof.
  unfold slash_free, startswith. change (chars "/") with [slash].
  destruct (chars x) as [| c l]; [done |]. cbn [forallb starts_with].
  intros H. apply andb_true_iff in H as [H _]. apply negb_true_iff in H.
  by rewrite Ascii.eqb_sym, H.
Qed.

Lemma join_chars (d : string) :
  (d = "" /\ forall x, slash_free (chars x) -> join d x = x)
  \/ exists D, (has_magic (chars d) = false -> has_magic D = false)
       /\ forall x, slash_free (chars x) ->
            chars (join d x) = (D ++ slash :: chars x)%list.
Proof.
  destruct (String.eqb d "") eqn:Hd.
  - left. apply String.eqb_eq in Hd as ->. split; [done |]. intros x Hx.
    unfold join. by rewrite (slash_free_not_absolute x Hx).
  - right. destruct (endswith d "/") eqn:He.
    + unfold endswith in He. change (rev (chars "/")) with [slash] in He.
      destruct (rev (chars d)) as [| c l] eqn:Hr; [done |].
      cbn [starts_with] in He. rewrite andb_true_r in He. apply Ascii.eqb_eq in He as <-.
      assert (Hc : chars d = (rev l ++ [slash])%list).
      { rewrite <- (rev_involutive (chars d)), Hr. reflexivity. }
      exists (rev l). split.
      * rewrite Hc, has_magic_app. by intros [? _]%orb_false_iff.
      * intros x Hx. unfold join. rewrite (slash_free_not_absolute x Hx), Hd.
        unfold endswith. change (rev (chars "/")) with [slash]. rewrite Hr.
        cbn [starts_with orb]. rewrite Ascii.eqb_refl. cbn [andb].
        rewrite chars_app, Hc, <- app_assoc. reflexivity.
    + exists (chars d). split; [done |]. intros x Hx. unfold join.
      rewrite (slash_free_not_absolute x Hx), Hd, He. cbn [orb].
      rewrite !chars_app. reflexivity.
Qed.

(** Below a directory whose name holds no wildcard character, a pattern
    for the last component finds the entries of that directory whose
    names match it. *)
Lemma glob_match_in_dir (d pat p : string) :
  has_magic (chars d) = false -> slash_free (chars pat) ->
  (glob_match (join d pat) p = true
   <-> exists name, p = join d name /\ slash_free (chars name)
                    /\ fnmatch_component (chars pat) (chars name) = true).
Proof.
  intros Hd Hpat. unfold glob_match. fold (comps (chars (join d pat))).
  fold (comps (chars p)).
  assert (Hfree : Forall slash_free (comps (chars p)))
    by (by apply split_go_slash_free_components).
  destruct (join_chars d) as [[-> Hj] | (D & HD & Hj)].
  - rewrite (Hj pat Hpat). unfold comps at 1.
    rewrite (split_go_slash_free [] (chars pat) Hpat). cbn [rev app].
    rewrite (match_components_snoc [] (chars pat)). split.
    + intros (ns' & n & Hp & H1 & H2). destruct ns'; [| done]. cbn [app] in Hp.
      rewrite Hp in Hfree. apply Forall_inv in Hfree.
      assert (Hc : chars p = n).
      { apply comps_inj. rewrite Hp. unfold comps. by rewrite split_go_slash_free. }
      exists p. rewrite Hc. split; [| done]. symmetry. apply Hj. by rewrite Hc.
    + intros (name & -> & Hn & Hm). exists [], (chars name).
      rewrite (Hj name Hn). unfold comps. by rewrite split_go_slash_free.
  - specialize (HD Hd). rewrite (Hj pat Hpat). unfold comps at 1.
    rewrite (split_go_snoc [] D (chars pat) Hpat), match_components_snoc. split.
    + intros (ns' & n & Hp & H1 & H2).
      apply match_components_literal in H1; [| by apply split_go_no_magic]. subst ns'.
      assert (Hn : slash_free n).
      { rewrite Hp in Hfree. apply Forall_app in Hfree as [_ Hfree].
        by apply Forall_inv in Hfree. }
      assert (Hc : chars p = (D ++ slash :: n)%list).
      { apply comps_inj. rewrite Hp. unfold comps. by rewrite split_go_snoc. }
      exists (str_of n). rewrite chars_str_of. split; [| done].
      rewrite <- (str_of_chars p), <- (str_of_chars (join d (str_of n))).
      f_equal. rewrite Hc, Hj by (by rewrite chars_str_of). by rewrite chars_str_of.
    + intros (name & -> & Hn & Hm). exists (split_go [slash] 0 [] D), (chars name).
      rewrite (Hj name Hn). unfold comps. rewrite split_go_snoc by done.
      split; [done |]. split; [| done].
      apply match_components_literal; [by apply split_go_no_magic | done].
Qed.

(** C2: [get_processor] returns ['tops'] exactly when [glob] finds a path,
    a file or a directory, that matches [IW*.xml] put after the directory
    of [meta_file]; for a directory name without wildcard characters that
    is: when an entry of that directory has a name matching [IW*.xml].
    Otherwise it returns ['stripmap'] exactly when [data.dat] is a regular
    file of that directory or [meta_file] ends with [.xml]; otherwise it
    raises [ValueError]; and no other value is returned or raised. *)
Theorem get_processor_cases (w : World) (meta_file : string) :
  let meta_dir := dirname meta_file in
  let is_tops := file_matching w (join meta_dir "IW*.xml") in
  let is_stripmap :=
    isfile w (join meta_dir "data.dat") = true \/ endswith meta_file ".xml" = true in
  (get_processor w (Some meta_file) = Ok "tops" <-> is_tops)
  /\ (get_processor w (Some meta_file) = Ok "stripmap" <-> ~ is_tops /\ is_stripmap)
  /\ (get_processor w (Some meta_file) = Raise ValueError
      <-> ~ is_tops /\ ~ is_stripmap)
  /\ (forall r, get_processor w (Some meta_file) = Ok r ->
                r = "tops" \/ r = "stripmap")
  /\ (forall e, get_processor w (Some meta_file) = Raise e -> e = ValueError)
  /\ (has_magic (chars meta_dir) = false ->
      (is_tops <-> exists name,
                     join meta_dir name ∈ entries w
                     /\ slash_free (chars name)
                     /\ fnmatch_component (chars "IW*.xml") (chars name) = true)).
Proof.
  intros meta_dir is_tops is_stripmap.
  assert (Hdir : has_magic (chars meta_dir) = false ->
            (is_tops <-> exists name,
                           join meta_dir name ∈ entries w
                           /\ slash_free (chars name)
                           /\ fnmatch_component (chars "IW*.xml") (chars name) = true)).
  { intros Hd. subst is_tops. unfold file_matching. split.
    - intros (p & Hp & Hm).
      apply (glob_match_in_dir meta_dir "IW*.xml" p Hd eq_refl) in Hm
        as (name & -> & Hn & Hm).
      by exists name.
    - intros (name & Hp & Hn & Hm). exists (join meta_dir name). split; [done |].
      apply (glob_match_in_dir meta_dir "IW*.xml" _ Hd eq_refl). by exists name. }
  subst is_tops is_stripmap meta_dir.
  unfold get_processor.
  pose proof (glob_nonempty w (join (dirname meta_file) "IW*.xml")) as Hg.
  destruct (0 <? List.length (glob w (join (dirname meta_file) "IW*.xml")))%nat.
  - assert (Ht : file_matching w (join (dirname meta_file) "IW*.xml")) by by apply Hg.
    repeat split; try done; try tauto; try apply Hdir; try (by apply (Hdir ltac:(done)));
      intros; simplify_eq; auto.
  - assert (Ht : ~ file_matching w (join (dirname meta_file) "IW*.xml")).
    { intros H. apply Hg in H. discriminate. }
    destruct (isfile w (join (dirname meta_file) "data.dat")) eqn:Hf;
      [| destruct (endswith meta_file ".xml") eqn:Hx];
      repeat split; try done; try tauto; try apply Hdir;
      try (by apply (Hdir ltac:(done)));
      intros; simplify_eq; auto; intuition discriminate.
Qed.

(** The reference directory of the sample world holds [IW1.xml]. *)
Lemma get_processor_cases_witness :
  get_processor Demo.world (Some "/m/IW1.xml") = Ok "tops".
Proof.
  destruct (get_processor_cases Demo.world "/m/IW1.xml")
    as (Htops & _ & _ & _ & _ & Hdir).
  apply Htops, (Hdir eq_refl). exists "IW1.xml".
  split; [| split; reflexivity].
  apply (bool_decide_eq_true_1
           (join (dirname "/m/IW1.xml") "IW1.xml" ∈ entries Demo.world)).
  vm_compute. reflexivity.
Defined.

(** C2, the claim as stated fails: the regular file [IW1.xml] lies in the
    directory [a[b]] of the metadata file, yet [get_processor] raises
    [ValueError]: [glob] reads the brackets of the directory name as a
    character class and looks into a directory [ab]. *)
Lemma get_processor_counterexample :
  let w := {| files := {[ "/a[b]/IW1.xml" := File 1 ∅ ]}; dirs := ∅; clock := 0 |} in
  let meta_file := "/a[b]/notes.txt" in
  isfile w "/a[b]/IW1.xml" = true
  /\ join (dirname meta_file) "IW1.xml" = "/a[b]/IW1.xml"
  /\ fnmatch_component (chars "IW*.xml") (chars "IW1.xml") = true
  /\ get_processor w (Some meta_file) = Raise ValueError
  /\ get_processor w (Some meta_file) <> Ok "tops".
Proof. vm_compute. repeat split. discriminate. Qed.

Example demo_processor :
  get_processor Demo.world (Some "/m/IW1.xml") = Ok "tops"
  /\ get_processor Demo.world (Some "/s/data.dat") = Ok "stripmap"
  /\ get_processor Demo.world (Some "/x/20120507_slc_crop.xml") = Ok "stripmap"
  /\ get_processor Demo.world (Some "/x/readme.txt") = Raise ValueError
  /\ get_processor {| files := ∅; dirs := {[ "/x/IWdir.xml" ]}; clock := 0 |}
       (Some "/x/readme.txt") = Ok "tops"
  /\ get_processor {| files := {[ "/x/IWdir.xml/f" := File 1 ∅ ]}; dirs := ∅;
                      clock := 0 |}
       (Some "/x/readme.txt") = Ok "tops".
Proof. vm_compute. repeat split. Qed.

(** ** extract_isce_metadata: the update-skip branch *)

Lemma append_nonempty (a b : string) : b <> "" -> (a ++ b)%string <> "".
Proof. destruct a; simpl; [done | discriminate]. Qed.

Lemma default_rsc_file_truthy meta_file rsc_file :
  truthy (Some (default_rsc_file meta_file rsc_file))
  = Some (default_rsc_file meta_file rsc_file).
Proof.
  unfold default_rsc_file, truthy.
  destruct rsc_file as [r |].
  - destruct (String.eqb r "") eqn:Hr.
    + destruct (String.eqb (join (dirname meta_file) "data.rsc") "") eqn:Hj; [| done].
      apply String.eqb_eq in Hj. exfalso. revert Hj. unfold join.
      change (startswith "data.rsc" "/") with false. cbv iota.
      destruct (_ || _)%bool; by apply append_nonempty.
    + by rewrite Hr.
  - destruct (String.eqb (join (dirname meta_file) "data.rsc") "") eqn:Hj; [| done].
    apply String.eqb_eq in Hj. exfalso. revert Hj. unfold join.
    change (startswith "data.rsc" "/") with false. cbv iota.
    destruct (_ || _)%bool; by apply append_nonempty.
Qed.

Lemma fmap_str_all_str (E : Extern) (md : dict) :
  all_str md -> VStr <$> (py_str E <$> md) = md.
Proof.
  intros H. apply map_eq. intros k. rewrite !lookup_fmap.
  destruct (md !! k) as [v |] eqn:Hk; [| done]. simpl.
  specialize (H k v Hk). by destruct v.
Qed.

(** What [extract_and_write] leaves behind when it returns *)
Lemma extract_and_write_written E meta_file geom_dir r w md w' :
  truthy (Some r) = Some r ->
  extract_and_write E meta_file geom_dir (Some r) w = (Ok md, w') ->
  w' = {| files := <[r := File (clock w) (py_str E <$> md)]> (files w);
          dirs := dirs w;
          clock := clock w + 1 |}.
Proof.
  intros Hr. unfold extract_and_write. rewrite Hr.
  match goal with |- context [match ?res with Ok _ => _ | Raise _ => _ end] =>
    destruct res as [m | e] end; [| discriminate].
  unfold bindM, write_roipac_rsc, ret. simpl. by intros [= <- <-].
Qed.



(** ** extract_isce_metadata: string values *)

Ltac case_bind :=
  match goal with
  | H : context [bind ?r _] |- _ =>
      let Hr := fresh "Hr" in destruct r eqn:Hr; simpl in H; try discriminate H
  end.

Lemma all_str_fmap_str (E : Extern) (md : dict) :
  all_str ((fun value => VStr (py_str E value)) <$> md).
Proof.
  intros k v. rewrite lookup_fmap. destruct (md !! k); simpl; [| done].
  by intros [= <-].
Qed.

Lemma extract_and_write_result E meta_file geom_dir rsc_file w md w' :
  extract_and_write E meta_file geom_dir rsc_file w = (Ok md, w') ->
  exists m0 : dict,
    md = standardize_metadata E ((fun value => VStr (py_str E value)) <$> m0).
Proof.
  unfold extract_and_write.
  match goal with |- context [match ?res with Ok _ => _ | Raise _ => _ end] =>
    destruct res as [m | e] eqn:Hres end; [| discriminate].
  intros Hw.
  assert (md = m) as ->.
  { destruct (truthy rsc_file); [| by inversion Hw].
    unfold bindM, write_roipac_rsc, ret in Hw. simpl in Hw. by inversion Hw. }
  clear Hw. repeat case_bind; try discriminate; inversion Hres; eauto.
Qed.

(** C3: whenever [extract_isce_metadata] does not take the update-skip
    branch and returns, every value of the returned dictionary is a
    string, and the sidecar file reads back as that dictionary; this for
    either processor and with or without a geometry directory.
    [standardize_metadata] only renames keys: it is assumed to keep
    string-valued dictionaries string-valued. *)
Theorem values_are_strings (E : Extern) (w w' : World) (meta_file : string)
    (geom_dir rsc_file : option string) (update_mode : bool) (md : dict) :
  (forall m : dict, all_str m -> all_str (standardize_metadata E m)) ->
  (update_mode = false
   \/ run_or_skip w (default_rsc_file meta_file rsc_file) meta_file = run) ->
  extract_isce_metadata E meta_file geom_dir rsc_file update_mode w = (Ok md, w') ->
  all_str md
  /\ read_roipac_rsc w' (default_rsc_file meta_file rsc_file) = Ok md.
Proof.
  intros Hstd Hrun H. unfold extract_isce_metadata in H.
  assert (Hex : extract_and_write E meta_file geom_dir
                  (Some (default_rsc_file meta_file rsc_file)) w = (Ok md, w')).
  { destruct Hrun as [-> | Hr]; [done |]. rewrite Hr in H.
    by rewrite andb_false_r in H. }
  clear H.
  assert (Hall : all_str md).
  { apply extract_and_write_result in Hex as [m0 ->].
    apply Hstd, all_str_fmap_str. }
  split; [done |].
  apply extract_and_write_written in Hex; [| apply default_rsc_file_truthy].
  subst w'. unfold read_roipac_rsc. simpl. rewrite lookup_insert_eq. simpl.
  by rewrite fmap_str_all_str.
Qed.

Lemma demo_standardize_str (m : dict) :
  all_str m -> all_str (standardize_metadata Demo.extern m).
Proof.
  intros H. simpl. destruct (m !! "prf") as [v |] eqn:Hv; [| done].
  apply map_Forall_insert_2; [by apply (H "prf") | done].
Qed.

(** The TOPS product of the sample world with its geometry directory,
    forced past the existing sidecar file. *)
Lemma values_are_strings_witness :
  exists md w',
    extract_isce_metadata Demo.extern "/m/IW1.xml" (Some "/g") None false Demo.world
    = (Ok md, w')
    /\ all_str md
    /\ read_roipac_rsc w' "/m/data.rsc" = Ok md
    /\ md !! "azimuthPixelSize" = Some (VStr "28/1")
    /\ md !! "ALOOKS" = Some (VStr "2").
Proof.
  pose proof (eq_refl :
    Demo.returned (extract_isce_metadata Demo.extern "/m/IW1.xml" (Some "/g") None
                     false Demo.world) "azimuthPixelSize" = Some (VStr "28/1")) as Ha.
  pose proof (eq_refl :
    Demo.returned (extract_isce_metadata Demo.extern "/m/IW1.xml" (Some "/g") None
                     false Demo.world) "ALOOKS" = Some (VStr "2")) as Hl.
  destruct (extract_isce_metadata Demo.extern "/m/IW1.xml" (Some "/g") None false
              Demo.world) as [[md | e] w'] eqn:Hrun; [| discriminate Ha].
  exists md, w'. split; [reflexivity |].
  destruct (values_are_strings Demo.extern Demo.world w' "/m/IW1.xml" (Some "/g")
              None false md demo_standardize_str (or_introl eq_refl) Hrun)
    as [Hall Hread].
  split; [exact Hall |]. split; [exact Hread |]. split; [exact Ha | exact Hl].
Defined.

(** ** Pixel size from orbital velocity and timing *)

Ltac lookup_inserts :=
  repeat (first [ rewrite lookup_insert_eq; reflexivity
                | rewrite lookup_insert_ne by discriminate ]).

Lemma Ok_pair_inj {A B} (a c : A) (b d : B) :
  Ok (a, b) = Ok (c, d) -> a = c /\ b = d.
Proof. by intros [= -> ->]. Qed.

Lemma tops_pixel_size_from_orbit (E : Extern) (w : World) (xml_file : string)
    (md : dict) (burst : Burst.t) :
  extract_tops_metadata E w xml_file = Ok (md, burst) ->
  exists obj peg,
    load_tops E xml_file = Ok obj
    /\ index (bursts obj) 0 = Ok burst
    /\ interpolateOrbit (Burst.orbit burst) (Burst.sensingMid burst) = Ok peg
    /\ md !! "azimuthPixelSize"
       = Some (VFloat (norm E (getVelocity peg) * Burst.azimuthTimeInterval burst)).
Proof.
  unfold extract_tops_metadata, speed_at. intros H.
  set (md0 := (∅ : dict)) in H. clearbody md0.
  destruct (load_tops E xml_file) as [obj |] eqn:Hobj; [| discriminate].
  cbn [bind] in H.
  destruct (index (bursts obj) 0) as [b |] eqn:Hb; [| discriminate].
  cbn [bind] in H.
  destruct (index_last (bursts obj)) as [bEnd |] eqn:Hend; [| discriminate].
  cbn [bind] in H.
  destruct (interpolateOrbit (Burst.orbit b) (Burst.sensingMid b)) as [peg |] eqn:Hpeg;
    [| discriminate].
  cbn [bind] in H.
  destruct (TOPS_RESOLUTION _) as [res |]; [| discriminate]. cbn [bind] in H.
  destruct (xyz_to_llh E (getPosition peg)) as [[lat lon] hgt].
  destruct (1 <? _)%nat.
  - destruct (mapM _ _) as [swath_num |]; [| discriminate]. cbn [bind] in H.
    apply Ok_pair_inj in H as [<- <-]. exists obj, peg.
    split; [reflexivity |]. split; [exact Hb |]. split; [exact Hpeg |].
    lookup_inserts.
  - cbn [bind] in H. apply Ok_pair_inj in H as [<- <-]. exists obj, peg.
    split; [reflexivity |]. split; [exact Hb |]. split; [exact Hpeg |].
    lookup_inserts.
Qed.

Lemma stripmap_pixel_size_from_orbit (E : Extern) (meta_file : string)
    (md : dict) (frame : Frame.t) :
  extract_stripmap_metadata E meta_file = Ok (md, frame) ->
  exists peg,
    interpolateOrbit (Frame.orbit frame) (Frame.sensingMid frame) = Ok peg
    /\ md !! "azimuthPixelSize"
       = Some (VFloat (norm E (getVelocity peg) / Frame.PRF frame)).
Proof.
  unfold extract_stripmap_metadata, speed_at. intros H.
  set (md0 := (∅ : dict)) in H. clearbody md0.
  match type of H with context [bind ?r _] => destruct r as [f |]; [| discriminate] end.
  cbn [bind] in H.
  destruct (interpolateOrbit (Frame.orbit f) (Frame.sensingMid f)) as [peg |] eqn:Hpeg;
    [| discriminate].
  cbn [bind] in H.
  unfold py_div in H at 1. cbn [is_num is_zero to_Q andb negb] in H.
  destruct (Qeq_bool (Frame.PRF f) 0); [discriminate |]. cbn [bind] in H.
  destruct (py_div (VFloat SPEED_OF_LIGHT) _) as [rgres |]; [| discriminate].
  cbn [bind] in H. destruct (xyz_to_llh E (getPosition peg)) as [[lat lon] hgt].
  apply Ok_pair_inj in H as [<- <-]. exists peg. split; [exact Hpeg |].
  lookup_inserts.
Qed.

(** C7: the azimuth pixel size is the norm of the velocity of the orbit
    interpolated at [sensingMid], multiplied by the first burst's
    [azimuthTimeInterval] for TOPS and divided by the frame's [PRF] for
    stripmap. *)
Theorem azimuth_pixel_size (E : Extern) (w : World) (meta_file : string)
    (md : dict) :
  (forall burst,
     extract_tops_metadata E w meta_file = Ok (md, burst) ->
     exists peg,
       interpolateOrbit (Burst.orbit burst) (Burst.sensingMid burst) = Ok peg
       /\ md !! "azimuthPixelSize"
          = Some (VFloat (norm E (getVelocity peg)
                          * Burst.azimuthTimeInterval burst)))
  /\ (forall frame,
        extract_stripmap_metadata E meta_file = Ok (md, frame) ->
        exists peg,
          interpolateOrbit (Frame.orbit frame) (Frame.sensingMid frame) = Ok peg
          /\ md !! "azimuthPixelSize"
             = Some (VFloat (norm E (getVelocity peg) / Frame.PRF frame))).
Proof.
  split.
  - intros burst H. apply tops_pixel_size_from_orbit in H as (obj & peg & _ & _ & Hp & Hm).
    eauto.
  - intros frame. apply stripmap_pixel_size_from_orbit.
Qed.

(** Both extractions return on the sample products: 7000 m/s times 2 ms,
    and 7000 m/s over 2000 Hz. *)
Lemma azimuth_pixel_size_witness :
  (exists md burst,
     extract_tops_metadata Demo.extern Demo.world "/m/IW1.xml" = Ok (md, burst)
     /\ md !! "azimuthPixelSize" = Some (VFloat (7000 * (2 # 1000))))
  /\ (exists md frame,
        extract_stripmap_metadata Demo.extern "/s/data.dat" = Ok (md, frame)
        /\ md !! "azimuthPixelSize" = Some (VFloat (7000 / 2000))).
Proof.
  split.
  - pose proof (eq_refl :
      is_raise (extract_tops_metadata Demo.extern Demo.world "/m/IW1.xml") = false) as Hok.
    pose proof (eq_refl :
      (let^ r := extract_tops_metadata Demo.extern Demo.world "/m/IW1.xml" in
       Ok (snd r)) = Ok Demo.burst) as Hb.
    destruct (extract_tops_metadata Demo.extern Demo.world "/m/IW1.xml")
      as [[md b] |] eqn:Hrun; [| discriminate Hok].
    cbn [bind snd] in Hb. assert (b = Demo.burst) as -> by congruence.
    exists md, Demo.burst. split; [reflexivity |].
    destruct (proj1 (azimuth_pixel_size Demo.extern Demo.world "/m/IW1.xml" md)
                Demo.burst Hrun) as (peg & Hpeg & Hm).
    vm_compute in Hpeg. injection Hpeg as <-. rewrite Hm. reflexivity.
  - pose proof (eq_refl :
      is_raise (extract_stripmap_metadata Demo.extern "/s/data.dat") = false) as Hok.
    pose proof (eq_refl :
      (let^ r := extract_stripmap_metadata Demo.extern "/s/data.dat" in
       Ok (snd r)) = Ok Demo.frame) as Hb.
    destruct (extract_stripmap_metadata Demo.extern "/s/data.dat")
      as [[md f] |] eqn:Hrun; [| discriminate Hok].
    cbn [bind snd] in Hb. assert (f = Demo.frame) as -> by congruence.
    exists md, Demo.frame. split; [reflexivity |].
    destruct (proj2 (azimuth_pixel_size Demo.extern Demo.world "/s/data.dat" md)
                Demo.frame Hrun) as (peg & Hpeg & Hm).
    vm_compute in Hpeg. injection Hpeg as <-. rewrite Hm. reflexivity.
Defined.
(** ** Reasoning about dictionary updates *)

Section Preserves.

Context {A : Type}.

Lemma preserves_ret P (a : A) : preserves P (ret a).
Proof. by intros st r st' [= <- <-]. Qed.

Lemma preserves_lift P (r : result A) : preserves P (lift r).
Proof. by intros st r' st' [= <- <-]. Qed.

Lemma preserves_get P k : preserves P (get k).
Proof. by intros st r' st' [= <- <-]. Qed.

Lemma preserves_set (P : string -> Prop) k v :
  (forall k', P k' -> k' <> k) -> preserves P (set k v).
Proof.
  intros HP st r st' [= <- <-] k' Hk'. apply lookup_insert_ne.
  intros ->. by apply (HP k').
Qed.

Lemma preserves_bind P {B} (m : M A) (f : A -> M B) :
  preserves P m -> (forall a, preserves P (f a)) -> preserves P (bindM m f).
Proof.
  intros Hm Hf st r st' H k Hk. unfold bindM in H.
  destruct (m st) as [[a | e] st1] eqn:Hst.
  - rewrite (Hf a _ _ _ H k Hk). by apply (Hm _ _ _ Hst).
  - injection H as <- <-. by apply (Hm _ _ _ Hst).
Qed.

End Preserves.

Lemma preserves_weaken (P Q : string -> Prop) {B} (m : M B) :
  (forall k, Q k -> P k) -> preserves P m -> preserves Q m.
Proof. intros HPQ Hm st r st' H k Hk. apply (Hm _ _ _ H). by apply HPQ. Qed.

Lemma preserves_when P b (m : M unit) : preserves P m -> preserves P (when b m).
Proof. destruct b; [done | intros _; apply preserves_ret]. Qed.

Lemma preserves_forM P l (f : string -> M unit) :
  (forall x, preserves P (f x)) -> preserves P (forM l f).
Proof.
  intros Hf. induction l as [| x l IH]; simpl.
  - apply preserves_ret.
  - apply preserves_bind; [apply Hf | intros _; apply IH].
Qed.

Lemma preserves_set_default (P : string -> Prop) k :
  (forall k', P k' -> k' <> k) -> preserves P (set_default k).
Proof.
  intros HP st r st' H k' Hk'. unfold set_default in H.
  destruct (st !! k); injection H as <- <-; [done |].
  apply lookup_insert_ne. intros ->. by apply (HP k').
Qed.

Ltac preserves_tac :=
  repeat first
    [ apply preserves_ret | apply preserves_lift | apply preserves_get
    | apply preserves_set | apply preserves_set_default
    | apply preserves_when
    | apply preserves_bind; [| intros ?] ].

(** Inversion of a computation that returned *)
Lemma bindM_Ok {S A B} (m : ST S A) (f : A -> ST S B) st b st' :
  bindM m f st = (Ok b, st') ->
  exists a st1, m st = (Ok a, st1) /\ f a st1 = (Ok b, st').
Proof.
  unfold bindM. destruct (m st) as [[a | e] st1]; [eauto | discriminate].
Qed.

Lemma get_Ok k (st st' : dict) v :
  get k st = (Ok v, st') -> st' = st /\ st !! k = Some v.
Proof.
  unfold get, getitem. destruct (st !! k); [| discriminate].
  by intros [= -> ->].
Qed.

Lemma lift_Ok {S A} (r : result A) (st st' : S) a :
  lift r st = (Ok a, st') -> st' = st /\ r = Ok a.
Proof. by intros [= -> ->]. Qed.

Lemma set_Ok k v (st st' : dict) u :
  set k v st = (Ok u, st') -> st' = <[k := v]> st.
Proof. by intros [= _ <-]. Qed.

Ltac inv_M H :=
  let a := fresh "a" in let st := fresh "st" in
  let H1 := fresh "Hstep" in
  apply bindM_Ok in H as (a & st & H1 & H);
  first [ apply get_Ok in H1 as [-> H1]
        | apply lift_Ok in H1 as [-> H1]
        | apply set_Ok in H1 as ->
        | idtac ].

Lemma looks_loop_preserves E w geom_dir fbases :
  preserves (fun k => k <> "ALOOKS" /\ k <> "RLOOKS") (looks_loop E w geom_dir fbases).
Proof.
  induction fbases as [| fb rest IH]; simpl; [apply preserves_ret |].
  destruct (_ ++ _)%list as [| f0 fs]; [exact IH |].
  destruct (isfile w _); [| exact IH].
  preserves_tac; intros k' [? ?]; assumption.
Qed.

Ltac not_geometry_key :=
  let k := fresh "k" in let Hk := fresh "Hk" in
  intros k Hk ->; apply Hk; apply list_elem_of_In; cbn; tauto.

Lemma set_corners_preserves E pre geom_file :
  pre = "LAT" \/ pre = "LON" ->
  preserves (fun k => k ∉ geometry_keys) (set_corners E pre geom_file).
Proof.
  intros Hpre. unfold set_corners.
  apply preserves_bind; [apply preserves_lift | intros data].
  apply preserves_bind; [apply preserves_lift | intros [r0 r1]].
  destruct Hpre as [-> | ->]; preserves_tac; not_geometry_key.
Qed.

Lemma geom_step_preserves E geom_file :
  preserves (fun k => k ∉ geometry_keys) (geom_step E geom_file).
Proof.
  unfold geom_step.
  apply preserves_bind; [| intros _; apply preserves_bind; [| intros _]].
  - apply preserves_when, set_corners_preserves. by left.
  - apply preserves_when, set_corners_preserves. by right.
  - apply preserves_when. preserves_tac. not_geometry_key.
Qed.

Lemma imul_Ok k k2 (st st' : dict) u :
  imul k k2 st = (Ok u, st') ->
  exists a b c, st !! k = Some a /\ st !! k2 = Some b /\ py_mul a b = Ok c
                /\ st' = <[k := c]> st.
Proof.
  unfold imul. intros H. inv_M H. inv_M H. inv_M H. apply set_Ok in H. eauto 10.
Qed.

(** What [extract_multilook_number] computes when it returns *)
Lemma extract_multilook_number_Ok E w geom_dir (md md' : dict) u :
  extract_multilook_number E w geom_dir md = (Ok u, md') ->
  exists rr rp ar ap rl al rgfact azfact looks fact n (md1 : dict),
    md !! "rangeResolution" = Some rr /\ md !! "rangePixelSize" = Some rp
    /\ md !! "azimuthResolution" = Some ar /\ md !! "azimuthPixelSize" = Some ap
    /\ md1 !! "RLOOKS" = Some rl /\ md1 !! "ALOOKS" = Some al
    /\ py_div rr rp = Ok rgfact /\ py_div ar ap = Ok azfact
    /\ py_mul rl al = Ok looks /\ py_mul rgfact azfact = Ok fact
    /\ py_div looks fact = Ok n
    /\ (forall k, k <> "ALOOKS" -> k <> "RLOOKS" -> md1 !! k = md !! k)
    /\ md' = <["NCORRLOOKS" := n]> md1.
Proof.
  unfold extract_multilook_number. intros H.
  apply bindM_Ok in H as (u1 & st1 & H1 & H).
  apply bindM_Ok in H as (u2 & st2 & H2 & H).
  apply bindM_Ok in H as (u3 & st3 & H3 & H).
  assert (Hsame : forall k, k <> "ALOOKS" -> k <> "RLOOKS" -> st3 !! k = md !! k).
  { intros k Ha Hr.
    rewrite (preserves_set_default (fun k => k <> "RLOOKS") "RLOOKS"
               (fun _ H => H) _ _ _ H3 k Hr).
    rewrite (preserves_set_default (fun k => k <> "ALOOKS") "ALOOKS"
               (fun _ H => H) _ _ _ H2 k Ha).
    by apply (looks_loop_preserves _ _ _ _ _ _ _ H1). }
  clear H1 H2 H3.
  do 11 inv_M H. apply set_Ok in H.
  exists a, a0, a2, a3, a5, a6, a1, a4, a7, a8, a9, st3.
  rewrite <- !Hsame by discriminate. eauto 20.
Qed.

(** ** NCORRLOOKS and the multilooked pixel sizes *)

(** C4: when [extract_geometry_metadata] returns, [NCORRLOOKS] is
    [RLOOKS * ALOOKS / ((rangeResolution / rangePixelSize) *
    (azimuthResolution / azimuthPixelSize))] with the pixel sizes the
    dictionary held on entry (single look), while the pixel sizes it holds
    on return are those multiplied by [RLOOKS] and [ALOOKS]. *)
Theorem ncorrlooks_single_look (E : Extern) (w : World) (geom_dir : string)
    (md md' : dict) :
  extract_geometry_metadata E w geom_dir md = (Ok tt, md') ->
  exists rr rp ar ap rl al rgfact azfact looks fact n rp' ap',
    md !! "rangeResolution" = Some rr /\ md !! "rangePixelSize" = Some rp
    /\ md !! "azimuthResolution" = Some ar /\ md !! "azimuthPixelSize" = Some ap
    /\ md' !! "RLOOKS" = Some rl /\ md' !! "ALOOKS" = Some al
    /\ py_div rr rp = Ok rgfact /\ py_div ar ap = Ok azfact
    /\ py_mul rl al = Ok looks /\ py_mul rgfact azfact = Ok fact
    /\ py_div looks fact = Ok n
    /\ md' !! "NCORRLOOKS" = Some n
    /\ py_mul rp rl = Ok rp' /\ md' !! "rangePixelSize" = Some rp'
    /\ py_mul ap al = Ok ap' /\ md' !! "azimuthPixelSize" = Some ap'.
Proof.
  unfold extract_geometry_metadata. intros H.
  apply bindM_Ok in H as (u1 & st1 & H1 & H).
  apply bindM_Ok in H as (u2 & st2 & H2 & H).
  apply bindM_Ok in H as (u3 & st3 & H3 & H).
  apply extract_multilook_number_Ok in H1
    as (rr & rp & ar & ap & rl & al & rgfact & azfact & looks & fact & n & md1
        & Hrr & Hrp & Har & Hap & Hrl & Hal & Hrg & Haz & Hl & Hf & Hn & Hsame & ->).
  apply imul_Ok in H2 as (x & y & rp' & Hx & Hy & Hrp' & ->).
  apply imul_Ok in H3 as (x' & y' & ap' & Hx' & Hy' & Hap' & ->).
  rewrite lookup_insert_ne, Hsame, Hrp in Hx by discriminate.
  rewrite lookup_insert_ne, Hrl in Hy by discriminate.
  rewrite !lookup_insert_ne, Hsame, Hap in Hx' by discriminate.
  rewrite !lookup_insert_ne, Hal in Hy' by discriminate.
  simplify_eq.
  pose proof (preserves_forM _ _ _ (geom_step_preserves E) _ _ _ H) as Hkeep.
  exists rr, x, ar, x', y, y', rgfact, azfact, looks, fact, n, rp', ap'.
  assert (Hk : forall k, In k ["RLOOKS"; "ALOOKS"; "NCORRLOOKS"; "rangePixelSize";
                               "azimuthPixelSize"] -> k ∉ geometry_keys).
  { intros k Hin Hg. apply list_elem_of_In in Hg. cbn in Hin, Hg.
    intuition (subst; discriminate). }
  rewrite !Hkeep by (apply Hk; cbn; tauto).
  repeat split; try assumption.
  - by rewrite !lookup_insert_ne by discriminate.
  - by rewrite !lookup_insert_ne by discriminate.
  - by rewrite !lookup_insert_ne, lookup_insert_eq by discriminate.
  - by rewrite lookup_insert_ne, lookup_insert_eq by discriminate.
  - by rewrite lookup_insert_eq.
Qed.

(** Two looks each way in the sample geometry directory. *)
Lemma ncorrlooks_single_look_witness :
  let md : dict :=
    {[ "rangeResolution" := VFloat (27 # 10); "rangePixelSize" := VFloat (23 # 10);
       "azimuthResolution" := VFloat (225 # 10); "azimuthPixelSize" := VFloat 14 ]} in
  exists md',
    extract_geometry_metadata Demo.extern Demo.world "/g" md = (Ok tt, md')
    /\ md' !! "RLOOKS" = Some (VInt 2) /\ md' !! "ALOOKS" = Some (VInt 2)
    /\ md' !! "NCORRLOOKS"
       = Some (VFloat (inject_Z (2 * 2)
                       / (((27 # 10) / (23 # 10)) * ((225 # 10) / 14))))
    /\ md' !! "rangePixelSize" = Some (VFloat ((23 # 10) * inject_Z 2))
    /\ md' !! "azimuthPixelSize" = Some (VFloat (14 * inject_Z 2)).
Proof.
  intros md.   pose proof (eq_refl :
    fst (extract_geometry_metadata Demo.extern Demo.world "/g" md) = Ok tt) as Hok.
  pose proof (eq_refl :
    snd (extract_geometry_metadata Demo.extern Demo.world "/g" md) !! "RLOOKS"
    = Some (VInt 2)) as HR.
  pose proof (eq_refl :
    snd (extract_geometry_metadata Demo.extern Demo.world "/g" md) !! "ALOOKS"
    = Some (VInt 2)) as HA.
  destruct (extract_geometry_metadata Demo.extern Demo.world "/g" md)
    as [r md'] eqn:Hrun.
  cbn [fst snd] in Hok, HR, HA. subst r. exists md'. split; [reflexivity |].
  destruct (ncorrlooks_single_look Demo.extern Demo.world "/g" md md' Hrun)
    as (rr & rp & ar & ap & rl & al & rgfact & azfact & looks & fact & n & rp' & ap'
        & Hrr & Hrp & Har & Hap & Hrl & Hal & Hrg & Haz & Hl & Hf & Hn & HN
        & Hrp' & HP & Hap' & HQ).
  clear Hrun. subst md.
  vm_compute in Hrr, Hrp, Har, Hap. rewrite HR in Hrl. rewrite HA in Hal.
  simplify_eq. vm_compute in Hrg, Haz, Hl. simplify_eq.
  vm_compute in Hf. simplify_eq. vm_compute in Hn, Hrp', Hap'. simplify_eq.
  split; [exact HR |]. split; [exact HA |].
  rewrite HN, HP, HQ. repeat split; reflexivity.
Defined.
(** ** The heading angle *)

Lemma inject_Z_succ (z : Z) : (inject_Z (z + 1) == inject_Z z + 1)%Q.
Proof. by rewrite inject_Z_plus. Qed.

Lemma np_round_near (q : Q) :
  (inject_Z (np_round q) - (1 # 2) <= q <= inject_Z (np_round q) + (1 # 2))%Q.
Proof.
  unfold np_round.
  pose proof (Qfloor_le q) as Hlo. pose proof (Qlt_floor q) as Hhi.
  pose proof (inject_Z_succ (Qfloor q)) as Hs.
  destruct (Qcompare (q - inject_Z (Qfloor q)) (1 # 2)) eqn:Hc.
  - apply Qeq_alt in Hc. destruct (Z.even (Qfloor q)); split; lra.
  - apply Qlt_alt in Hc. split; lra.
  - apply Qgt_alt in Hc. split; lra.
Qed.

Lemma heading_of_range (a : Q) : (-180 <= heading_of a <= 180)%Q.
Proof.
  unfold heading_of. set (h := (-1 * (270 + a))%Q).
  assert (Hh : (h == h / 360 * 360)%Q) by (field; discriminate).
  pose proof (np_round_near (h / 360)) as [Hlo Hhi].
  set (t := (h / 360)%Q) in *. set (r := inject_Z (np_round t)) in *.
  split; lra.
Qed.

(** *** The geometry file names *)

Lemma after_last_slash_free acc t :
  slash_free t -> after_last_slash acc t = (rev acc ++ t)%list.
Proof.
  unfold slash_free. revert acc. induction t as [| c t IH]; intros acc H; simpl.
  - by rewrite app_nil_r.
  - simpl in H. apply andb_true_iff in H as [Hc Ht].
    destruct (Ascii.eqb c slash); [discriminate |].
    rewrite IH by done. simpl. by rewrite <- app_assoc.
Qed.

Lemma after_last_slash_app acc s t :
  after_last_slash acc (s ++ slash :: t) = after_last_slash [] t.
Proof.
  revert acc. induction s as [| c s IH]; intros acc; simpl.
  - reflexivity.
  - destruct (Ascii.eqb c slash); apply IH.
Qed.

Lemma basename_join (a b : string) :
  slash_free (chars b) -> basename (join a b) = b.
Proof.
  intros Hb. unfold basename, join, startswith.
  assert (Hs : starts_with (chars "/") (chars b) = false).
  { unfold slash_free in Hb. change (chars "/") with [slash].
    destruct (chars b) as [| c l]; [done |].
    cbn [starts_with forallb] in *. apply andb_true_iff in Hb as [Hc _].
    rewrite Ascii.eqb_sym. destruct (Ascii.eqb c slash); [discriminate | done]. }
  rewrite Hs.
  destruct (String.eqb a "") eqn:Ha.
  - apply String.eqb_eq in Ha as ->. simpl.
    rewrite after_last_slash_free by done. apply str_of_chars.
  - simpl. destruct (endswith a "/") eqn:He.
    + unfold endswith in He. change (rev (chars "/")) with [slash] in He.
      destruct (rev (chars a)) as [| c l] eqn:Hr; [discriminate |].
      cbn [starts_with] in He. rewrite andb_true_r in He.
      apply Ascii.eqb_eq in He. subst c.
      assert (chars a = (rev l ++ [slash])%list) as Hca.
      { rewrite <- (rev_involutive (chars a)), Hr. reflexivity. }
      rewrite chars_app, Hca, <- app_assoc. simpl.
      rewrite after_last_slash_app, after_last_slash_free by done.
      apply str_of_chars.
    + rewrite !chars_app. change (chars "/") with [slash]. simpl.
      rewrite after_last_slash_app, after_last_slash_free by done.
      apply str_of_chars.
Qed.

Lemma forM_app l1 l2 (f : string -> M unit) st :
  forM (l1 ++ l2) f st
  = match forM l1 f st with
    | (Ok _, st1) => forM l2 f st1
    | (Raise e, st1) => (Raise e, st1)
    end.
Proof.
  revert st. induction l1 as [| x l1 IH]; intros st; simpl; [done |].
  unfold bindM. destruct (f x st) as [[u | e] st1]; [apply IH | done].
Qed.



(** ** Repeated calls on one dictionary *)

Lemma looks_loop_shape E w geom_dir fbases :
  exists r lw,
    (forall st, looks_loop E w geom_dir fbases st = (r, write_looks lw st))
    /\ (r = Ok tt -> lw = NoLooks \/ exists a r', lw = BothLooks a r').
Proof.
  induction fbases as [| fb rest IH]; simpl.
  - exists (Ok tt), NoLooks. split; [done | by left].
  - destruct (_ ++ _)%list as [| f0 fs]; [exact IH |].
    destruct (isfile w _); [| exact IH].
    unfold bindM, lift, set.
    destruct (read_isce_xml E _) as [full | e];
      [| exists (Raise e), NoLooks; split; [done | discriminate]].
    destruct (read_attribute E _) as [xml | e];
      [| exists (Raise e), NoLooks; split; [done | discriminate]].
    destruct (looks_ratio E full xml "LENGTH") as [a | e];
      [| exists (Raise e), NoLooks; split; [done | discriminate]].
    destruct (looks_ratio E full xml "WIDTH") as [r | e];
      [| exists (Raise e), (OnlyALOOKS a); split; [done | discriminate]].
    exists (Ok tt), (BothLooks a r). split; [done | right; eauto].
Qed.

Lemma write_looks_idem lw (md : dict) :
  write_looks lw (write_looks lw md) = write_looks lw md.
Proof.
  destruct lw; cbn [write_looks]; [done | by rewrite insert_insert_eq |].
  apply map_eq. intros k.
  destruct (decide (k = "RLOOKS")) as [-> | Hr]; [by rewrite !lookup_insert_eq |].
  destruct (decide (k = "ALOOKS")) as [-> | Ha].
  - by rewrite !(lookup_insert_ne _ "RLOOKS" "ALOOKS"), !lookup_insert_eq by done.
  - by rewrite !lookup_insert_ne by done.
Qed.

(** Values already stored are written again unchanged. *)
Lemma write_looks_absorbed lw (md md' : dict) :
  (forall k, k = "ALOOKS" \/ k = "RLOOKS" ->
             is_Some (write_looks lw md !! k) -> md' !! k = write_looks lw md !! k) ->
  write_looks lw md' = md'.
Proof.
  intros H. destruct lw; cbn [write_looks] in *; [done | |].
  - apply insert_id. rewrite H; [| by left |]; rewrite lookup_insert_eq; eauto.
  - rewrite (insert_id md' "ALOOKS").
    + apply insert_id. rewrite H; [| by right |]; rewrite lookup_insert_eq; eauto.
    + rewrite H; [| by left |]; rewrite lookup_insert_ne, lookup_insert_eq by done;
        eauto.
Qed.

Lemma set_default_eq k (md : dict) : set_default k md = (Ok tt, defaulted k md).
Proof. unfold set_default, defaulted. by destruct (md !! k). Qed.

Lemma defaulted_present k (md : dict) : is_Some (md !! k) -> defaulted k md = md.
Proof. intros [v Hv]. unfold defaulted. by rewrite Hv. Qed.

Lemma defaulted_is_Some k (md : dict) : is_Some (defaulted k md !! k).
Proof.
  unfold defaulted. destruct (md !! k) eqn:Hk; [by rewrite Hk |].
  rewrite lookup_insert_eq. eauto.
Qed.

Lemma defaulted_keeps k (md : dict) k' :
  is_Some (md !! k') -> defaulted k md !! k' = md !! k'.
Proof.
  unfold defaulted. destruct (md !! k) eqn:Hk; [done |].
  intros [v Hv]. apply lookup_insert_ne. intros ->. congruence.
Qed.

Lemma defaulted_other k (md : dict) k' :
  k' <> k -> defaulted k md !! k' = md !! k'.
Proof.
  unfold defaulted. destruct (md !! k); [done |]. intros. by apply lookup_insert_ne.
Qed.

Lemma ncorrlooks_step_spec (md : dict) :
  ncorrlooks_step md
  = match ncorrlooks_of md with
    | Ok n => (Ok tt, <["NCORRLOOKS" := n]> md)
    | Raise e => (Raise e, md)
    end.
Proof.
  unfold ncorrlooks_step, ncorrlooks_of, bindM, get, lift, set.
  repeat match goal with
         | |- context [bind ?r _] => destruct r; cbn [bind]; [| reflexivity]
         end.
  by destruct (py_div _ _).
Qed.

Lemma ncorrlooks_of_ext (md md' : dict) :
  (forall k, k <> "NCORRLOOKS" -> md' !! k = md !! k) ->
  ncorrlooks_of md' = ncorrlooks_of md.
Proof.
  intros H. unfold ncorrlooks_of, getitem. by rewrite !H by discriminate.
Qed.

Lemma extract_multilook_number_unfold E w geom_dir :
  extract_multilook_number E w geom_dir
  = (looks_loop E w geom_dir ["hgt"; "lat"; "lon"; "los"] ;;;
     set_default "ALOOKS" ;;; set_default "RLOOKS" ;;; ncorrlooks_step).
Proof. reflexivity. Qed.

Lemma extract_multilook_number_eval E w geom_dir r lw :
  (forall st, looks_loop E w geom_dir ["hgt"; "lat"; "lon"; "los"] st
              = (r, write_looks lw st)) ->
  forall st,
    extract_multilook_number E w geom_dir st
    = match r with
      | Ok _ =>
          ncorrlooks_step (defaulted "RLOOKS" (defaulted "ALOOKS" (write_looks lw st)))
      | Raise e => (Raise e, write_looks lw st)
      end.
Proof.
  intros Hloop st. rewrite extract_multilook_number_unfold.
  unfold bindM. rewrite Hloop. destruct r as [u | e]; [| done].
  by rewrite !set_default_eq.
Qed.

(** A second call on the same dictionary object repeats the first. *)
Lemma extract_multilook_number_idem E w geom_dir (md : dict) :
  extract_multilook_number E w geom_dir
    (snd (extract_multilook_number E w geom_dir md))
  = extract_multilook_number E w geom_dir md.
Proof.
  destruct (looks_loop_shape E w geom_dir ["hgt"; "lat"; "lon"; "los"])
    as (r & lw & Hloop & Hlw).
  rewrite !(extract_multilook_number_eval E w geom_dir r lw Hloop).
  destruct r as [[] | e]; [| cbn [snd]; by rewrite write_looks_idem].
  set (s1 := write_looks lw md).
  set (s3 := defaulted "RLOOKS" (defaulted "ALOOKS" s1)).
  assert (HR3 : is_Some (s3 !! "RLOOKS")) by apply defaulted_is_Some.
  assert (HA3 : is_Some (s3 !! "ALOOKS")).
  { unfold s3. rewrite defaulted_keeps; apply defaulted_is_Some. }
  assert (Hs1 : forall k, is_Some (s1 !! k) -> s3 !! k = s1 !! k).
  { intros k Hk. unfold s3. rewrite !defaulted_keeps; [done.. |].
    by rewrite defaulted_keeps. }
  assert (Hagain : forall sf : dict,
             (forall k, k <> "NCORRLOOKS" -> sf !! k = s3 !! k) ->
             defaulted "RLOOKS" (defaulted "ALOOKS" (write_looks lw sf)) = sf).
  { intros sf Hsf.
    assert (write_looks lw sf = sf) as ->.
    { apply (write_looks_absorbed lw md). fold s1. intros k Hk Hsome.
      rewrite Hsf by (destruct Hk as [-> | ->]; discriminate). by apply Hs1. }
    rewrite (defaulted_present "ALOOKS") by (rewrite Hsf; done).
    by rewrite (defaulted_present "RLOOKS") by (rewrite Hsf; done). }
  rewrite (ncorrlooks_step_spec s3).
  destruct (ncorrlooks_of s3) as [n | e] eqn:Hn; cbn [snd].
  - rewrite Hagain by (intros k Hk; by apply lookup_insert_ne).
    rewrite ncorrlooks_step_spec.
    rewrite (ncorrlooks_of_ext s3) by (intros k Hk; by apply lookup_insert_ne).
    by rewrite Hn, insert_insert_eq.
  - rewrite Hagain by done. by rewrite ncorrlooks_step_spec, Hn.
Qed.

Lemma extract_multilook_number_default E w geom_dir :
  is_raise (fst (extract_multilook_number E w geom_dir ∅)) = true.
Proof.
  destruct (looks_loop_shape E w geom_dir ["hgt"; "lat"; "lon"; "los"])
    as (r & lw & Hloop & Hlw).
  rewrite (extract_multilook_number_eval E w geom_dir r lw Hloop).
  destruct r as [[] | e]; [| done].
  rewrite ncorrlooks_step_spec.
  set (s3 := defaulted "RLOOKS" (defaulted "ALOOKS" (write_looks lw ∅))).
  assert (Hnone : s3 !! "rangeResolution" = None).
  { unfold s3. rewrite !defaulted_other by discriminate.
    destruct lw; cbn [write_looks]; by rewrite ?lookup_insert_ne by discriminate. }
  unfold ncorrlooks_of, getitem. by rewrite Hnone.
Qed.

Lemma extract_geometry_metadata_raise E w geom_dir (md md' : dict) e :
  extract_multilook_number E w geom_dir md = (Raise e, md') ->
  extract_geometry_metadata E w geom_dir md = (Raise e, md').
Proof. intros H. unfold extract_geometry_metadata, bindM. by rewrite H. Qed.


Lemma lookup_float_neq (m1 m2 : dict) (k : string) :
  match m1 !! k, m2 !! k with
  | Some (VFloat a), Some (VFloat b) => Qeq_bool a b
  | _, _ => true
  end = false ->
  m1 !! k <> m2 !! k.
Proof.
  intros N Heq. rewrite <- Heq in N.
  destruct (m1 !! k) as [[| | | q | |] |]; try discriminate N.
  by rewrite (proj2 (Qeq_bool_iff q q) (Qeq_refl q)) in N.
Qed.

(** ** prepare_stack *)

Lemma append_inv_tail (f g s : string) : (f ++ s = g ++ s)%string -> f = g.
Proof.
  intros H. apply (f_equal chars) in H. rewrite !chars_app in H.
  apply app_inv_tail in H. rewrite <- (str_of_chars f), <- (str_of_chars g).
  by rewrite H.
Qed.

Section Stack.

Variable E : Extern.
Variable metadata : dict.
Variable baseline_dict : option baselines.
Variable update_mode : bool.

Local Abbreviation stack_step := (stack_step E metadata baseline_dict update_mode).
Local Abbreviation has_sidecar := (has_sidecar E metadata baseline_dict).

Lemma write_roipac_rsc_spec (md : dict) (p : string) (w : World) :
  exists w', write_roipac_rsc E md p update_mode w = (Ok tt, w')
    /\ (exists file, files w' !! p = Some file /\ rsc file = py_str E <$> md)
    /\ (forall q, q <> p -> files w' !! q = files w !! q).
Proof.
  unfold write_roipac_rsc.
  destruct (update_mode && bool_decide _) eqn:Hc.
  - exists w. split; [done |]. split; [| done].
    apply andb_true_iff in Hc as [_ Hc]. apply bool_decide_eq_true in Hc.
    destruct (files w !! p) as [file |]; [| discriminate].
    exists file. split; [done |]. by injection Hc.
  - eexists. split; [reflexivity |]. simpl. split.
    + eexists. by rewrite lookup_insert_eq.
    + intros q Hq. by apply lookup_insert_ne.
Qed.

Lemma stack_step_Ok f w :
  is_raise (ifgram_metadata E metadata baseline_dict f) = false ->
  exists w', stack_step f w = (Ok tt, w')
    /\ has_sidecar w' f
    /\ (forall g, has_sidecar w g -> has_sidecar w' g)
    /\ (forall q, q <> (f ++ ".rsc")%string -> files w' !! q = files w !! q).
Proof.
  intros Hok. unfold stack_step, bindM, lift.
  destruct (ifgram_metadata E metadata baseline_dict f) as [md |] eqn:Hmd;
    [| discriminate].
  destruct (write_roipac_rsc_spec md (f ++ ".rsc") w) as (w' & -> & (file & Hf & Hr) & Ho).
  exists w'. split; [done |].
  assert (Hsf : has_sidecar w' f) by (exists md, file; done).
  split; [done |]. split; [| done].
  intros g Hg. destruct (decide (g = f)) as [-> | Hne]; [done |].
  destruct Hg as (mdg & fileg & Hg1 & Hg2 & Hg3). exists mdg, fileg.
  split; [done |]. split; [| done]. rewrite Ho; [done |].
  intros Heq. by apply append_inv_tail in Heq.
Qed.

Lemma stack_loop_Ok l w :
  (forall f, In f l -> is_raise (ifgram_metadata E metadata baseline_dict f) = false) ->
  exists w', forIO l stack_step w = (Ok tt, w')
    /\ (forall f, In f l -> has_sidecar w' f)
    /\ (forall g, has_sidecar w g -> has_sidecar w' g)
    /\ (forall q, (forall f, In f l -> q <> (f ++ ".rsc")%string) ->
                  files w' !! q = files w !! q).
Proof.
  revert w. induction l as [| x l IH]; intros w Hall.
  - exists w. simpl. unfold ret. split; [done |]. split; [intros f [] |]. by split.
  - destruct (stack_step_Ok x w) as (w1 & Hstep & Hx & Hkeep & Hother);
      [apply Hall; by left |].
    destruct (IH w1) as (w' & Hrun & Hl & Hkeep' & Hother');
      [intros f Hf; apply Hall; by right |].
    exists w'. simpl. unfold bindM. rewrite Hstep. split; [exact Hrun |].
    split; [| split].
    + intros f [<- | Hf]; [by apply Hkeep' | by apply Hl].
    + intros g Hg. by apply Hkeep', Hkeep.
    + intros q Hq. rewrite Hother' by (intros f Hf; apply Hq; by right).
      apply Hother, Hq. by left.
Qed.

End Stack.

Lemma ifgram_metadata_DATE12 E metadata baseline_dict f md :
  ifgram_metadata E metadata baseline_dict f = Ok md ->
  exists d0 d1,
    split (basename (dirname f)) "_" !! 0%nat = Some d0
    /\ split (basename (dirname f)) "_" !! 1%nat = Some d1
    /\ md !! "DATE12" = Some (VStr (slice_from 2 d0 ++ "-" ++ slice_from 2 d1)).
Proof.
  unfold ifgram_metadata, add_ifgram_metadata, index. intros H.
  destruct (attributes_with E metadata f) as [m |]; [| discriminate]. cbn [bind] in H.
  destruct (split (basename (dirname f)) "_" !! 0%nat) as [d0 |]; [| discriminate].
  cbn [bind] in H.
  destruct (split (basename (dirname f)) "_" !! 1%nat) as [d1 |]; [| discriminate].
  cbn [bind] in H. exists d0, d1. split; [done |]. split; [done |].
  destruct (truthy_dict baseline_dict) as [bd |].
  - repeat match type of H with
           | context [bind ?r _] => destruct r; cbn [bind] in H; [| discriminate]
           end.
    injection H as <-. by rewrite !lookup_insert_ne, lookup_insert_eq by discriminate.
  - injection H as <-. by rewrite lookup_insert_eq.
Qed.



(** ** main without a metadata file *)

(** C9: [cmd_line_parse] accepts the arguments as soon as one of [-i],
    [-g], [-m] is given, yet without [-m] ([metaFile] is [None]) [main]
    always ends with an exception and leaves the file system untouched:
    [TypeError] from [get_processor] when [-i] or [-g] is given,
    [SystemExit] from [cmd_line_parse] otherwise. *)
Theorem main_without_meta_file (E : Extern) (w : World) (inps : Inps) :
  metaFile inps = None ->
  let accepted := is_truthy (ifgramDir inps) || is_truthy (geometryDir inps) in
  (cmd_line_parse inps = if accepted then Ok inps else Raise SystemExit)
  /\ main E inps w
     = (Raise (if accepted then TypeError else SystemExit), w).
Proof.
  intros Hm accepted. subst accepted.
  unfold main, bindM, lift, cmd_line_parse, get_processor. rewrite Hm.
  cbn [forallb]. change (is_truthy None) with false.
  destruct (is_truthy (ifgramDir inps)), (is_truthy (geometryDir inps));
    cbn [negb andb orb]; rewrite ?Hm; done.
Qed.

(** Only the interferogram directory is given. *)
Lemma main_without_meta_file_witness :
  let inps := {| ifgramDir := Some "/i"; ifgramFiles := ["filt_*.unw"];
                 metaFile := None; baselineDir := None; geometryDir := None;
                 update_mode := true |} in
  cmd_line_parse inps = Ok inps
  /\ main Demo.extern inps Demo.world = (Raise TypeError, Demo.world).
Proof.
  intros inps.
  exact (main_without_meta_file Demo.extern Demo.world inps eq_refl).
Defined.
(** A full run on the sample world returns and leaves the sidecars of the
    metadata file, the geometry files and the interferogram. *)
Example demo_main :
  let inps := {| ifgramDir := Some "/i"; ifgramFiles := ["filt_*.unw"];
                 metaFile := Some "/m/IW1.xml"; baselineDir := Some "/b";
                 geometryDir := Some "/g"; update_mode := true |} in
  let run := main Demo.extern inps Demo.world in
  fst run = Ok tt
  /\ forallb (isfile (snd run))
       ["/m/data.rsc"; "/g/hgt.rdr.rsc"; "/g/lat.rdr.rsc"; "/g/los.rdr.rsc";
        "/i/20141213_20141225/filt_fine.unw.rsc"] = true.
Proof. vm_compute. split; reflexivity. Qed.

(** ** Baseline time series *)

(** *** The dates in a baseline file name *)

Lemma hd_fmap_str_of (l : list (list ascii)) :
  hd "" (str_of <$> l) = str_of (hd [] l).
Proof. by destruct l. Qed.

Lemma split_go_prefix sep cur s :
  exists p rest, s = (p ++ rest)%list /\ hd [] (split_go sep O cur s) = (rev cur ++ p)%list.
Proof.
  revert cur. induction s as [| c s IH]; intros cur; cbn [split_go].
  - exists [], []. split; [done |]. simpl. by rewrite app_nil_r.
  - destruct (starts_with sep (c :: s)).
    + exists [], (c :: s). split; [done |]. simpl. by rewrite app_nil_r.
    + destruct (IH (c :: cur)) as (p & rest & -> & Hhd).
      exists (c :: p), rest. split; [done |]. rewrite Hhd. simpl.
      by rewrite <- app_assoc.
Qed.

Lemma split_go_char c cur s :
  hd [] (split_go [c] O cur s) = (rev cur ++ before c s)%list
  /\ (is_Some (split_go [c] O cur s !! 1%nat) -> In c s).
Proof.
  revert cur. induction s as [| d s IH]; intros cur; cbn [split_go starts_with before].
  - split; [simpl; by rewrite app_nil_r | by intros [x Hx]].
  - rewrite andb_true_r. destruct (Ascii.eqb c d) eqn:Hcd.
    + apply Ascii.eqb_eq in Hcd as ->. split; [simpl; by rewrite app_nil_r |].
      intros _. by left.
    + destruct (IH (d :: cur)) as [Hhd Hin]. split.
      * rewrite Hhd. simpl. by rewrite <- app_assoc.
      * intros H. right. by apply Hin.
Qed.

Lemma before_app c p rest : In c p -> before c (p ++ rest) = before c p.
Proof.
  induction p as [| d p IH]; [intros [] |]. intros Hin. simpl.
  destruct (Ascii.eqb c d) eqn:Hcd; [done |].
  destruct Hin as [-> | Hin]; [by rewrite Ascii.eqb_refl in Hcd |].
  by rewrite IH.
Qed.

(** A file name with a second date starts with the first date by which
    the files were selected. *)
Lemma file_dates_first (path : string) :
  is_Some (file_dates path !! 1%nat) -> file_dates path !! 0%nat = Some (first_date path).
Proof.
  unfold file_dates, first_date, split. rewrite !hd_fmap_str_of.
  change (chars "_") with ["_"%char].
  destruct (split_go_prefix (chars ".txt") [] (chars (basename path)))
    as (p & rest & Hb & Hp).
  rewrite Hp, Hb. cbn [rev app]. rewrite chars_str_of. intros H2.
  destruct (split_go_char "_"%char [] p) as [Hhd Hin].
  destruct (split_go_char "_"%char [] (p ++ rest)) as [Hhd' _].
  rewrite Hhd'. cbn [rev app]. rewrite before_app.
  2:{ apply Hin. rewrite list_lookup_fmap in H2.
      destruct (split_go ["_"%char] 0 [] p !! 1%nat); [eauto | by destruct H2]. }
  rewrite list_lookup_fmap. destruct (split_go ["_"%char] 0 [] p) as [| x l] eqn:Hs.
  - rewrite list_lookup_fmap in H2. by destruct H2.
  - simpl in *. by rewrite Hhd.
Qed.

(** *** The most common item *)

Lemma most_common_fold (L l : list string) (x : string) :
  let pick := fun best y =>
    if (count_occ string_dec L best <? count_occ string_dec L y)%nat then y else best in
  let r := foldl pick x l in
  (count_occ string_dec L x <= count_occ string_dec L r)%nat
  /\ (forall y, In y l -> (count_occ string_dec L y <= count_occ string_dec L r)%nat)
  /\ In r (x :: l).
Proof.
  intros pick. revert x. induction l as [| y l IH]; intros x; cbn [foldl].
  - split; [lia |]. split; [intros y [] | by left].
  - destruct (IH (pick x y)) as (H1 & H2 & H3).
    assert (Hx : (count_occ string_dec L x <= count_occ string_dec L (pick x y))%nat
                 /\ (count_occ string_dec L y <= count_occ string_dec L (pick x y))%nat
                 /\ (pick x y = x \/ pick x y = y)).
    { unfold pick. destruct (_ <? _)%nat eqn:Hlt.
      - apply Nat.ltb_lt in Hlt. split; [lia |]. split; [lia | by right].
      - apply Nat.ltb_ge in Hlt. split; [lia |]. split; [lia | by left]. }
    destruct Hx as (Hx1 & Hx2 & Hx3). split; [lia |]. split.
    + intros z [<- | Hz]; [lia | by apply H2].
    + destruct H3 as [H3 | H3]; [| right; by right].
      rewrite <- H3. destruct Hx3 as [-> | ->]; [by left | right; by left].
Qed.

Lemma most_common_spec (L : list string) (d : string) :
  most_common L = Ok d ->
  In d L /\ forall y, (count_occ string_dec L y <= count_occ string_dec L d)%nat.
Proof.
  unfold most_common. destruct L as [| x l] eqn:HL; [discriminate |].
  rewrite <- HL. intros [= <-].
  destruct (most_common_fold L L x) as (H1 & H2 & H3).
  split.
  - destruct H3 as [H3 | H3]; [rewrite <- H3, HL; by left | done].
  - intros y. destruct (in_dec string_dec y L) as [Hy | Hy]; [by apply H2 |].
    apply (count_occ_not_In string_dec) in Hy. lia.
Qed.

(** *** The loop over the baseline files *)

Lemma read_baselines_spec read l (bDict bDict' : baselines) dates dates' :
  read_baselines read l bDict dates = Ok (bDict', dates') ->
  (forall k v, bDict' !! k = Some v ->
     bDict !! k = Some v
     \/ exists f, In f l /\ file_dates f !! 1%nat = Some k /\ read f = Ok v)
  /\ dates' = match last l with
              | Some f => Some (file_dates f)
              | None => dates
              end
  /\ (forall f, In f l -> is_Some (file_dates f !! 1%nat)).
Proof.
  revert bDict dates. induction l as [| f l IH]; intros bDict dates; cbn [read_baselines].
  - intros [= <- <-]. split; [by left |]. split; [done | intros f []].
  - intros H. destruct (read f) as [v |] eqn:Hread; [| discriminate]. cbn [bind] in H.
    unfold index in H.
    destruct (file_dates f !! 1%nat) as [d1 |] eqn:Hd1; [| discriminate].
    cbn [bind] in H. apply IH in H as (Hent & Hdates & Hall).
    split; [| split].
    + intros k v' Hk. destruct (Hent k v' Hk) as [Hold | (g & Hg & Hgk & Hgv)].
      * destruct (decide (d1 = k)) as [<- | Hne].
        -- rewrite lookup_insert_eq in Hold. injection Hold as <-.
           right. exists f. split; [by left | done].
        -- rewrite lookup_insert_ne in Hold by done. by left.
      * right. exists g. split; [by right | done].
    + rewrite Hdates. rewrite last_cons. by destruct (last l).
    + intros g [<- | Hg]; [by rewrite Hd1 | by apply Hall].
Qed.

Lemma read_tops_baseline_spec E f v :
  read_tops_baseline E f = Ok v ->
  exists lines bperps,
    read_lines E f = Ok lines /\ bperp_values E lines = Ok bperps
    /\ v = (np_mean bperps, np_mean bperps).
Proof.
  unfold read_tops_baseline. intros H.
  destruct (read_lines E f) as [lines |] eqn:Hl; [| discriminate]. cbn [bind] in H.
  destruct (bperp_values E lines) as [bperps |] eqn:Hb; [| discriminate].
  cbn [bind] in H. exists lines, bperps. split; [reflexivity |]. split; [exact Hb |].
  congruence.
Qed.

(** C10: [read_baseline_timeseries] returns [None] exactly when it returns
    and no baseline file matches; a returned dictionary maps the most
    common first date of the file names to [[0, 0]], and any other entry
    is what was read from a file whose name starts with that date and has
    the entry's key as second date; for TOPS both components of such an
    entry are the mean of the file's [Bperp (average)] values. *)
Theorem read_baseline_timeseries_spec (E : Extern) (w : World)
    (baseline_dir processor : string) :
  (forall bFiles,
     baseline_files w baseline_dir processor = Ok bFiles ->
     (read_baseline_timeseries E w baseline_dir processor = Ok None <-> bFiles = []))
  /\ (forall bDict,
        read_baseline_timeseries E w baseline_dir processor = Ok (Some bDict) ->
        exists bFiles date1,
          baseline_files w baseline_dir processor = Ok bFiles
          /\ most_common (first_date <$> bFiles) = Ok date1
          /\ In date1 (first_date <$> bFiles)
          /\ (forall d, (count_occ string_dec (first_date <$> bFiles) d
                         <= count_occ string_dec (first_date <$> bFiles) date1)%nat)
          /\ bDict !! date1 = Some (VInt 0, VInt 0)
          /\ (forall k v,
                k <> date1 -> bDict !! k = Some v ->
                exists f,
                  In f bFiles /\ first_date f = date1
                  /\ file_dates f !! 1%nat = Some k
                  /\ (processor = "tops" ->
                      exists lines bperps,
                        read_lines E f = Ok lines
                        /\ bperp_values E lines = Ok bperps
                        /\ v = (np_mean bperps, np_mean bperps))
                  /\ (processor <> "tops" -> read_stripmap_baseline E f = Ok v))).
Proof.
  unfold read_baseline_timeseries. split.
  - intros bFiles ->. cbn [bind]. split.
    + destruct bFiles as [| f l]; [done |]. cbn [List.length Nat.eqb].
      destruct (most_common _) as [date1 |]; cbn [bind]; [| discriminate].
      destruct (read_baselines _ _ _ _) as [[bD [dates |]] |]; cbn [bind fst snd];
        try discriminate.
      unfold index. destruct (dates !! 0%nat); cbn [bind]; discriminate.
    + by intros ->.
  - intros bDict H.
    destruct (baseline_files w baseline_dir processor) as [bFiles |]; [| discriminate].
    cbn [bind] in H. destruct (List.length bFiles =? 0)%nat; [discriminate |].
    destruct (most_common (first_date <$> bFiles)) as [date1 |] eqn:Hmc; [| discriminate].
    cbn [bind] in H.
    set (sel := List.filter (fun i => String.eqb (first_date i) date1) bFiles) in H.
    set (read := if String.eqb processor "tops"
                 then read_tops_baseline E else read_stripmap_baseline E) in H.
    destruct (read_baselines read sel ∅ None) as [[bD dates] |] eqn:Hloop;
      [| discriminate].
    cbn [bind fst snd] in H. destruct dates as [dates |]; [| discriminate].
    unfold index in H. destruct (dates !! 0%nat) as [d0 |] eqn:Hd0; [| discriminate].
    cbn [bind] in H. injection H as <-.
    apply read_baselines_spec in Hloop as (Hent & Hdates & Hall).
    assert (Hsel : forall f, In f sel -> In f bFiles /\ first_date f = date1).
    { intros f Hf. apply filter_In in Hf as [Hf Hd]. by apply String.eqb_eq in Hd. }
    assert (d0 = date1) as ->.
    { destruct (last sel) as [f |] eqn:Hlast; [| discriminate].
      injection Hdates as ->.
      assert (Hf : In f sel).
      { apply last_Some in Hlast as [l' ->].
        apply in_or_app. right. by left. }
      rewrite (file_dates_first f (Hall f Hf)) in Hd0. injection Hd0 as <-.
      by apply Hsel. }
    destruct (most_common_spec _ _ Hmc) as [Hin Hmax].
    exists bFiles, date1. split; [done |]. split; [done |]. split; [done |].
    split; [done |]. split; [by rewrite lookup_insert_eq |].
    intros k v Hk Hv. rewrite lookup_insert_ne in Hv by done.
    destruct (Hent k v Hv) as [Hemp | (f & Hf & Hfk & Hfv)];
      [by rewrite lookup_empty in Hemp |].
    destruct (Hsel f Hf) as [Hfb Hfd]. exists f. repeat split; try done.
    + intros ->. subst read. cbn in Hfv. by apply read_tops_baseline_spec.
    + intros Hne. subst read.
      destruct (String.eqb processor "tops") eqn:Hp; [| done].
      by apply String.eqb_eq in Hp.
Qed.

(** The baseline file of the sample world: Bperp 104 and 110. *)
Lemma read_baseline_timeseries_spec_witness :
  read_baseline_timeseries Demo.extern Demo.world "/nowhere" "tops" = Ok None
  /\ exists bDict a b,
       read_baseline_timeseries Demo.extern Demo.world "/b" "tops" = Ok (Some bDict)
       /\ bDict !! "20141213" = Some (VInt 0, VInt 0)
       /\ bDict !! "20141225" = Some (VFloat a, VFloat b)
       /\ (a == 107)%Q /\ (b == 107)%Q.
Proof.
  split.
  { apply (proj1 (read_baseline_timeseries_spec Demo.extern Demo.world "/nowhere"
                    "tops") []); [vm_compute |]; reflexivity. }
  assert (Hc : match read_baseline_timeseries Demo.extern Demo.world "/b" "tops" with
               | Ok (Some d) =>
                   match d !! "20141225" with
                   | Some (VFloat a, VFloat b) => Qeq_bool a 107 && Qeq_bool b 107
                   | _ => false
                   end
               | _ => false
               end = true) by (vm_compute; reflexivity).
  destruct (read_baseline_timeseries Demo.extern Demo.world "/b" "tops")
    as [[d |] |] eqn:Hrun; try discriminate Hc.
  destruct (proj2 (read_baseline_timeseries_spec Demo.extern Demo.world "/b" "tops")
              d Hrun) as (bFiles & date1 & Hbf & Hmc & _ & _ & H0 & _).
  clear Hrun. vm_compute in Hbf. injection Hbf as <-.
  vm_compute in Hmc. injection Hmc as <-.
  destruct (d !! "20141225") as [[[| | | a | |] [| | | b | |]] |] eqn:Hd;
    try discriminate Hc.
  apply andb_true_iff in Hc as [Ha Hb].
  exists d, a, b. split; [reflexivity |]. split; [exact H0 |]. split; [exact Hd |].
  split; by apply Qeq_bool_iff.
Defined.
(** * Further properties of the code *)

(** ** What the scene extractions store *)

Lemma extract_tops_metadata_Ok (E : Extern) (w : World) (xml_file : string)
    (md : dict) (burst : Burst.t) :
  extract_tops_metadata E w xml_file = Ok (md, burst) ->
  exists obj burstEnd res,
    load_tops E xml_file = Ok obj
    /\ index (bursts obj) 0 = Ok burst
    /\ index_last (bursts obj) = Ok burstEnd
    /\ TOPS_RESOLUTION (iw_str_of xml_file) = Ok res
    /\ md !! "rangeResolution" = Some (VFloat (fst res))
    /\ md !! "azimuthResolution" = Some (VFloat (snd res))
    /\ md !! "CENTER_LINE_UTC"
       = Some (VFloat (center_line_utc (Burst.burstStartUTC burst)))
    /\ md !! "firstFrameNumber"
       = Some (VInt (Qtrunc ((2 # 10) * total_seconds (Burst.burstStartUTC burst)
                                          (ascendingNodeTime obj))))
    /\ md !! "lastFrameNumber"
       = Some (VInt (Qtrunc ((2 # 10) * total_seconds (Burst.burstStopUTC burstEnd)
                                          (ascendingNodeTime obj)))).
Proof.
  unfold extract_tops_metadata, speed_at. fold (iw_str_of xml_file). intros H.
  set (md0 := (∅ : dict)) in H. clearbody md0.
  destruct (load_tops E xml_file) as [obj |] eqn:Hobj; [| discriminate].
  cbn [bind] in H.
  destruct (index (bursts obj) 0) as [b |] eqn:Hb; [| discriminate].
  cbn [bind] in H.
  destruct (index_last (bursts obj)) as [bEnd |] eqn:Hend; [| discriminate].
  cbn [bind] in H.
  destruct (interpolateOrbit (Burst.orbit b) (Burst.sensingMid b)) as [peg |] eqn:Hpeg;
    [| discriminate].
  cbn [bind] in H.
  destruct (TOPS_RESOLUTION (iw_str_of xml_file)) as [res |] eqn:Hres; [| discriminate].
  cbn [bind] in H.
  destruct (xyz_to_llh E (getPosition peg)) as [[lat lon] hgt].
  destruct (1 <? _)%nat.
  - destruct (mapM _ _) as [swath_num |]; [| discriminate]. cbn [bind] in H.
    apply Ok_pair_inj in H as [<- <-]. exists obj, bEnd, res.
    do 4 (split; [done |]). repeat split; lookup_inserts.
  - cbn [bind] in H. apply Ok_pair_inj in H as [<- <-]. exists obj, bEnd, res.
    do 4 (split; [done |]). repeat split; lookup_inserts.
Qed.

Lemma extract_stripmap_metadata_Ok (E : Extern) (meta_file : string)
    (md : dict) (frame : Frame.t) :
  extract_stripmap_metadata E meta_file = Ok (md, frame) ->
  stripmap_frame E meta_file = Ok frame
  /\ md !! "polarization" = Some (VStr (stripmap_polarization E frame))
  /\ md !! "CENTER_LINE_UTC"
     = Some (VFloat (center_line_utc (Frame.sensingStart frame)))
  /\ md !! "rangeResolution"
     = Some (VFloat (Qabs (SPEED_OF_LIGHT
                           / (2 * (Frame.pulseLength frame * Frame.chirpSlope frame)))))
  /\ md !! "beam_mode" = Some (VStr "SM").
Proof.
  unfold extract_stripmap_metadata, speed_at. fold (stripmap_frame E meta_file).
  intros H. set (md0 := (∅ : dict)) in H. clearbody md0.
  destruct (stripmap_frame E meta_file) as [f |] eqn:Hf; [| discriminate].
  cbn [bind] in H. fold (stripmap_polarization E f) in H.
  destruct (interpolateOrbit (Frame.orbit f) (Frame.sensingMid f)) as [peg |] eqn:Hpeg;
    [| discriminate].
  cbn [bind] in H.
  unfold py_div in H at 1. cbn [is_num is_zero to_Q andb negb] in H.
  destruct (Qeq_bool (Frame.PRF f) 0); [discriminate |]. cbn [bind] in H.
  unfold py_div in H. cbn [is_num is_zero to_Q andb negb] in H.
  destruct (Qeq_bool (2 * _) 0); [discriminate |]. cbn [bind] in H.
  destruct (xyz_to_llh E (getPosition peg)) as [[lat lon] hgt].
  apply Ok_pair_inj in H as [<- <-]. split; [done |].
  repeat split; lookup_inserts.
Qed.

(** *** Seconds since midnight *)

Lemma seconds_of_day (t : Z) :
  dt_hour t * 3600 + dt_minute t * 60 + dt_second t = (t / 1000000) mod 86400.
Proof.
  unfold dt_hour, dt_minute, dt_second.
  replace (t / 3600000000) with (t / 1000000 / 3600)
    by (rewrite Z.div_div by lia; reflexivity).
  replace (t / 60000000) with (t / 1000000 / 60)
    by (rewrite Z.div_div by lia; reflexivity).
  generalize (t / 1000000). intros u.
  Z.div_mod_to_equations. lia.
Qed.

Lemma center_line_utc_whole (t : Z) :
  (center_line_utc t == inject_Z ((t / 1000000) mod 86400))%Q.
Proof.
  unfold center_line_utc. rewrite <- seconds_of_day.
  rewrite !inject_Z_plus, !inject_Z_mult. reflexivity.
Qed.

Lemma center_line_utc_range (t : Z) : (0 <= center_line_utc t < 86400)%Q.
Proof.
  rewrite center_line_utc_whole.
  pose proof (Z.mod_pos_bound (t / 1000000) 86400 eq_refl) as [Hlo Hhi].
  split.
  - change 0%Q with (inject_Z 0). by rewrite <- Zle_Qle.
  - change 86400%Q with (inject_Z 86400). by rewrite <- Zlt_Qlt.
Qed.

(** X1: both extractions store under [CENTER_LINE_UTC] the start time of
    the scene as whole seconds since midnight, the fraction of the second
    dropped: the first burst's [burstStartUTC] for TOPS, the frame's
    [sensingStart] for stripmap; the value lies in [[0, 86400)]. *)
Theorem center_line_utc_seconds (E : Extern) (w : World) (meta_file : string)
    (md : dict) :
  (forall burst,
     extract_tops_metadata E w meta_file = Ok (md, burst) ->
     exists x, md !! "CENTER_LINE_UTC" = Some (VFloat x)
       /\ (x == inject_Z ((Burst.burstStartUTC burst / 1000000) mod 86400))%Q
       /\ (0 <= x < 86400)%Q)
  /\ (forall frame,
        extract_stripmap_metadata E meta_file = Ok (md, frame) ->
        exists x, md !! "CENTER_LINE_UTC" = Some (VFloat x)
          /\ (x == inject_Z ((Frame.sensingStart frame / 1000000) mod 86400))%Q
          /\ (0 <= x < 86400)%Q).
Proof.
  split.
  - intros burst H.
    apply extract_tops_metadata_Ok in H as (obj & bEnd & res & _ & _ & _ & _ & _ & _ & Hc & _).
    eexists. split; [exact Hc |].
    split; [apply center_line_utc_whole | apply center_line_utc_range].
  - intros frame H. apply extract_stripmap_metadata_Ok in H as (_ & _ & Hc & _).
    eexists. split; [exact Hc |].
    split; [apply center_line_utc_whole | apply center_line_utc_range].
Qed.

(** The TOPS product of the sample world starts at 01:01:01. *)
Lemma center_line_utc_seconds_witness :
  exists md burst x,
    extract_tops_metadata Demo.extern Demo.world "/m/IW1.xml" = Ok (md, burst)
    /\ md !! "CENTER_LINE_UTC" = Some (VFloat x) /\ (x == 3661)%Q.
Proof.
  pose proof (eq_refl :
    (let^ r := extract_tops_metadata Demo.extern Demo.world "/m/IW1.xml" in
     Ok (snd r)) = Ok Demo.burst) as Hb.
  destruct (extract_tops_metadata Demo.extern Demo.world "/m/IW1.xml")
    as [[md b] |] eqn:Hrun; [| discriminate Hb].
  cbn [bind snd] in Hb. assert (b = Demo.burst) as -> by congruence.
  destruct (proj1 (center_line_utc_seconds Demo.extern Demo.world "/m/IW1.xml" md)
              Demo.burst Hrun) as (x & Hx & Heq & _).
  exists md, Demo.burst, x. split; [reflexivity |]. split; [exact Hx |].
  rewrite Heq. reflexivity.
Defined.

(** *** Frame numbers *)

Lemma Qtrunc_mono (x y : Q) : (x <= y)%Q -> Qtrunc x <= Qtrunc y.
Proof.
  intros Hxy. unfold Qtrunc.
  destruct (Qle_bool 0 x) eqn:Hx, (Qle_bool 0 y) eqn:Hy.
  - by apply Qfloor_resp_le.
  - apply Qle_bool_iff in Hx. assert (~ (0 <= y)%Q) by (rewrite <- Qle_bool_iff; congruence).
    lra.
  - apply Qle_bool_iff in Hy.
    assert (Hn : ~ (0 <= x)%Q) by (rewrite <- Qle_bool_iff; congruence).
    transitivity 0.
    + assert (Hc : (Qceiling x <= Qceiling 0)%Z) by (apply Qceiling_resp_le; lra).
      exact Hc.
    + assert (Hf : (Qfloor 0 <= Qfloor y)%Z) by (by apply Qfloor_resp_le).
      exact Hf.
  - by apply Qceiling_resp_le.
Qed.

Lemma total_seconds_mono (a a' b : Z) :
  a <= a' -> (total_seconds a b <= total_seconds a' b)%Q.
Proof. intros H. unfold total_seconds, Qle. simpl. lia. Qed.

(** X2: the ASF frame numbers [extract_tops_metadata] stores are ordered,
    [firstFrameNumber <= lastFrameNumber], whenever the first burst starts
    no later than the last burst stops. *)
Theorem frame_numbers_ordered (E : Extern) (w : World) (xml_file : string)
    (md : dict) (burst : Burst.t) :
  extract_tops_metadata E w xml_file = Ok (md, burst) ->
  (forall obj burstEnd,
     load_tops E xml_file = Ok obj -> index_last (bursts obj) = Ok burstEnd ->
     Burst.burstStartUTC burst <= Burst.burstStopUTC burstEnd) ->
  exists first last,
    md !! "firstFrameNumber" = Some (VInt first)
    /\ md !! "lastFrameNumber" = Some (VInt last)
    /\ first <= last.
Proof.
  intros H Hord.
  apply extract_tops_metadata_Ok in H
    as (obj & bEnd & res & Hobj & _ & Hend & _ & _ & _ & _ & Hf & Hl).
  eexists _, _. split; [exact Hf |]. split; [exact Hl |].
  apply Qtrunc_mono. apply Qmult_le_l; [reflexivity |].
  apply total_seconds_mono. by apply (Hord obj bEnd).
Qed.

(** One burst of three seconds, starting 2461 s after the ascending node. *)
Lemma frame_numbers_ordered_witness :
  exists md first last,
    extract_tops_metadata Demo.extern Demo.world "/m/IW1.xml" = Ok (md, Demo.burst)
    /\ md !! "firstFrameNumber" = Some (VInt first)
    /\ md !! "lastFrameNumber" = Some (VInt last)
    /\ first <= last.
Proof.
  pose proof (eq_refl :
    (let^ r := extract_tops_metadata Demo.extern Demo.world "/m/IW1.xml" in
     Ok (snd r)) = Ok Demo.burst) as Hb.
  destruct (extract_tops_metadata Demo.extern Demo.world "/m/IW1.xml")
    as [[md b] |] eqn:Hrun; [| discriminate Hb].
  cbn [bind snd] in Hb. assert (b = Demo.burst) as -> by congruence.
  destruct (frame_numbers_ordered Demo.extern Demo.world "/m/IW1.xml" md Demo.burst Hrun)
    as (first & last & Hf & Hl & Hle).
  { intros obj bEnd Hobj Hend. vm_compute in Hobj. injection Hobj as <-.
    vm_compute in Hend. injection Hend as <-. vm_compute. discriminate. }
  exists md, first, last. split; [reflexivity |]. repeat split; assumption.
Defined.

(** *** Sentinel-1 resolution by file name *)

Lemma TOPS_RESOLUTION_Ok (iw : string) (res : Q * Q) :
  TOPS_RESOLUTION iw = Ok res ->
  (iw = "IW1" /\ res = (27 # 10, 225 # 10)%Q)
  \/ (iw = "IW2" /\ res = (31 # 10, 227 # 10)%Q)
  \/ (iw = "IW3" /\ res = (35 # 10, 226 # 10)%Q).
Proof.
  unfold TOPS_RESOLUTION.
  destruct (String.eqb iw "IW1") eqn:H1;
    [apply String.eqb_eq in H1; intros [= <-]; by left |].
  destruct (String.eqb iw "IW2") eqn:H2;
    [apply String.eqb_eq in H2; intros [= <-]; right; by left |].
  destruct (String.eqb iw "IW3") eqn:H3;
    [apply String.eqb_eq in H3; intros [= <-]; right; by right | discriminate].
Qed.

(** X3: the resolution [extract_tops_metadata] stores is the row of the
    Sentinel-1 table named by the xml file: the file's stem when its name
    starts with [IW], and [IW2] for any other name; a name that starts
    with [IW] with a stem other than [IW1], [IW2], [IW3] makes the
    extraction raise. *)
Theorem tops_resolution_by_name (E : Extern) (w : World) (xml_file : string) :
  let stem := splitext_root (basename xml_file) in
  (forall md burst,
     extract_tops_metadata E w xml_file = Ok (md, burst) ->
     exists rg az,
       md !! "rangeResolution" = Some (VFloat rg)
       /\ md !! "azimuthResolution" = Some (VFloat az)
       /\ (if startswith (basename xml_file) "IW"
           then (stem = "IW1" /\ (rg, az) = (27 # 10, 225 # 10)%Q)
                \/ (stem = "IW2" /\ (rg, az) = (31 # 10, 227 # 10)%Q)
                \/ (stem = "IW3" /\ (rg, az) = (35 # 10, 226 # 10)%Q)
           else (rg, az) = (31 # 10, 227 # 10)%Q))
  /\ (startswith (basename xml_file) "IW" = true ->
      stem <> "IW1" -> stem <> "IW2" -> stem <> "IW3" ->
      is_raise (extract_tops_metadata E w xml_file) = true).
Proof.
  intros stem. split.
  - intros md burst H.
    apply extract_tops_metadata_Ok in H
      as (obj & bEnd & [rg az] & _ & _ & _ & Hres & Hrg & Haz & _).
    exists rg, az. split; [exact Hrg |]. split; [exact Haz |].
    apply TOPS_RESOLUTION_Ok in Hres. unfold iw_str_of in Hres. fold stem in Hres.
    destruct (startswith (basename xml_file) "IW"); [exact Hres |].
    destruct Hres as [[? _] | [[_ ?] | [? _]]]; done.
  - intros HIW H1 H2 H3.
    destruct (extract_tops_metadata E w xml_file) as [[md burst] |] eqn:H; [| done].
    apply extract_tops_metadata_Ok in H as (obj & bEnd & res & _ & _ & _ & Hres & _).
    apply TOPS_RESOLUTION_Ok in Hres. unfold iw_str_of in Hres.
    rewrite HIW in Hres. fold stem in Hres.
    destruct Hres as [[? _] | [[? _] | [? _]]]; done.
Qed.

Lemma tops_resolution_by_name_witness :
  is_raise (extract_tops_metadata Demo.extern Demo.world "/m/IW4.xml") = true
  /\ exists md rg az,
       extract_tops_metadata Demo.extern Demo.world "/m/IW1.xml" = Ok (md, Demo.burst)
       /\ md !! "rangeResolution" = Some (VFloat rg)
       /\ md !! "azimuthResolution" = Some (VFloat az)
       /\ (rg, az) = (27 # 10, 225 # 10)%Q.
Proof.
  split.
  { apply (proj2 (tops_resolution_by_name Demo.extern Demo.world "/m/IW4.xml"));
      [reflexivity | vm_compute; discriminate..]. }
  pose proof (eq_refl :
    (let^ r := extract_tops_metadata Demo.extern Demo.world "/m/IW1.xml" in
     Ok (snd r)) = Ok Demo.burst) as Hb.
  destruct (extract_tops_metadata Demo.extern Demo.world "/m/IW1.xml")
    as [[md b] |] eqn:Hrun; [| discriminate Hb].
  cbn [bind snd] in Hb. assert (b = Demo.burst) as -> by congruence.
  destruct (proj1 (tops_resolution_by_name Demo.extern Demo.world "/m/IW1.xml")
              md Demo.burst Hrun) as (rg & az & Hrg & Haz & Hrow).
  exists md, rg, az. split; [reflexivity |]. split; [exact Hrg |]. split; [exact Haz |].
  change (startswith (basename "/m/IW1.xml") "IW") with true in Hrow.
  destruct Hrow as [[_ ?] | [[Hs _] | [Hs _]]]; [done | |];
    vm_compute in Hs; discriminate Hs.
Defined.

(** *** Polarization of a stripmap frame *)

Lemma chars_remove_slashes (s : string) :
  chars (remove_slashes s)
  = List.filter (fun c => negb (Ascii.eqb c slash)) (chars s).
Proof. unfold remove_slashes. apply chars_str_of. Qed.

Lemma slash_free_filter (l : list ascii) :
  slash_free (List.filter (fun c => negb (Ascii.eqb c slash)) l).
Proof.
  unfold slash_free. induction l as [| c l IH]; [done |]. simpl.
  destruct (negb (Ascii.eqb c slash)) eqn:Hc; [| done]. simpl. by rewrite Hc.
Qed.

Lemma slash_free_take n (l : list ascii) : slash_free l -> slash_free (take n l).
Proof.
  unfold slash_free. revert n. induction l as [| c l IH]; intros [| n] H; try done.
  simpl in *. apply andb_true_iff in H as [-> H]. by apply IH.
Qed.

Lemma slash_free_drop n (l : list ascii) : slash_free l -> slash_free (drop n l).
Proof.
  unfold slash_free. revert n. induction l as [| c l IH]; intros [| n] H; try done.
  simpl in *. apply andb_true_iff in H as [_ H]. by apply IH.
Qed.

Lemma filter_slash_free (l : list ascii) :
  slash_free l -> List.filter (fun c => negb (Ascii.eqb c slash)) l = l.
Proof.
  unfold slash_free. induction l as [| c l IH]; [done |]. simpl.
  intros H. apply andb_true_iff in H as [-> H]. by rewrite IH.
Qed.

Lemma bytes_repr_char_plain (c : ascii) :
  plain_byte c = true -> bytes_repr_char squote c = [c] /\ Ascii.eqb c slash = false.
Proof.
  unfold plain_byte, bytes_repr_char. intros H.
  apply andb_true_iff in H as [H H127]. apply andb_true_iff in H as [H H32].
  apply andb_true_iff in H as [H Hsl]. apply andb_true_iff in H as [Hq Hb].
  apply negb_true_iff in Hq, Hb, Hsl. apply Nat.leb_le in H32. apply Nat.ltb_lt in H127.
  rewrite Hq, Hb, Hsl. cbn [orb]. split; [| reflexivity].
  replace (nat_of_ascii c =? 9)%nat with false by (symmetry; apply Nat.eqb_neq; lia).
  replace (nat_of_ascii c =? 10)%nat with false by (symmetry; apply Nat.eqb_neq; lia).
  replace (nat_of_ascii c =? 13)%nat with false by (symmetry; apply Nat.eqb_neq; lia).
  replace (nat_of_ascii c <? 32)%nat with false by (symmetry; apply Nat.ltb_ge; lia).
  replace (127 <=? nat_of_ascii c)%nat with false by (symmetry; apply Nat.leb_gt; lia).
  reflexivity.
Qed.

(** X4: the polarization [extract_stripmap_metadata] stores never holds a
    slash.  A [bytes] value without a single quote (or with a double quote
    too) whose first two bytes are printable characters other than quote,
    backslash and slash is stored as these two characters, the [b'..']
    wrapping of its text removed; a [bytes] value with a single quote and
    no double quote has the text [b"..."], which is stored whole, its
    slashes removed; and a string without a slash that does not start with
    [b'] is stored as it is. *)
Theorem stripmap_polarization_clean (E : Extern) (meta_file : string)
    (md : dict) (frame : Frame.t) :
  extract_stripmap_metadata E meta_file = Ok (md, frame) ->
  exists pol,
    md !! "polarization" = Some (VStr pol)
    /\ slash_free (chars pol)
    /\ (forall s c1 c2 rest,
          Frame.polarization frame = VBytes s ->
          chars s = c1 :: c2 :: rest ->
          bytes_quote (chars s) = squote ->
          plain_byte c1 = true -> plain_byte c2 = true ->
          pol = str_of [c1; c2])
    /\ (forall s,
          Frame.polarization frame = VBytes s ->
          bytes_quote (chars s) = dquote ->
          pol = remove_slashes (py_str E (VBytes s))
          /\ startswith pol (str_of ["b"%char; dquote]) = true)
    /\ (forall s, Frame.polarization frame = VStr s ->
                  slash_free (chars s) -> startswith s "b'" = false -> pol = s).
Proof.
  intros H. apply extract_stripmap_metadata_Ok in H as (_ & Hpol & _).
  exists (stripmap_polarization E frame). split; [exact Hpol |].
  unfold stripmap_polarization. split; [| split; [| split]].
  - destruct (startswith _ "b'").
    + unfold slice. rewrite chars_str_of, chars_remove_slashes.
      apply slash_free_take, slash_free_drop, slash_free_filter.
    + rewrite chars_remove_slashes. apply slash_free_filter.
  - intros s c1 c2 rest -> Hs Hq H1 H2. cbn [py_str].
    apply bytes_repr_char_plain in H1 as [H1 Hs1].
    apply bytes_repr_char_plain in H2 as [H2 Hs2].
    assert (Hc : exists tl,
               chars (remove_slashes (str_of (bytes_repr (chars s))))
               = ("b"%char :: squote :: c1 :: c2 :: tl)%list).
    { rewrite chars_remove_slashes, chars_str_of. unfold bytes_repr.
      rewrite Hq, Hs. cbn [fmap list_fmap List.concat]. rewrite H1, H2.
      cbn [app List.filter]. rewrite Hs1, Hs2.
      change ("b" =? slash)%char with false. change (squote =? slash)%char with false.
      cbn [negb]. eauto. }
    destruct Hc as [tl Hc].
    unfold startswith, slice. rewrite Hc.
    change (chars "b'") with ["b"%char; squote].
    cbn [starts_with]. rewrite !Ascii.eqb_refl. reflexivity.
  - intros s -> Hq. cbn [py_str].
    assert (Hc : exists tl,
               chars (remove_slashes (str_of (bytes_repr (chars s))))
               = ("b"%char :: dquote :: tl)%list).
    { rewrite chars_remove_slashes, chars_str_of. unfold bytes_repr.
      rewrite Hq. cbn [List.filter].
      change ("b" =? slash)%char with false. change (dquote =? slash)%char with false.
      cbn [negb]. eauto. }
    destruct Hc as [tl Hc].
    assert (Hb : startswith (remove_slashes (str_of (bytes_repr (chars s)))) "b'"
                 = false).
    { unfold startswith. rewrite Hc. reflexivity. }
    rewrite Hb. split; [reflexivity |].
    unfold startswith. rewrite Hc, chars_str_of. reflexivity.
  - intros s -> Hs Hb. cbn [py_str].
    assert (Hr : remove_slashes s = s).
    { rewrite <- (str_of_chars s) at 2. rewrite <- (filter_slash_free _ Hs).
      reflexivity. }
    by rewrite Hr, Hb.
Qed.

(** The sample frame holds the bytes [HH]; bytes with a single quote keep
    their wrapping. *)
Lemma stripmap_polarization_clean_witness :
  (exists md,
     extract_stripmap_metadata Demo.extern "/s/data.dat" = Ok (md, Demo.frame)
     /\ md !! "polarization" = Some (VStr "HH"))
  /\ chars (py_str Demo.extern (VBytes "H'V"))
     = ["b"%char; dquote; "H"%char; squote; "V"%char; dquote].
Proof.
  split; [| vm_compute; reflexivity].
  pose proof (eq_refl :
    (let^ r := extract_stripmap_metadata Demo.extern "/s/data.dat" in
     Ok (snd r)) = Ok Demo.frame) as Hb.
  destruct (extract_stripmap_metadata Demo.extern "/s/data.dat")
    as [[md f] |] eqn:Hrun; [| discriminate Hb].
  cbn [bind snd] in Hb. assert (f = Demo.frame) as -> by congruence.
  destruct (stripmap_polarization_clean Demo.extern "/s/data.dat" md Demo.frame Hrun)
    as (pol & Hpol & _ & Hbytes & _).
  exists md. split; [reflexivity |].
  rewrite Hpol, (Hbytes "HH" "H"%char "H"%char [] eq_refl eq_refl eq_refl eq_refl eq_refl).
  reflexivity.
Defined.

(** *** Files that are no ISCE metadata *)

(** X5: for a metadata file that is neither named [data.dat] nor ends
    with [.xml], in a directory without [IW*.xml] files,
    [extract_stripmap_metadata] raises [ValueError], and so does
    [extract_isce_metadata] when it does not skip, whether or not
    [data.dat] lies beside the file; nothing is written. *)
Theorem unrecognized_metadata_file (E : Extern) (w : World) (meta_file : string)
    (geom_dir rsc_file : option string) :
  ~ file_matching w (join (dirname meta_file) "IW*.xml") ->
  basename meta_file <> "data.dat" ->
  endswith meta_file ".xml" = false ->
  extract_stripmap_metadata E meta_file = Raise ValueError
  /\ extract_isce_metadata E meta_file geom_dir rsc_file false w
     = (Raise ValueError, w).
Proof.
  intros Hiw Hdat Hxml.
  assert (Hs : extract_stripmap_metadata E meta_file = Raise ValueError).
  { unfold extract_stripmap_metadata.
    destruct (String.eqb (basename meta_file) "data.dat") eqn:Hb;
      [by apply String.eqb_eq in Hb |].
    by rewrite Hxml. }
  split; [exact Hs |].
  unfold extract_isce_metadata. cbn [andb]. unfold extract_and_write, get_processor.
  rewrite <- glob_nonempty in Hiw.
  destruct (0 <? _)%nat; [done |].
  destruct (isfile w _); [| by rewrite Hxml].
  cbn [bind]. change (String.eqb "stripmap" "tops") with false. cbv iota.
  by rewrite Hs.
Qed.

Lemma unrecognized_metadata_file_witness :
  extract_isce_metadata Demo.extern "/s/notes.txt" (Some "/g") None false Demo.world
  = (Raise ValueError, Demo.world).
Proof.
  apply (unrecognized_metadata_file Demo.extern Demo.world "/s/notes.txt").
  - rewrite <- glob_nonempty. vm_compute. discriminate.
  - vm_compute. discriminate.
  - reflexivity.
Defined.

(** ** Geometry rasters *)

(** *** Rows without a zero *)

Lemma full_rows_cons_from (k : nat) (row : list (option Q)) (rest : raster) :
  fst <$> List.filter (fun p => forallb nonzero (snd p))
            (zip (Z.of_nat <$> seq k (S (List.length rest))) (row :: rest))
  = ((if forallb nonzero row then [Z.of_nat k] else [])
     ++ (fst <$> List.filter (fun p => forallb nonzero (snd p))
                   (zip (Z.of_nat <$> seq (S k) (List.length rest)) rest)))%list.
Proof. cbn [seq fmap list_fmap zip zip_with List.filter snd]. by destruct (forallb nonzero row). Qed.

Lemma full_rows_from_spec (k : nat) (data : raster) :
  let rows := fst <$> List.filter (fun p => forallb nonzero (snd p))
                        (zip (Z.of_nat <$> seq k (List.length data)) data) in
  StronglySorted Z.lt rows
  /\ forall i, In i rows <->
       exists j row, i = Z.of_nat (k + j) /\ data !! j = Some row
                     /\ forallb nonzero row = true.
Proof.
  revert k. induction data as [| row rest IH]; intros k.
  - split; [constructor |]. intros i. split; [intros [] |].
    intros (j & row & _ & Hj & _). by rewrite lookup_nil in Hj.
  - cbn zeta. cbn [List.length]. rewrite full_rows_cons_from.
    destruct (IH (S k)) as [Hs Hin]. cbn zeta in Hs, Hin.
    assert (Hlow : forall i,
               In i (fst <$> List.filter (fun p => forallb nonzero (snd p))
                       (zip (Z.of_nat <$> seq (S k) (List.length rest)) rest)) ->
               Z.of_nat k < i).
    { intros i Hi. apply Hin in Hi as (j & r & -> & _). lia. }
    split.
    + destruct (forallb nonzero row); [| exact Hs]. constructor; [exact Hs |].
      apply Forall_forall. intros i Hi. apply Hlow. by apply list_elem_of_In.
    + intros i. rewrite in_app_iff, Hin. split.
      * intros [Hi | (j & r & -> & Hj & Hr)].
        -- destruct (forallb nonzero row) eqn:Hrow; [| destruct Hi].
           destruct Hi as [<- | []]. exists 0%nat, row. split; [f_equal; lia | done].
        -- exists (S j), r. split; [f_equal; lia | done].
      * intros ([| j] & r & -> & Hj & Hr).
        -- left. cbn in Hj. injection Hj as <-. rewrite Hr. left. f_equal. lia.
        -- right. exists j, r. split; [f_equal; lia | done].
Qed.

Lemma full_rows_spec (data : raster) :
  StronglySorted Z.lt (full_rows data)
  /\ forall i, In i (full_rows data) <->
       exists row, 0 <= i /\ data !! Z.to_nat i = Some row
                   /\ forallb nonzero row = true.
Proof.
  destruct (full_rows_from_spec 0 data) as [Hs Hin]. split; [exact Hs |].
  intros i. unfold full_rows. rewrite Hin. split.
  - intros (j & row & -> & Hj & Hr). exists row. split; [lia |].
    by rewrite Nat.add_0_l, Nat2Z.id.
  - intros (row & Hi & Hj & Hr). exists (Z.to_nat i), row.
    split; [rewrite Nat.add_0_l; lia | done].
Qed.

Lemma sorted_first_last (l : list Z) (first last_ : Z) :
  StronglySorted Z.lt l -> l !! 0%nat = Some first -> last l = Some last_ ->
  forall i, In i l -> first <= i <= last_.
Proof.
  intros Hs. revert first last_. induction Hs as [| x l Hs IH Hall];
    intros first last_ Hf Hl i Hi; [destruct Hi |].
  cbn in Hf. injection Hf as <-.
  rewrite Forall_forall in Hall.
  destruct l as [| y l'].
  - cbn in Hl. injection Hl as <-. destruct Hi as [<- | []]. lia.
  - rewrite last_cons_cons in Hl.
    assert (Hy : y <= last_ /\ forall j, In j (y :: l') -> y <= j <= last_).
    { split; [| intros j Hj; by apply (IH y last_)].
      apply (IH y last_ eq_refl Hl y). by left. }
    destruct Hy as [Hyl Hrest].
    assert (x < y) by (apply Hall; left).
    destruct Hi as [<- | Hi]; [lia |].
    specialize (Hrest i Hi). lia.
Qed.

(** X6: [get_nonzero_row_number] answers [(buffer, -1 - buffer)] when no
    pixel is zero; otherwise it answers [(first + buffer, last - buffer)]
    where [first] and [last] are the first and the last row without a
    zero; and when every row of a raster that is not empty holds a zero it
    raises [IndexError]. *)
Theorem nonzero_row_numbers (data : raster) (buffer : Z) :
  (forallb (forallb nonzero) data = true ->
   get_nonzero_row_number data buffer = Ok (0 + buffer, -1 - buffer))
  /\ (forall r0 r1,
        forallb (forallb nonzero) data = false ->
        get_nonzero_row_number data buffer = Ok (r0, r1) ->
        exists first last_ row_first row_last,
          r0 = first + buffer /\ r1 = last_ - buffer
          /\ 0 <= first <= last_ /\ last_ < Z.of_nat (List.length data)
          /\ data !! Z.to_nat first = Some row_first
          /\ forallb nonzero row_first = true
          /\ data !! Z.to_nat last_ = Some row_last
          /\ forallb nonzero row_last = true
          /\ (forall i row, data !! i = Some row -> forallb nonzero row = true ->
                            first <= Z.of_nat i <= last_))
  /\ (data <> [] -> (forall row, In row data -> forallb nonzero row = false) ->
      get_nonzero_row_number data buffer = Raise IndexError).
Proof.
  unfold get_nonzero_row_number. destruct (full_rows_spec data) as [Hs Hin].
  split; [by intros -> |]. split.
  - intros r0 r1 -> H. unfold index, index_last in H.
    destruct (full_rows data !! 0%nat) as [first |] eqn:Hf; [| discriminate].
    cbn [bind] in H.
    destruct (last (full_rows data)) as [last_ |] eqn:Hl; [| discriminate].
    cbn [bind] in H. injection H as <- <-.
    pose proof (sorted_first_last _ _ _ Hs Hf Hl) as Hbound.
    assert (Hfi : In first (full_rows data)).
    { apply list_elem_of_In, list_elem_of_lookup. eauto. }
    assert (Hli : In last_ (full_rows data)).
    { apply last_Some in Hl as [l' Hl']. rewrite Hl'. apply in_or_app. right. by left. }
    destruct (proj1 (Hin first) Hfi) as (rf & Hf0 & Hrf & Hrf').
    destruct (proj1 (Hin last_) Hli) as (rl & Hl0 & Hrl & Hrl').
    exists first, last_, rf, rl. split; [done |]. split; [done |].
    split; [split; [done | by apply Hbound] |].
    split; [apply lookup_lt_Some in Hrl; lia |].
    do 4 (split; [done |]).
    intros i row Hi Hrow. apply Hbound, Hin. exists row.
    split; [lia |]. by rewrite Nat2Z.id.
  - intros Hne Hall.
    assert (Hnot : forallb (forallb nonzero) data = false).
    { destruct data as [| row rest]; [done |]. cbn [forallb].
      rewrite (Hall row) by (by left). reflexivity. }
    rewrite Hnot.
    destruct (full_rows data) as [| i l] eqn:Hrows; [reflexivity |].
    exfalso. destruct (proj1 (Hin i) (or_introl eq_refl)) as (row & _ & Hrow & Hfull).
    rewrite Hall in Hfull; [discriminate |].
    apply list_elem_of_In, list_elem_of_lookup. eauto.
Qed.

(** A raster whose first and last rows hold a zero: with the buffer of two
    rows the first row number passes the last. *)
Lemma nonzero_row_numbers_witness :
  let data : raster :=
    [[Some 0; Some 1]; [Some 1; Some 1]; [Some 1; Some 1]; [Some 1; Some 1];
     [Some 0; Some 1]]%Q in
  get_nonzero_row_number Demo.lat 2 = Ok (2, -3)
  /\ get_nonzero_row_number Demo.zero_az 2 = Raise IndexError
  /\ get_nonzero_row_number data 2 = Ok (3, 1)
  /\ exists first last_, 3 = first + 2 /\ 1 = last_ - 2 /\ 0 <= first <= last_.
Proof.
  intros data.
  split; [apply (proj1 (nonzero_row_numbers Demo.lat 2)); reflexivity |].
  split.
  { apply (proj2 (proj2 (nonzero_row_numbers Demo.zero_az 2))); [discriminate |].
    intros row [<- | [<- | []]]; reflexivity. }
  split; [reflexivity |].
  destruct (proj1 (proj2 (nonzero_row_numbers data 2)) 3 1 eq_refl eq_refl)
    as (first & last_ & _ & _ & H0 & H1 & Hord & _).
  exists first, last_. split; [exact H0 |]. split; [exact H1 | exact Hord].
Defined.

(** *** The heading angle without wrapping *)

Lemma np_round_small (q : Q) : (- (1 # 2) <= q <= 1 # 2)%Q -> np_round q = 0.
Proof.
  intros [Hlo Hhi]. unfold np_round.
  pose proof (Qfloor_le q) as Hfl. pose proof (Qlt_floor q) as Hfh.
  pose proof (inject_Z_succ (Qfloor q)) as Hs.
  assert (Hf : Qfloor q = -1 \/ Qfloor q = 0).
  { assert (-2 < Qfloor q) as H1.
    { rewrite Zlt_Qlt. change (inject_Z (-2)) with (-2)%Q. lra. }
    assert (Qfloor q < 1) as H2.
    { rewrite Zlt_Qlt. change (inject_Z 1) with 1%Q. lra. }
    lia. }
  destruct Hf as [Hf | Hf]; rewrite Hf in *; clear Hf;
    change (inject_Z (-1)) with (-1)%Q in *; change (inject_Z 0) with 0%Q in *.
  - destruct (Qcompare (q - -1) (1 # 2)) eqn:Hc; [reflexivity | | reflexivity].
    apply Qlt_alt in Hc. lra.
  - destruct (Qcompare (q - 0) (1 # 2)) eqn:Hc; [reflexivity | reflexivity |].
    apply Qgt_alt in Hc. lra.
Qed.

(** X7: an azimuth angle between -450 and -90 degrees is turned into the
    heading [-(270 + az_angle)] without wrapping: the reduction by
    [round(h / 360) * 360] subtracts nothing on [[-180, 180]]. *)
Theorem heading_without_wrap (az_angle : Q) :
  (-450 <= az_angle <= -90)%Q ->
  (heading_of az_angle == - (270 + az_angle))%Q.
Proof.
  intros [Hlo Hhi]. unfold heading_of.
  set (h := (-1 * (270 + az_angle))%Q).
  assert (Hh : (h == h / 360 * 360)%Q) by (field; discriminate).
  rewrite np_round_small.
  - change (inject_Z 0) with 0%Q. unfold h. ring.
  - set (t := (h / 360)%Q) in *. unfold h in Hh. split; lra.
Qed.

Lemma heading_without_wrap_witness : (heading_of (-101) == -169)%Q.
Proof.
  rewrite (heading_without_wrap (-101)); [reflexivity |]. split; discriminate.
Defined.

(** *** Pixels without data *)

Lemma nonzero_pixels_app (d1 d2 : raster) :
  nonzero_pixels (d1 ++ d2) = (nonzero_pixels d1 ++ nonzero_pixels d2)%list.
Proof. unfold nonzero_pixels. by rewrite concat_app, omap_app. Qed.

Lemma nonzero_pixels_no_data (rows : raster) :
  Forall (Forall (fun x => x = None \/ exists q, x = Some q /\ (q == 0)%Q)) rows ->
  nonzero_pixels rows = [].
Proof.
  unfold nonzero_pixels. induction 1 as [| row rest Hrow _ IH]; [done |].
  cbn [List.concat]. rewrite omap_app, IH, app_nil_r.
  induction Hrow as [| x row Hx _ IHrow]; [done |].
  cbn [omap list_omap]. rewrite IHrow.
  destruct Hx as [-> | (q & -> & Hq)]; [done |].
  apply Qeq_bool_iff in Hq. by rewrite Hq.
Qed.



(** ** What the geometry step writes *)

Lemma keeps_keys_ret {A} (a : A) : keeps_keys (ret a).
Proof. by intros st r st' [= <- <-]. Qed.

Lemma keeps_keys_lift {A} (r : result A) : keeps_keys (lift r).
Proof. by intros st r' st' [= <- <-]. Qed.

Lemma keeps_keys_get k : keeps_keys (get k).
Proof. by intros st r' st' [= <- <-]. Qed.

Lemma keeps_keys_set k v : keeps_keys (set k v).
Proof.
  intros st r st' [= <- <-] k' Hk'.
  destruct (decide (k = k')) as [-> | Hne];
    [rewrite lookup_insert_eq; eauto | by rewrite lookup_insert_ne].
Qed.

Lemma keeps_keys_set_default k : keeps_keys (set_default k).
Proof.
  intros st r st' H k' Hk'. rewrite set_default_eq in H. injection H as <- <-.
  by rewrite defaulted_keeps.
Qed.

Lemma keeps_keys_bind {A B} (m : M A) (f : A -> M B) :
  keeps_keys m -> (forall a, keeps_keys (f a)) -> keeps_keys (bindM m f).
Proof.
  intros Hm Hf st r st' H k Hk. unfold bindM in H.
  destruct (m st) as [[a | e] st1] eqn:Hst.
  - apply (Hf a _ _ _ H). by apply (Hm _ _ _ Hst).
  - injection H as <- <-. by apply (Hm _ _ _ Hst).
Qed.

Lemma keeps_keys_when b (m : M unit) : keeps_keys m -> keeps_keys (when b m).
Proof. destruct b; [done | intros _; apply keeps_keys_ret]. Qed.

Lemma keeps_keys_forM l (f : string -> M unit) :
  (forall x, keeps_keys (f x)) -> keeps_keys (forM l f).
Proof.
  intros Hf. induction l as [| x l IH]; simpl.
  - apply keeps_keys_ret.
  - apply keeps_keys_bind; [apply Hf | intros _; apply IH].
Qed.

Ltac keeps_keys_tac :=
  repeat first
    [ apply keeps_keys_ret | apply keeps_keys_lift | apply keeps_keys_get
    | apply keeps_keys_set | apply keeps_keys_set_default
    | apply keeps_keys_when
    | apply keeps_keys_bind; [| intros ?] ].

Lemma looks_loop_keeps_keys E w geom_dir fbases :
  keeps_keys (looks_loop E w geom_dir fbases).
Proof.
  induction fbases as [| fb rest IH]; simpl; [apply keeps_keys_ret |].
  destruct (_ ++ _)%list as [| f0 fs]; [exact IH |].
  destruct (isfile w _); [| exact IH]. keeps_keys_tac.
Qed.

Lemma extract_geometry_metadata_keeps_keys E w geom_dir :
  keeps_keys (extract_geometry_metadata E w geom_dir).
Proof.
  unfold extract_geometry_metadata, extract_multilook_number, imul.
  apply keeps_keys_bind; [| intros _].
  { apply keeps_keys_bind; [apply looks_loop_keeps_keys | intros _]. keeps_keys_tac. }
  apply keeps_keys_bind; [keeps_keys_tac | intros _].
  apply keeps_keys_bind; [keeps_keys_tac | intros _].
  apply keeps_keys_forM. intros f. unfold geom_step, set_corners.
  apply keeps_keys_bind; [| intros _; apply keeps_keys_bind; [| intros _]].
  - apply keeps_keys_when. apply keeps_keys_bind; [apply keeps_keys_lift | intros data].
    apply keeps_keys_bind; [apply keeps_keys_lift | intros [r0 r1]]. keeps_keys_tac.
  - apply keeps_keys_when. apply keeps_keys_bind; [apply keeps_keys_lift | intros data].
    apply keeps_keys_bind; [apply keeps_keys_lift | intros [r0 r1]]. keeps_keys_tac.
  - apply keeps_keys_when. keeps_keys_tac.
Qed.

Ltac not_written :=
  let k := fresh "k" in let Hk := fresh "Hk" in
  intros k Hk ->; apply Hk; apply list_elem_of_In; cbn; tauto.

Lemma extract_geometry_metadata_preserves E w geom_dir :
  preserves (fun k => k ∉ geometry_written) (extract_geometry_metadata E w geom_dir).
Proof.
  unfold extract_geometry_metadata, imul.
  apply preserves_bind; [| intros _].
  { rewrite extract_multilook_number_unfold. unfold ncorrlooks_step.
    apply preserves_bind; [| intros _].
    - eapply preserves_weaken; [| apply looks_loop_preserves].
      intros k Hk. split; intros ->; apply Hk; apply list_elem_of_In; cbn; tauto.
    - preserves_tac; not_written. }
  apply preserves_bind; [preserves_tac; not_written | intros _].
  apply preserves_bind; [preserves_tac; not_written | intros _].
  apply preserves_forM. intros f.
  eapply preserves_weaken; [| apply geom_step_preserves].
  intros k Hk Hg. apply Hk. unfold geometry_written.
  apply list_elem_of_In, in_or_app. right. by apply list_elem_of_In.
Qed.

(** X9: however [extract_geometry_metadata] ends, also by an exception,
    the dictionary it was given has lost no key, and every key other than
    the looks, [NCORRLOOKS], the two pixel sizes, the corner coordinates
    and [HEADING] holds the value it held. *)
Theorem geometry_metadata_frame (E : Extern) (w : World) (geom_dir : string)
    (md md' : dict) (r : result unit) :
  extract_geometry_metadata E w geom_dir md = (r, md') ->
  (forall k, is_Some (md !! k) -> is_Some (md' !! k))
  /\ (forall k, k ∉ geometry_written -> md' !! k = md !! k).
Proof.
  intros H. split.
  - by apply (extract_geometry_metadata_keeps_keys E w geom_dir _ _ _ H).
  - by apply (extract_geometry_metadata_preserves E w geom_dir _ _ _ H).
Qed.

(** The sample geometry directory, on a dictionary that holds a key of
    the caller besides the four it needs. *)
Lemma geometry_metadata_frame_witness :
  let md : dict := <["ORBIT_DIRECTION" := VStr "DESCENDING"]> Demo.single_look in
  snd (extract_geometry_metadata Demo.extern Demo.world "/g" md) !! "ORBIT_DIRECTION"
  = Some (VStr "DESCENDING").
Proof.
  intros md.
  destruct (geometry_metadata_frame Demo.extern Demo.world "/g" md _ _
              (surjective_pairing _)) as [_ H].
  rewrite H; [reflexivity |].
  intros Hin. apply list_elem_of_In in Hin. cbn in Hin.
  repeat (destruct Hin as [Hin | Hin]; [discriminate Hin |]). destruct Hin.
Defined.

(** ** Multilook numbers without full-resolution files *)

Lemma looks_loop_no_full_xml E w geom_dir fbases (md : dict) :
  (forall p, isfile w (p ++ ".full.xml") = false) ->
  looks_loop E w geom_dir fbases md = (Ok tt, md).
Proof.
  intros Hno. induction fbases as [| fb rest IH]; simpl; [done |].
  destruct (_ ++ _)%list as [| f0 fs]; [exact IH |].
  by rewrite Hno.
Qed.

(** X10: when no [.full.xml] file exists, [extract_multilook_number] takes
    the looks from the dictionary it is given: [ALOOKS] and [RLOOKS] hold
    afterwards the value the caller stored, and 1 where the caller stored
    none; this however the call ends. *)
Theorem looks_default_to_one (E : Extern) (w : World) (geom_dir : string)
    (md md' : dict) (r : result unit) :
  (forall p, isfile w (p ++ ".full.xml") = false) ->
  extract_multilook_number E w geom_dir md = (r, md') ->
  md' !! "ALOOKS" = Some (default (VInt 1) (md !! "ALOOKS"))
  /\ md' !! "RLOOKS" = Some (default (VInt 1) (md !! "RLOOKS")).
Proof.
  intros Hno H.
  rewrite (extract_multilook_number_eval E w geom_dir (Ok tt) NoLooks) in H
    by (intros st; by apply looks_loop_no_full_xml).
  cbn [write_looks] in H. rewrite ncorrlooks_step_spec in H.
  set (s3 := defaulted "RLOOKS" (defaulted "ALOOKS" md)) in H.
  assert (HA : s3 !! "ALOOKS" = Some (default (VInt 1) (md !! "ALOOKS"))).
  { unfold s3. rewrite defaulted_other by discriminate. unfold defaulted.
    destruct (md !! "ALOOKS") eqn:Ha; [done | by rewrite lookup_insert_eq]. }
  assert (HR : s3 !! "RLOOKS" = Some (default (VInt 1) (md !! "RLOOKS"))).
  { unfold s3. unfold defaulted at 1.
    rewrite (defaulted_other "ALOOKS" md "RLOOKS") by discriminate.
    destruct (md !! "RLOOKS") eqn:Hr.
    - by rewrite defaulted_other by discriminate.
    - by rewrite lookup_insert_eq. }
  destruct (ncorrlooks_of s3); injection H as <- <-;
    by rewrite ?lookup_insert_ne by discriminate.
Qed.

(** A geometry directory without files, and a caller that set [ALOOKS]. *)
Lemma looks_default_to_one_witness :
  let w := {| files := ∅; dirs := ∅; clock := 0 |} in
  let md : dict := <["ALOOKS" := VInt 4]> Demo.single_look in
  snd (extract_multilook_number Demo.extern w "/g" md) !! "ALOOKS" = Some (VInt 4)
  /\ snd (extract_multilook_number Demo.extern w "/g" md) !! "RLOOKS" = Some (VInt 1).
Proof.
  intros w md.
  destruct (looks_default_to_one Demo.extern w "/g" md _ _
              (fun p => eq_refl) (surjective_pairing _)) as [HA HR].
  rewrite HA, HR. split; reflexivity.
Defined.

(** ** Interferogram metadata *)

(** X11: [add_ifgram_metadata] raises [IndexError] on fewer than two
    dates; without baselines ([None] or an empty dictionary) it adds
    [DATE12] and nothing else; with baselines it raises [KeyError] for the
    second date when that has no baseline, for the first date when only
    that one has none, and otherwise adds the differences of the two
    entries, second minus first, as strings. *)
Theorem add_ifgram_metadata_cases (E : Extern) (metadata_in : dict)
    (dates : list string) (baseline_dict : option baselines) :
  ((List.length dates < 2)%nat ->
   add_ifgram_metadata E metadata_in dates baseline_dict = Raise IndexError)
  /\ (forall d0 d1 rest,
        dates = d0 :: d1 :: rest ->
        let date12 := VStr (slice_from 2 d0 ++ "-" ++ slice_from 2 d1) in
        (truthy_dict baseline_dict = None ->
         add_ifgram_metadata E metadata_in dates baseline_dict
         = Ok (<["DATE12" := date12]> metadata_in))
        /\ (forall bd,
              truthy_dict baseline_dict = Some bd ->
              (bd !! d1 = None ->
               add_ifgram_metadata E metadata_in dates baseline_dict
               = Raise (KeyError d1))
              /\ (is_Some (bd !! d1) -> bd !! d0 = None ->
                  add_ifgram_metadata E metadata_in dates baseline_dict
                  = Raise (KeyError d0))
              /\ (forall b0 b1 top bottom,
                    bd !! d0 = Some b0 -> bd !! d1 = Some b1 ->
                    py_sub (fst b1) (fst b0) = Ok top ->
                    py_sub (snd b1) (snd b0) = Ok bottom ->
                    add_ifgram_metadata E metadata_in dates baseline_dict
                    = Ok (<["P_BASELINE_BOTTOM_HDR" := VStr (py_str E bottom)]>
                            (<["P_BASELINE_TOP_HDR" := VStr (py_str E top)]>
                               (<["DATE12" := date12]> metadata_in)))))).
Proof.
  unfold add_ifgram_metadata, index, getitem. split.
  - intros Hlen. destruct dates as [| d0 [| d1 rest]]; [done | done |].
    simpl in Hlen. lia.
  - intros d0 d1 rest Hd. subst dates. cbn zeta. cbn [lookup list_lookup bind]. split.
    + intros Hn. by rewrite Hn.
    + intros bd Hbd. rewrite Hbd. split; [| split].
      * intros H1. by rewrite H1.
      * intros [b1 H1] H0. by rewrite H1, H0.
      * intros b0 b1 top bottom H0 H1 Ht Hb. rewrite H0, H1. cbn [bind].
        by rewrite Ht, Hb.
Qed.

Lemma add_ifgram_metadata_cases_witness :
  let bd : baselines :=
    {[ "20141213" := (VInt 0, VInt 0); "20141225" := (VFloat 107, VFloat 107) ]} in
  add_ifgram_metadata Demo.extern ∅ ["20141213"] (Some bd) = Raise IndexError
  /\ add_ifgram_metadata Demo.extern ∅ ["20141213"; "20150106"] (Some bd)
     = Raise (KeyError "20150106")
  /\ add_ifgram_metadata Demo.extern ∅ ["20150106"; "20141225"] (Some bd)
     = Raise (KeyError "20150106")
  /\ add_ifgram_metadata Demo.extern ∅ ["20141213"; "20141225"] (Some ∅)
     = Ok {[ "DATE12" := VStr "141213-141225" ]}.
Proof.
  intros bd.
  pose proof (fun dates => add_ifgram_metadata_cases Demo.extern ∅ dates (Some bd)) as H.
  split; [apply (H ["20141213"]); simpl; lia |].
  split.
  { destruct (H ["20141213"; "20150106"]) as [_ H2].
    destruct (H2 _ _ _ eq_refl) as [_ H3].
    apply (H3 bd); reflexivity. }
  split.
  { destruct (H ["20150106"; "20141225"]) as [_ H2].
    destruct (H2 _ _ _ eq_refl) as [_ H3].
    apply (H3 bd); [reflexivity | by eexists | reflexivity]. }
  destruct (add_ifgram_metadata_cases Demo.extern ∅ ["20141213"; "20141225"] (Some ∅))
    as [_ H2].
  destruct (H2 _ _ _ eq_refl) as [H3 _]. rewrite H3; reflexivity.
Defined.

(** ** Every selected baseline file has an entry *)

Lemma read_baselines_keys read l (bDict bDict' : baselines) dates dates' :
  read_baselines read l bDict dates = Ok (bDict', dates') ->
  (forall k, is_Some (bDict !! k) -> is_Some (bDict' !! k))
  /\ (forall f, In f l ->
        exists k, file_dates f !! 1%nat = Some k /\ is_Some (bDict' !! k)).
Proof.
  revert bDict dates. induction l as [| f l IH]; intros bDict dates; cbn [read_baselines].
  - intros [= <- <-]. split; [done | intros f []].
  - intros H. destruct (read f) as [v |] eqn:Hread; [| discriminate]. cbn [bind] in H.
    unfold index in H.
    destruct (file_dates f !! 1%nat) as [d1 |] eqn:Hd1; [| discriminate].
    cbn [bind] in H. apply IH in H as [Hkeep Hall]. split.
    + intros k Hk. apply Hkeep.
      destruct (decide (d1 = k)) as [-> | Hne];
        [rewrite lookup_insert_eq; eauto | by rewrite lookup_insert_ne].
    + intros g [<- | Hg]; [| by apply Hall].
      exists d1. split; [done |]. apply Hkeep. rewrite lookup_insert_eq. eauto.
Qed.

(** X12: a dictionary [read_baseline_timeseries] returns has an entry for
    the second date of every baseline file whose first date is the most
    common one: no such file is left out. *)
Theorem baseline_entries_complete (E : Extern) (w : World)
    (baseline_dir processor : string) (bDict : baselines) :
  read_baseline_timeseries E w baseline_dir processor = Ok (Some bDict) ->
  exists bFiles date1,
    baseline_files w baseline_dir processor = Ok bFiles
    /\ most_common (first_date <$> bFiles) = Ok date1
    /\ forall f, In f bFiles -> first_date f = date1 ->
         exists k, file_dates f !! 1%nat = Some k /\ is_Some (bDict !! k).
Proof.
  unfold read_baseline_timeseries. intros H.
  destruct (baseline_files w baseline_dir processor) as [bFiles |]; [| discriminate].
  cbn [bind] in H. destruct (List.length bFiles =? 0)%nat; [discriminate |].
  destruct (most_common (first_date <$> bFiles)) as [date1 |] eqn:Hmc; [| discriminate].
  cbn [bind] in H.
  destruct (read_baselines _ _ ∅ None) as [[bD dates] |] eqn:Hloop; [| discriminate].
  cbn [bind fst snd] in H. destruct dates as [dates |]; [| discriminate].
  unfold index in H. destruct (dates !! 0%nat) as [d0 |]; [| discriminate].
  cbn [bind] in H. injection H as <-.
  apply read_baselines_keys in Hloop as [_ Hall].
  exists bFiles, date1. split; [done |]. split; [done |].
  intros f Hf Hd. destruct (Hall f) as (k & Hk & Hsome).
  { apply filter_In. split; [done |]. by apply String.eqb_eq. }
  exists k. split; [done |].
  destruct (decide (d0 = k)) as [-> | Hne];
    [rewrite lookup_insert_eq; eauto | by rewrite lookup_insert_ne].
Qed.

Lemma baseline_entries_complete_witness :
  exists bDict,
    read_baseline_timeseries Demo.extern Demo.world "/b" "tops" = Ok (Some bDict)
    /\ is_Some (bDict !! "20141225").
Proof.
  assert (Hc : match read_baseline_timeseries Demo.extern Demo.world "/b" "tops" with
               | Ok (Some _) => true
               | _ => false
               end = true) by (vm_compute; reflexivity).
  destruct (read_baseline_timeseries Demo.extern Demo.world "/b" "tops")
    as [[d |] |] eqn:Hrun; try discriminate Hc.
  destruct (baseline_entries_complete Demo.extern Demo.world "/b" "tops" d Hrun)
    as (bFiles & date1 & Hbf & Hmc & Hall).
  clear Hrun. vm_compute in Hbf. injection Hbf as <-.
  vm_compute in Hmc. injection Hmc as <-.
  destruct (Hall "/b/20141213_20141225/20141213_20141225.txt") as (k & Hk & Hsome);
    [by left | reflexivity |].
  vm_compute in Hk. injection Hk as <-. exists d. split; [reflexivity | exact Hsome].
Defined.

(** ** Sidecar files of geometry and interferogram files *)

Section Sidecars.

Variable E : Extern.
Variable build : string -> result dict.
Variable update_mode : bool.

Lemma write_roipac_rsc_after (md : dict) (p : string) (w : World) :
  exists w', write_roipac_rsc E md p update_mode w = (Ok tt, w')
    /\ (exists file, files w' !! p = Some file /\ rsc file = py_str E <$> md)
    /\ (forall q, q <> p -> files w' !! q = files w !! q).
Proof.
  unfold write_roipac_rsc.
  destruct (update_mode && bool_decide _) eqn:Hc.
  - exists w. split; [done |]. split; [| done].
    apply andb_true_iff in Hc as [_ Hc]. apply bool_decide_eq_true in Hc.
    destruct (files w !! p) as [file |]; [| discriminate].
    exists file. split; [done |]. by injection Hc.
  - eexists. split; [reflexivity |]. simpl. split.
    + eexists. by rewrite lookup_insert_eq.
    + intros q Hq. by apply lookup_insert_ne.
Qed.

Lemma sidecar_step_Ok f w :
  is_raise (build f) = false ->
  exists w', sidecar_step E build update_mode f w = (Ok tt, w')
    /\ sidecar_holds E build w' f
    /\ (forall g, sidecar_holds E build w g -> sidecar_holds E build w' g)
    /\ (forall q, q <> (f ++ ".rsc")%string -> files w' !! q = files w !! q).
Proof.
  intros Hok. unfold sidecar_step, bindM, lift.
  destruct (build f) as [md |] eqn:Hmd; [| discriminate].
  destruct (write_roipac_rsc_after md (f ++ ".rsc") w) as (w' & -> & (file & Hf & Hr) & Ho).
  exists w'. split; [done |].
  assert (Hsf : sidecar_holds E build w' f) by (exists md, file; done).
  split; [done |]. split; [| done].
  intros g Hg. destruct (decide (g = f)) as [-> | Hne]; [done |].
  destruct Hg as (mdg & fileg & Hg1 & Hg2 & Hg3). exists mdg, fileg.
  split; [done |]. split; [| done]. rewrite Ho; [done |].
  intros Heq. by apply append_inv_tail in Heq.
Qed.

Lemma sidecar_step_Raise f w e w' :
  sidecar_step E build update_mode f w = (Raise e, w') ->
  build f = Raise e /\ w' = w.
Proof.
  unfold sidecar_step, bindM, lift. destruct (build f) as [md |].
  - destruct (write_roipac_rsc_after md (f ++ ".rsc") w) as (w1 & -> & _). discriminate.
  - by intros [= -> ->].
Qed.

(** The loop returns exactly when the metadata of every file is built. *)
Lemma sidecar_loop l w :
  (Forall (fun f => is_raise (build f) = false) l ->
   exists w', forIO l (sidecar_step E build update_mode) w = (Ok tt, w')
     /\ (forall f, In f l -> sidecar_holds E build w' f)
     /\ (forall g, sidecar_holds E build w g -> sidecar_holds E build w' g)
     /\ (forall q, (forall f, In f l -> q <> (f ++ ".rsc")%string) ->
                   files w' !! q = files w !! q))
  /\ (forall u w', forIO l (sidecar_step E build update_mode) w = (Ok u, w') ->
                   Forall (fun f => is_raise (build f) = false) l).
Proof.
  revert w. induction l as [| x l IH]; intros w.
  - split; [| by constructor]. intros _. exists w. simpl. unfold ret.
    split; [done |]. split; [intros f [] |]. by split.
  - split.
    + intros Hall. inversion Hall as [| ? ? Hx Hl]; subst.
      destruct (sidecar_step_Ok x w Hx) as (w1 & Hstep & Hsx & Hkeep & Hother).
      destruct (proj1 (IH w1) Hl) as (w' & Hrun & Hin & Hkeep' & Hother').
      exists w'. simpl. unfold bindM. rewrite Hstep. split; [exact Hrun |].
      split; [| split].
      * intros f [<- | Hf]; [by apply Hkeep' | by apply Hin].
      * intros g Hg. by apply Hkeep', Hkeep.
      * intros q Hq. rewrite Hother' by (intros f Hf; apply Hq; by right).
        apply Hother, Hq. by left.
    + intros u w' H. simpl in H. unfold bindM in H.
      destruct (sidecar_step E build update_mode x w) as [[u1 | e] w1] eqn:Hstep;
        [| discriminate].
      constructor; [| by apply (proj2 (IH w1) u w')].
      unfold sidecar_step, bindM, lift in Hstep. by destruct (build x).
Qed.

End Sidecars.

Lemma attributes_with_lookup E (metadata : dict) f md :
  attributes_with E metadata f = Ok md ->
  exists attrs,
    read_attribute E f = Ok attrs
    /\ forall k, md !! k = match metadata !! k with
                           | Some v => Some v
                           | None => VStr <$> attrs !! k
                           end.
Proof.
  unfold attributes_with. destruct (read_attribute E f) as [attrs |]; [| discriminate].
  cbn [bind]. intros [= <-]. exists attrs. split; [done |]. intros k.
  rewrite lookup_union, lookup_fmap.
  destruct (metadata !! k), (attrs !! k); reflexivity.
Qed.

(** X13: [prepare_geometry] does nothing and returns the metadata when
    none of the six geometry files exists; it returns exactly when the
    attributes of every existing one are read, and then each existing file
    has a sidecar at its path plus [.rsc], in which every key of the
    common metadata holds the string of the common value, overriding the
    file's own attribute, and every other key holds the file's attribute;
    no other path is touched. *)
Theorem prepare_geometry_sidecars (E : Extern) (w : World) (geom_dir : string)
    (metadata : dict) (update_mode : bool) :
  let isce_files := geometry_rdr_files E w geom_dir in
  (isce_files = [] ->
   prepare_geometry E geom_dir metadata update_mode w = (Ok metadata, w))
  /\ (forall r w',
        prepare_geometry E geom_dir metadata update_mode w = (Ok r, w') ->
        r = metadata
        /\ (forall f, In f isce_files ->
              exists attrs file,
                read_attribute E f = Ok attrs
                /\ files w' !! (f ++ ".rsc") = Some file
                /\ forall k, rsc file !! k
                             = match metadata !! k with
                               | Some v => Some (py_str E v)
                               | None => attrs !! k
                               end)
        /\ (forall q, (forall f, In f isce_files -> q <> (f ++ ".rsc")%string) ->
                      files w' !! q = files w !! q))
  /\ ((forall f, In f isce_files -> is_raise (read_attribute E f) = false) ->
      exists w', prepare_geometry E geom_dir metadata update_mode w
                 = (Ok metadata, w')).
Proof.
  intros isce_files.
  assert (Hpg : prepare_geometry E geom_dir metadata update_mode w
                = (forIO isce_files
                     (sidecar_step E (attributes_with E metadata) update_mode) ;;;
                   ret metadata) w) by reflexivity.
  rewrite Hpg. clear Hpg. unfold bindM.
  destruct (sidecar_loop E (attributes_with E metadata) update_mode isce_files w)
    as [Hok Hinv].
  split; [| split].
  - intros ->. reflexivity.
  - intros r w' H.
    destruct (forIO isce_files _ w) as [[u | e] w1] eqn:Hrun; [| discriminate].
    unfold ret in H. injection H as <- <-. split; [done |].
    destruct (Hok (Hinv _ _ eq_refl)) as (w2 & Hrun2 & Hin & _ & Hother).
    assert (w2 = w1) as -> by congruence. split; [| exact Hother].
    intros f Hf. destruct (Hin f Hf) as (md & file & Hmd & Hfile & Hrsc).
    apply attributes_with_lookup in Hmd as (attrs & Hattrs & Hlook).
    exists attrs, file. split; [done |]. split; [done |].
    intros k. rewrite Hrsc, lookup_fmap, Hlook.
    destruct (metadata !! k); [done |]. by destruct (attrs !! k).
  - intros Hall.
    destruct Hok as (w' & Hrun & _).
    { apply Forall_forall. intros f Hf. apply list_elem_of_In in Hf.
      specialize (Hall f Hf). unfold attributes_with.
      by destruct (read_attribute E f). }
    exists w'. by rewrite Hrun.
Qed.

(** A geometry directory that holds [hgt.rdr] only; the common metadata
    overrides its [WIDTH]. *)
Lemma prepare_geometry_sidecars_witness :
  let w := {| files := {[ "/g/hgt.rdr" := Demo.plain 4 ]}; dirs := ∅; clock := 9 |} in
  let metadata : dict := {[ "WIDTH" := VInt 7 ]} in
  exists w' file,
    prepare_geometry Demo.extern "/g" metadata true w = (Ok metadata, w')
    /\ files w' !! "/g/hgt.rdr.rsc" = Some file
    /\ rsc file !! "WIDTH" = Some "7"
    /\ rsc file !! "LENGTH" = Some "2".
Proof.
  intros w metadata.
  pose proof (prepare_geometry_sidecars Demo.extern w "/g" metadata true) as H.
  assert (Hf : geometry_rdr_files Demo.extern w "/g" = ["/g/hgt.rdr"])
    by (vm_compute; reflexivity).
  cbv zeta in H. rewrite Hf in H. destruct H as (_ & Hinv & Hok).
  destruct Hok as [w' Hrun]; [intros f [<- | []]; reflexivity |].
  destruct (Hinv _ _ Hrun) as (_ & Hside & _).
  destruct (Hside _ (or_introl eq_refl)) as (attrs & file & Hattrs & Hfile & Hpairs).
  exists w', file. split; [exact Hrun |]. split; [exact Hfile |].
  clear Hrun. vm_compute in Hattrs. injection Hattrs as <-.
  rewrite !Hpairs. split; reflexivity.
Defined.

(** X14: when [prepare_stack] returns, the metadata of every matched file
    was built, and in each sidecar every key other than [DATE12] and the
    two baseline keys holds the string of the common metadata's value
    where the common metadata has the key, and the file's own attribute
    otherwise. *)
Theorem prepare_stack_metadata_first (E : Extern) (w w' : World)
    (inputDir filePattern : string) (metadata : dict)
    (baseline_dict : option baselines) (update_mode : bool) :
  prepare_stack E inputDir filePattern metadata baseline_dict update_mode w
  = (Ok tt, w') ->
  forall f, In f (stack_files E w inputDir filePattern) ->
    exists attrs file,
      read_attribute E f = Ok attrs
      /\ files w' !! (f ++ ".rsc") = Some file
      /\ forall k, k <> "DATE12" -> k <> "P_BASELINE_TOP_HDR" ->
                   k <> "P_BASELINE_BOTTOM_HDR" ->
                   rsc file !! k = match metadata !! k with
                                   | Some v => Some (py_str E v)
                                   | None => attrs !! k
                                   end.
Proof.
  unfold prepare_stack. intros H f Hf.
  destruct (List.length (stack_files E w inputDir filePattern) =? 0)%nat;
    [discriminate |].
  change (forIO (stack_files E w inputDir filePattern)
            (sidecar_step E (ifgram_metadata E metadata baseline_dict) update_mode) w
          = (Ok tt, w')) in H.
  destruct (sidecar_loop E (ifgram_metadata E metadata baseline_dict) update_mode
              (stack_files E w inputDir filePattern) w) as [Hok Hinv].
  destruct (Hok (Hinv _ _ H)) as (w2 & Hrun & Hin & _).
  assert (w2 = w') as -> by congruence.
  destruct (Hin f Hf) as (md & file & Hmd & Hfile & Hrsc).
  unfold ifgram_metadata in Hmd.
  destruct (attributes_with E metadata f) as [m |] eqn:Hm; [| discriminate].
  cbn [bind] in Hmd.
  apply attributes_with_lookup in Hm as (attrs & Hattrs & Hlook).
  exists attrs, file. split; [done |]. split; [done |].
  intros k Hd Ht Hb. rewrite Hrsc, lookup_fmap.
  assert (Hk : md !! k = m !! k).
  { unfold add_ifgram_metadata in Hmd.
    repeat match type of Hmd with
           | context [bind ?r _] => destruct r; cbn [bind] in Hmd; [| discriminate]
           end.
    destruct (truthy_dict baseline_dict).
    - repeat match type of Hmd with
             | context [bind ?r _] => destruct r; cbn [bind] in Hmd; [| discriminate]
             end.
      injection Hmd as <-. by rewrite !lookup_insert_ne by done.
    - injection Hmd as <-. by rewrite lookup_insert_ne by done. }
  rewrite Hk, Hlook. destruct (metadata !! k); [done |]. by destruct (attrs !! k).
Qed.

Lemma prepare_stack_metadata_first_witness :
  let metadata : dict := {[ "WIDTH" := VInt 7 ]} in
  exists w' file,
    prepare_stack Demo.extern "/i" "filt_*.unw" metadata None true Demo.world
    = (Ok tt, w')
    /\ files w' !! "/i/20141213_20141225/filt_fine.unw.rsc" = Some file
    /\ rsc file !! "WIDTH" = Some "7"
    /\ rsc file !! "LENGTH" = Some "2".
Proof.
  intros metadata.
  assert (Hok : fst (prepare_stack Demo.extern "/i" "filt_*.unw" metadata None true
                       Demo.world) = Ok tt) by (vm_compute; reflexivity).
  destruct (prepare_stack Demo.extern "/i" "filt_*.unw" metadata None true Demo.world)
    as [r w'] eqn:Hrun.
  cbn [fst] in Hok. subst r.
  destruct (prepare_stack_metadata_first Demo.extern Demo.world w' "/i" "filt_*.unw"
              metadata None true Hrun "/i/20141213_20141225/filt_fine.unw")
    as (attrs & file & Hattrs & Hfile & Hpairs).
  { assert (Hf : stack_files Demo.extern Demo.world "/i" "filt_*.unw"
                 = ["/i/20141213_20141225/filt_fine.unw"]) by (vm_compute; reflexivity).
    rewrite Hf. by left. }
  exists w', file. split; [reflexivity |]. split; [exact Hfile |].
  clear Hrun. vm_compute in Hattrs. injection Hattrs as <-.
  rewrite !Hpairs by discriminate. split; reflexivity.
Defined.

(** ** Extraction followed by an update *)

(** X15: after an extraction that returned, a call in update mode with the
    same arguments skips and returns the same metadata, reading it back
    from the sidecar file without touching the file system, provided the
    metadata file is not stamped later than the clock at the time of the
    first call.  [standardize_metadata] is assumed to keep string-valued
    dictionaries string-valued. *)
Theorem extract_then_update (E : Extern) (w w' : World) (meta_file : string)
    (geom_dir rsc_file : option string) (md : dict) :
  (forall m : dict, all_str m -> all_str (standardize_metadata E m)) ->
  (forall fi, files w !! meta_file = Some fi -> mtime fi <= clock w) ->
  extract_isce_metadata E meta_file geom_dir rsc_file false w = (Ok md, w') ->
  extract_isce_metadata E meta_file geom_dir rsc_file true w' = (Ok md, w').
Proof.
  intros Hstd Hclock H. unfold extract_isce_metadata in H. cbn [andb] in H.
  set (rsc_path := default_rsc_file meta_file rsc_file) in *.
  assert (Hall : all_str md).
  { apply extract_and_write_result in H as [m0 ->]. apply Hstd, all_str_fmap_str. }
  apply extract_and_write_written in H; [| apply default_rsc_file_truthy].
  unfold extract_isce_metadata. fold rsc_path.
  assert (Hrsc : files w' !! rsc_path = Some (File (clock w) (py_str E <$> md))).
  { subst w'. cbn [files]. by rewrite lookup_insert_eq. }
  assert (Hskip : run_or_skip w' rsc_path meta_file = skip).
  { unfold run_or_skip. rewrite Hrsc. cbn [mtime].
    destruct (files w' !! meta_file) as [fi |] eqn:Hfi; [| done].
    destruct (clock w <? mtime fi)%Z eqn:Hlt; [| done].
    exfalso. apply Z.ltb_lt in Hlt.
    destruct (decide (meta_file = rsc_path)) as [Heq | Hne].
    - rewrite Heq, Hrsc in Hfi. injection Hfi as <-. cbn [mtime] in Hlt. lia.
    - subst w'. cbn [files] in Hfi. rewrite lookup_insert_ne in Hfi by done.
      specialize (Hclock fi Hfi). lia. }
  rewrite Hskip. cbn [andb]. unfold read_roipac_rsc. rewrite Hrsc. cbn [rsc].
  by rewrite fmap_str_all_str.
Qed.

Lemma extract_then_update_witness :
  exists md w',
    extract_isce_metadata Demo.extern "/m/IW1.xml" (Some "/g") None false Demo.world
    = (Ok md, w')
    /\ extract_isce_metadata Demo.extern "/m/IW1.xml" (Some "/g") None true w'
       = (Ok md, w').
Proof.
  assert (Hok : is_raise (fst (extract_isce_metadata Demo.extern "/m/IW1.xml"
                                 (Some "/g") None false Demo.world)) = false)
    by (vm_compute; reflexivity).
  destruct (extract_isce_metadata Demo.extern "/m/IW1.xml" (Some "/g") None false
              Demo.world) as [[md | e] w'] eqn:Hrun; [| discriminate Hok].
  exists md, w'. split; [reflexivity |].
  apply (extract_then_update Demo.extern Demo.world w' "/m/IW1.xml" (Some "/g") None md
           demo_standardize_str); [| exact Hrun].
  intros fi Hfi. vm_compute in Hfi. injection Hfi as <-. vm_compute. discriminate.
Defined.

(** ** The processor recorded *)

(** X16: the metadata an extraction returns and writes always says
    [PROCESSOR = isce] and [ANTENNA_SIDE = -1], whatever the product or
    the geometry step stored under these keys.  [standardize_metadata] is
    assumed to keep the entries of the dictionary it is given. *)
Theorem processor_recorded (E : Extern) (w w' : World) (meta_file : string)
    (geom_dir rsc_file : option string) (md : dict) :
  (forall (m : dict) k v, m !! k = Some v -> standardize_metadata E m !! k = Some v) ->
  extract_isce_metadata E meta_file geom_dir rsc_file false w = (Ok md, w') ->
  md !! "PROCESSOR" = Some (VStr "isce")
  /\ md !! "ANTENNA_SIDE" = Some (VStr "-1")
  /\ exists file,
       files w' !! default_rsc_file meta_file rsc_file = Some file
       /\ rsc file !! "PROCESSOR" = Some "isce"
       /\ rsc file !! "ANTENNA_SIDE" = Some "-1".
Proof.
  intros Hstd H. unfold extract_isce_metadata in H. cbn [andb] in H.
  assert (Hmd : md !! "PROCESSOR" = Some (VStr "isce")
                /\ md !! "ANTENNA_SIDE" = Some (VStr "-1")).
  { pose proof H as H'. unfold extract_and_write in H'.
    match type of H' with context [match ?res with Ok _ => _ | Raise _ => _ end] =>
      destruct res as [m | e] eqn:Hres end; [| discriminate].
    assert (md = m) as ->.
    { rewrite default_rsc_file_truthy in H'.
      unfold bindM, write_roipac_rsc, ret in H'. cbn [andb] in H'. congruence. }
    clear H'. repeat case_bind; try discriminate; inversion Hres; subst m;
      split; apply Hstd; rewrite lookup_fmap;
      rewrite ?lookup_insert_ne by discriminate; by rewrite lookup_insert_eq. }
  destruct Hmd as [HP HA]. split; [exact HP |]. split; [exact HA |].
  apply extract_and_write_written in H; [| apply default_rsc_file_truthy].
  subst w'. cbn [files]. rewrite lookup_insert_eq. eexists. split; [reflexivity |].
  cbn [rsc]. by rewrite !lookup_fmap, HP, HA.
Qed.

Lemma processor_recorded_witness :
  exists md w',
    extract_isce_metadata Demo2.extern "/s/data.dat" None None false Demo.world
    = (Ok md, w')
    /\ md !! "PROCESSOR" = Some (VStr "isce")
    /\ md !! "ANTENNA_SIDE" = Some (VStr "-1").
Proof.
  assert (Hok : is_raise (fst (extract_isce_metadata Demo2.extern "/s/data.dat"
                                 None None false Demo.world)) = false)
    by (vm_compute; reflexivity).
  destruct (extract_isce_metadata Demo2.extern "/s/data.dat" None None false
              Demo.world) as [[md | e] w'] eqn:Hrun; [| discriminate Hok].
  exists md, w'. split; [reflexivity |].
  destruct (processor_recorded Demo2.extern Demo.world w' "/s/data.dat" None None md
              (fun m k v H => H) Hrun) as (HP & HA & _).
  split; assumption.
Defined.

(** ** The number of looks from two image sizes *)

Lemma Qtrunc_make (n : Z) (d : positive) : Qtrunc (n # d) = Z.quot n (Z.pos d).
Proof.
  unfold Qtrunc, Qle_bool, Qceiling, Qfloor. cbn [Qnum Qden Qopp].
  rewrite Z.mul_1_r. change (0 * Z.pos d)%Z with 0%Z.
  destruct (0 <=? n)%Z eqn:Hn.
  - apply Z.leb_le in Hn. by rewrite Z.quot_div_nonneg by lia.
  - apply Z.leb_gt in Hn.
    rewrite <- (Z.opp_involutive n) at 2. rewrite Z.quot_opp_l by lia.
    by rewrite Z.quot_div_nonneg by lia.
Qed.

Lemma round_half_even_lower n d : 0 < d -> n / d <= round_half_even n d.
Proof.
  intros Hd. unfold round_half_even.
  destruct (2 * (n mod d) ?= d)%Z; [destruct (Z.even (n / d)) | |]; lia.
Qed.

Lemma round_half_even_upper n d K :
  0 < d -> 2 * n < (2 * K + 1) * d -> round_half_even n d <= K.
Proof.
  intros Hd H. unfold round_half_even.
  pose proof (Z.div_mod n d ltac:(lia)) as Hdm.
  pose proof (Z.mod_pos_bound n d Hd) as Hr.
  set (q := n / d) in *. set (r := n mod d) in *.
  destruct (2 * r ?= d)%Z eqn:Hc.
  - apply Z.compare_eq in Hc. assert (q <= K - 1 \/ K <= q) as [? | ?] by lia.
    + destruct (Z.even q); lia.
    + nia.
  - assert (q <= K \/ K + 1 <= q) as [? | ?] by lia; [lia | nia].
  - apply Z.compare_gt_iff in Hc.
    assert (q <= K - 1 \/ K <= q) as [? | ?] by lia; [lia | nia].
Qed.

Lemma ilog2_ratio_bounds a b :
  0 < a -> 0 < b ->
  let fl := ilog2_ratio a b in
  fl <= Z.log2 a - Z.log2 b
  /\ Z.log2 a - Z.log2 b - 1 <= fl
  /\ b * 2 ^ Z.max fl 0 <= a * 2 ^ Z.max (- fl) 0
  /\ (fl = Z.log2 a - Z.log2 b - 1 ->
      a * 2 ^ Z.max (- (fl + 1)) 0 < b * 2 ^ Z.max (fl + 1) 0).
Proof.
  intros Ha Hb. unfold ilog2_ratio.
  pose proof (Z.log2_spec a Ha) as [Hla1 Hla2].
  pose proof (Z.log2_spec b Hb) as [Hlb1 Hlb2].
  pose proof (Z.log2_nonneg a) as Hla0. pose proof (Z.log2_nonneg b) as Hlb0.
  set (la := Z.log2 a) in *. set (lb := Z.log2 b) in *.
  destruct (_ <=? _)%Z eqn:Ht.
  - apply Z.leb_le in Ht. cbn zeta. split; [lia |]. split; [lia |].
    split; [exact Ht | lia].
  - apply Z.leb_gt in Ht. cbn zeta. split; [lia |]. split; [lia |].
    split; [| intros _; by replace (la - lb - 1 + 1) with (la - lb) by lia].
    destruct (Z.le_gt_cases 1 (la - lb)) as [Hk | Hk].
    + rewrite (Z.max_l (la - lb - 1) 0), (Z.max_r (- (la - lb - 1)) 0) by lia.
      rewrite Z.pow_0_r, Z.mul_1_r.
      assert (Hp : 2 ^ Z.succ lb * 2 ^ (la - lb - 1) = 2 ^ la).
      { rewrite <- Z.pow_add_r by lia. f_equal. lia. }
      assert (0 < 2 ^ (la - lb - 1)) by (apply Z.pow_pos_nonneg; lia).
      nia.
    + rewrite (Z.max_r (la - lb - 1) 0), (Z.max_l (- (la - lb - 1)) 0) by lia.
      rewrite Z.pow_0_r, Z.mul_1_r.
      assert (Hp : 2 ^ la * 2 ^ (- (la - lb - 1)) = 2 ^ Z.succ lb).
      { rewrite <- Z.pow_add_r by lia. f_equal. lia. }
      assert (0 < 2 ^ (- (la - lb - 1))) by (apply Z.pow_pos_nonneg; lia).
      nia.
Qed.

(** Below [2^53] the rounding to a float never reaches the next integer:
    the integer part of the float is the integer quotient. *)
Lemma float_ratio_trunc a b :
  0 < a < 2 ^ 53 -> 0 < b ->
  snd (float_ratio a b) <= 0
  /\ fst (float_ratio a b) / 2 ^ (- snd (float_ratio a b)) = a / b.
Proof.
  intros [Ha Ha53] Hb. unfold float_ratio. cbn [fst snd].
  destruct (ilog2_ratio_bounds a b Ha Hb) as (Hfk & Hkf & Hfl & Hlt).
  set (fl := ilog2_ratio a b) in *.
  pose proof (Z.log2_nonneg a) as Hla0. pose proof (Z.log2_nonneg b) as Hlb0.
  assert (Hla : Z.log2 a < 53) by (by apply Z.log2_lt_pow2).
  set (e := Z.max (fl - 52) (-1074)).
  assert (He : e <= 0) by lia.
  split; [exact He |].
  rewrite (Z.max_l (- e) 0), (Z.max_r e 0), Z.pow_0_r, Z.mul_1_r by lia.
  set (S := 2 ^ (- e)).
  assert (HS : 0 < S) by (apply Z.pow_pos_nonneg; lia).
  set (m := round_half_even (a * S) b).
  pose proof (round_half_even_lower (a * S) b Hb) as Hlow. fold m in Hlow.
  pose proof (Z.div_mod a b ltac:(lia)) as Hdm.
  pose proof (Z.mod_pos_bound a b Hb) as Hr.
  set (n := a / b) in *. set (r := a mod b) in *.
  assert (Hn : 0 <= n) by (apply Z.div_pos; lia).
  assert (HnS : n * S <= m).
  { etransitivity; [| exact Hlow]. apply Z.div_le_lower_bound; [lia | nia]. }
  assert (Hup : b < 2 * S \/ (n = 0 /\ 2 * a <= b /\ 2 <= S) ->
                m <= (n + 1) * S - 1).
  { intros Hc. apply round_half_even_upper; [lia |]. destruct Hc as [Hc | (-> & Hc & HS2)]; nia. }
  assert (Hm : m <= (n + 1) * S - 1).
  { apply Hup. destruct (Z.le_gt_cases (2 * a) b) as [Hc | Hc].
    - right. assert (n = 0) as -> by (apply Z.div_small; lia).
      split; [done |]. split; [done |].
      assert (Hk : Z.log2 a + 1 <= Z.log2 b).
      { pose proof (Z.log2_double a ltac:(lia)).
        pose proof (Z.log2_le_mono (2 * a) b ltac:(lia)). lia. }
      assert (- e >= 1) by lia.
      unfold S. change 2 with (2 ^ 1) at 1. apply Z.pow_le_mono_r; lia.
    - left.
      assert (Hk : Z.log2 b <= Z.log2 a + 1).
      { pose proof (Z.log2_double a ltac:(lia)).
        pose proof (Z.log2_le_mono b (2 * a) ltac:(lia)). lia. }
      assert (Hfl1 : -1 <= fl).
      { destruct (Z.eq_dec fl (-2)) as [Heq | Hne]; [| lia].
        exfalso. specialize (Hlt ltac:(lia)). rewrite Heq in Hlt.
        change (2 ^ Z.max (- (-2 + 1)) 0) with 2 in Hlt.
        change (2 ^ Z.max (-2 + 1) 0) with 1 in Hlt. lia. }
      assert (e = fl - 52) as Hee by lia.
      unfold S. rewrite Hee.
      destruct (Z.le_gt_cases 0 fl) as [Hf0 | Hf0].
      + rewrite (Z.max_l fl 0), (Z.max_r (- fl) 0), Z.pow_0_r, Z.mul_1_r in Hfl by lia.
        assert (Hp : 2 ^ fl * (2 * 2 ^ (- (fl - 52))) = 2 ^ 53).
        { change (2 * 2 ^ (- (fl - 52))) with (2 ^ 1 * 2 ^ (- (fl - 52))).
          rewrite <- !Z.pow_add_r by lia. f_equal. lia. }
        assert (0 < 2 ^ fl) by (apply Z.pow_pos_nonneg; lia).
        nia.
      + assert (fl = -1) as -> by lia. change (2 ^ (- (-1 - 52))) with (2 ^ 53). lia. }
  symmetry. apply (Z.div_unique m S n (m - n * S)); lia.
Qed.

(** The quotient of two ints, the dividend below [2^53] in size, has the
    integer quotient as its integer part. *)
Lemma int_true_div_trunc (a b : Z) :
  b <> 0 -> Z.abs a < 2 ^ 53 ->
  exists q, int_true_div a b = Ok q /\ Qtrunc q = Z.quot a b.
Proof.
  intros Hb Ha. unfold int_true_div.
  destruct (b =? 0)%Z eqn:Hb0; [by apply Z.eqb_eq in Hb0 |].
  destruct (a =? 0)%Z eqn:Ha0.
  - apply Z.eqb_eq in Ha0 as ->. exists 0%Q. split; [done |]. by rewrite Z.quot_0_l.
  - apply Z.eqb_neq in Ha0.
    destruct (float_ratio_trunc (Z.abs a) (Z.abs b)) as [He Hm]; [lia | lia |].
    destruct (float_ratio (Z.abs a) (Z.abs b)) as [m e]. cbn [fst snd] in He, Hm.
    assert (Hquot : Z.quot a b = Z.sgn a * Z.sgn b * (Z.abs a / Z.abs b))
      by (by apply Z.quot_div).
    assert (Hn : 0 <= Z.abs a / Z.abs b < 2 ^ 53).
    { split; [apply Z.div_pos; lia |].
      apply Z.div_lt_upper_bound; [lia |].
      assert (0 < 2 ^ 53) by (by apply Z.pow_pos_nonneg). nia. }
    destruct (0 <=? e)%Z eqn:He0.
    + apply Z.leb_le in He0. assert (e = 0) as -> by lia.
      change (2 ^ (- 0)) with 1 in Hm. rewrite Z.div_1_r in Hm.
      change (2 ^ 0) with 1. rewrite Z.mul_1_r.
      destruct (2 ^ 1024 <=? m)%Z eqn:Hov.
      * apply Z.leb_le in Hov. exfalso.
        assert (2 ^ 53 <= 2 ^ 1024) by (apply Z.pow_le_mono_r; lia). lia.
      * eexists. split; [reflexivity |].
        unfold inject_Z. rewrite Qtrunc_make, Z.quot_1_r. rewrite Hquot, Hm. reflexivity.
    + apply Z.leb_gt in He0. eexists. split; [reflexivity |].
      assert (HS : 0 < 2 ^ (- e)) by (apply Z.pow_pos_nonneg; lia).
      rewrite Qtrunc_make, Z2Pos.id by exact HS.
      rewrite Hquot, <- Hm.
      assert (H0m : 0 <= m).
      { destruct (Z.le_gt_cases 0 m) as [? | Hneg]; [done |].
        exfalso. assert (m / 2 ^ (- e) < 0) by (apply Z.div_lt_upper_bound; lia). lia. }
      destruct (Z.sgn_spec a) as [[? ->] | [[? ->] | [? ->]]]; [| lia |];
        destruct (Z.sgn_spec b) as [[? ->] | [[? ->] | [? ->]]]; try lia.
      * change (1 * 1) with 1. rewrite !Z.mul_1_l. by apply Z.quot_div_nonneg.
      * change (1 * -1) with (-1). replace (-1 * m) with (- m) by lia.
        rewrite Z.quot_opp_l by lia. rewrite Z.quot_div_nonneg by lia. lia.
      * change (-1 * 1) with (-1). replace (-1 * m) with (- m) by lia.
        rewrite Z.quot_opp_l by lia. rewrite Z.quot_div_nonneg by lia. lia.
      * change (-1 * -1) with 1. rewrite !Z.mul_1_l. by apply Z.quot_div_nonneg.
Qed.

(** X17: the number of looks [extract_multilook_number] computes from the
    full-resolution and the multilooked size, [int(int(a) / int(b))], is
    the quotient of the two integers truncated toward zero as long as the
    full size is below [2^53], where the float in between is exact enough;
    a multilooked size of zero raises [ZeroDivisionError], and a size
    missing from either dictionary raises [KeyError], the full-resolution
    one first. *)
Theorem looks_ratio_cases (E : Extern) (full xml : gmap string string)
    (key : string) :
  (full !! key = None -> looks_ratio E full xml key = Raise (KeyError key))
  /\ (forall sa a,
        full !! key = Some sa -> int_of_str E sa = Ok a ->
        (xml !! key = None -> looks_ratio E full xml key = Raise (KeyError key))
        /\ (forall sb b,
              xml !! key = Some sb -> int_of_str E sb = Ok b ->
              (b = 0 -> looks_ratio E full xml key = Raise ZeroDivisionError)
              /\ (b <> 0 -> Z.abs a < 2 ^ 53 ->
                  looks_ratio E full xml key = Ok (Z.quot a b)))).
Proof.
  unfold looks_ratio, getitem. split.
  - intros Hf. by rewrite Hf.
  - intros sa a Hf Ha. rewrite Hf. cbn [bind]. rewrite Ha. cbn [bind]. split.
    + intros Hx. by rewrite Hx.
    + intros sb b Hx Hb. rewrite Hx. cbn [bind]. rewrite Hb. cbn [bind]. split.
      * intros ->. reflexivity.
      * intros Hb0 Ha53.
        destruct (int_true_div_trunc a b Hb0 Ha53) as (q & -> & Hq).
        cbn [bind]. by rewrite Hq.
Qed.

(** Five rows over two, a width of zero, a missing key; and beyond [2^53]
    the float in between loses the last bit. *)
Lemma looks_ratio_cases_witness :
  let full : gmap string string := {[ "LENGTH" := "5"; "WIDTH" := "6" ]} in
  let xml : gmap string string := {[ "LENGTH" := "2"; "WIDTH" := "0" ]} in
  looks_ratio Demo.extern full xml "LENGTH" = Ok 2
  /\ looks_ratio Demo.extern full xml "WIDTH" = Raise ZeroDivisionError
  /\ looks_ratio Demo.extern full xml "HEIGHT" = Raise (KeyError "HEIGHT")
  /\ looks_ratio Demo.extern {[ "LENGTH" := "9007199254740993" ]}
       {[ "LENGTH" := "1" ]} "LENGTH" = Ok 9007199254740992.
Proof.
  intros full xml.
  pose proof (fun key => looks_ratio_cases Demo.extern full xml key) as H.
  split; [| split; [| split]].
  - destruct (H "LENGTH") as [_ H1].
    destruct (H1 "5" 5 eq_refl eq_refl) as [_ H2].
    destruct (H2 "2" 2 eq_refl eq_refl) as [_ H3].
    rewrite H3; [reflexivity | discriminate | reflexivity].
  - destruct (H "WIDTH") as [_ H1].
    destruct (H1 "6" 6 eq_refl eq_refl) as [_ H2].
    destruct (H2 "0" 0 eq_refl eq_refl) as [H3 _].
    by rewrite H3.
  - apply (H "HEIGHT"). reflexivity.
  - vm_compute. reflexivity.
Defined.

(** ** Corner coordinates of a raster without zeros *)

Lemma np_index_nonneg {A} (l : list A) (i : nat) :
  np_index l (Z.of_nat i) = index l i.
Proof.
  unfold np_index, index.
  destruct (l !! i) as [x |] eqn:Hi.
  - apply lookup_lt_Some in Hi as Hlt.
    replace ((0 <=? Z.of_nat i) && (Z.of_nat i <? Z.of_nat (List.length l)))%Z
      with true by (symmetry; apply andb_true_iff; split; lia).
    by rewrite Nat2Z.id, Hi.
  - apply lookup_ge_None in Hi as Hge.
    replace ((0 <=? Z.of_nat i) && (Z.of_nat i <? Z.of_nat (List.length l)))%Z
      with false by (symmetry; apply andb_false_iff; right; lia).
    replace (Z.of_nat i <? 0)%Z with false by (symmetry; lia). reflexivity.
Qed.

Lemma np_index_from_end {A} (l : list A) (k : nat) :
  (0 < k)%nat ->
  np_index l (- Z.of_nat k)
  = if (k <=? List.length l)%nat then index l (List.length l - k) else Raise IndexError.
Proof.
  intros Hk. unfold np_index.
  replace ((0 <=? - Z.of_nat k) && (- Z.of_nat k <? Z.of_nat (List.length l)))%Z
    with false by (symmetry; apply andb_false_iff; left; lia).
  replace (- Z.of_nat k <? 0)%Z with true by (symmetry; lia). cbn [andb].
  destruct (k <=? List.length l)%nat eqn:Hle.
  - apply Nat.leb_le in Hle.
    replace (0 <=? Z.of_nat (List.length l) + - Z.of_nat k)%Z with true
      by (symmetry; lia).
    f_equal. lia.
  - apply Nat.leb_gt in Hle.
    replace (0 <=? Z.of_nat (List.length l) + - Z.of_nat k)%Z with false
      by (symmetry; lia).
    reflexivity.
Qed.

(** X18: on a raster without zeros the corner coordinates are read two
    rows inside: [REF1] and [REF2] from the first and last pixel of the
    third row, [REF3] and [REF4] from those of the third row from the end;
    a raster of fewer than three rows raises [IndexError]. *)
Theorem corners_two_rows_inside (E : Extern) (pre geom_file : string)
    (data : raster) (md : dict) :
  read_raster E geom_file None = Ok data ->
  forallb (forallb nonzero) data = true ->
  ((List.length data < 3)%nat ->
   fst (set_corners E pre geom_file md) = Raise IndexError)
  /\ (forall row_a row_b a0 a1 b0 b1,
        data !! 2%nat = Some row_a ->
        data !! (List.length data - 3)%nat = Some row_b ->
        row_a !! 0%nat = Some a0 -> last row_a = Some a1 ->
        row_b !! 0%nat = Some b0 -> last row_b = Some b1 ->
        set_corners E pre geom_file md
        = (Ok tt,
           <[pre ++ "_REF4" := str_pixel E b1]>
             (<[pre ++ "_REF3" := str_pixel E b0]>
                (<[pre ++ "_REF2" := str_pixel E a1]>
                   (<[pre ++ "_REF1" := str_pixel E a0]> md))))).
Proof.
  intros Hread Hall.
  assert (Hrows : get_nonzero_row_number data 2 = Ok (2, -3)).
  { unfold get_nonzero_row_number. by rewrite Hall. }
  assert (Hlast : forall (row : list (option Q)),
             np_index row (-1) = match last row with
                                 | Some x => Ok x
                                 | None => Raise IndexError
                                 end).
  { intros row. change (-1)%Z with (- Z.of_nat 1)%Z.
    rewrite (np_index_from_end row 1) by lia.
    destruct row as [| x row] using rev_ind; [reflexivity |].
    rewrite length_app, last_snoc. cbn [List.length].
    replace (1 <=? List.length row + 1)%nat with true by (symmetry; apply Nat.leb_le; lia).
    unfold index. replace (List.length row + 1 - 1)%nat with (List.length row) by lia.
    by rewrite list_lookup_middle. }
  unfold set_corners, bindM, lift, set, np_index2. rewrite Hread, Hrows.
  change 2%Z with (Z.of_nat 2). change (-3)%Z with (- Z.of_nat 3)%Z.
  change 0%Z with (Z.of_nat 0).
  rewrite (np_index_nonneg data 2), (np_index_from_end data 3) by lia.
  split.
  - intros Hlen. unfold index.
    rewrite (proj2 (lookup_ge_None data 2)) by lia. reflexivity.
  - intros row_a row_b a0 a1 b0 b1 Ha Hb Ha0 Ha1 Hb0 Hb1.
    assert (Hlen : (3 <= List.length data)%nat).
    { apply lookup_lt_Some in Ha. lia. }
    replace (3 <=? List.length data)%nat with true by (symmetry; by apply Nat.leb_le).
    unfold index. rewrite Ha, Hb. cbn [bind].
    rewrite (np_index_nonneg row_a 0), (np_index_nonneg row_b 0), !Hlast.
    unfold index. by rewrite Ha0, Ha1, Hb0, Hb1.
Qed.

Lemma corners_two_rows_inside_witness :
  set_corners Demo.extern "LAT" "/g/lat.rdr" ∅
  = (Ok tt,
     <["LAT_REF4" := VStr "36/1"]>
       (<["LAT_REF3" := VStr "35/1"]>
          (<["LAT_REF2" := VStr "36/1"]>
             (<["LAT_REF1" := VStr "35/1"]> (∅ : dict)))))
  /\ fst (set_corners (with_raster Demo.extern [[Some 1%Q; Some 2%Q]]) "LON" "lon.rdr" ∅)
     = Raise IndexError.
Proof.
  split.
  - destruct (corners_two_rows_inside Demo.extern "LAT" "/g/lat.rdr" Demo.lat ∅
                eq_refl eq_refl) as [_ H].
    exact (H [Some 35%Q; Some 36%Q] [Some 35%Q; Some 36%Q]
             (Some 35%Q) (Some 36%Q) (Some 35%Q) (Some 36%Q)
             eq_refl eq_refl eq_refl eq_refl eq_refl eq_refl).
  - destruct (corners_two_rows_inside
                (with_raster Demo.extern [[Some 1%Q; Some 2%Q]]) "LON" "lon.rdr"
                [[Some 1%Q; Some 2%Q]] ∅ eq_refl eq_refl) as [H _].
    apply H. simpl. lia.
Defined.

(** ** A TOPS baseline file without perpendicular baseline *)

Lemma starts_with_before c s : starts_with (before c s) s = true.
Proof.
  induction s as [| d s IH]; [reflexivity |]. cbn [before].
  destruct (Ascii.eqb c d); [reflexivity |]. cbn [starts_with].
  by rewrite Ascii.eqb_refl, IH.
Qed.

Lemma bperp_values_none E (lines : list string) :
  Forall (fun line => startswith line "Bperp (average)" = false) lines ->
  bperp_values E lines = Ok [].
Proof.
  induction 1 as [| line lines Hline _ IH]; [reflexivity |].
  cbn [bperp_values]. unfold index, split.
  change (chars ":") with [":"%char].
  destruct (split_go_char ":"%char [] (chars line)) as [Hhd _].
  destruct (split_go [":"%char] 0 [] (chars line)) as [| l0 l] eqn:Hs.
  - by apply split_go_nonempty in Hs.
  - cbn [fmap list_fmap lookup list_lookup bind]. cbn [hd rev app] in Hhd. subst l0.
    destruct (String.eqb _ _) eqn:Heq; [| exact IH].
    apply String.eqb_eq in Heq. exfalso.
    unfold startswith in Hline. rewrite <- Heq, chars_str_of in Hline.
    by rewrite starts_with_before in Hline.
Qed.

(** X19: a TOPS baseline file none of whose lines starts with
    [Bperp (average)] is read as the pair [[nan, nan]], the mean of no
    value, without an exception; an interferogram that ends on the date of
    such a file gets [nan] for both baselines in its metadata. *)
Theorem tops_baseline_without_bperp (E : Extern) (baseline_file : string)
    (lines : list string) :
  read_lines E baseline_file = Ok lines ->
  Forall (fun line => startswith line "Bperp (average)" = false) lines ->
  read_tops_baseline E baseline_file = Ok (VNaN, VNaN)
  /\ (forall (metadata_in : dict) d0 d1 rest (bd : baselines) b0,
        bd !! d1 = Some (VNaN, VNaN) -> bd !! d0 = Some b0 ->
        is_num (fst b0) = true -> is_num (snd b0) = true ->
        exists md,
          add_ifgram_metadata E metadata_in (d0 :: d1 :: rest) (Some bd) = Ok md
          /\ md !! "P_BASELINE_TOP_HDR" = Some (VStr "nan")
          /\ md !! "P_BASELINE_BOTTOM_HDR" = Some (VStr "nan")).
Proof.
  intros Hread Hlines. split.
  - unfold read_tops_baseline. rewrite Hread. cbn [bind].
    by rewrite bperp_values_none.
  - intros metadata_in d0 d1 rest bd [t0 u0] H1 H0 Ht Hu. cbn [fst snd] in Ht, Hu.
    unfold add_ifgram_metadata, index, getitem. cbn zeta.
    cbn [lookup list_lookup bind truthy_dict].
    rewrite bool_decide_eq_false_2.
    2:{ intros ->. by rewrite lookup_empty in H1. }
    rewrite H1, H0. cbn [bind fst snd]. unfold py_sub. rewrite Ht, Hu.
    cbn [is_num andb negb to_Q bind py_str]. eexists. split; [reflexivity |].
    split; [by rewrite lookup_insert_ne, lookup_insert_eq | by rewrite lookup_insert_eq].
Qed.

Lemma tops_baseline_without_bperp_witness :
  let E := with_lines Demo.extern ["Bpar (average): 3"; "  Bperp (average): 4"] in
  let bd : baselines :=
    {[ "20141213" := (VInt 0, VInt 0); "20141225" := (VNaN, VNaN) ]} in
  read_tops_baseline E "20141213_20141225.txt" = Ok (VNaN, VNaN)
  /\ exists md,
       add_ifgram_metadata E ∅ ["20141213"; "20141225"] (Some bd) = Ok md
       /\ md !! "P_BASELINE_TOP_HDR" = Some (VStr "nan")
       /\ md !! "P_BASELINE_BOTTOM_HDR" = Some (VStr "nan").
Proof.
  intros E bd.
  assert (Hlines : Forall (fun line => startswith line "Bperp (average)" = false)
                     ["Bpar (average): 3"; "  Bperp (average): 4"]).
  { repeat constructor. }
  destruct (tops_baseline_without_bperp E "20141213_20141225.txt" _ eq_refl Hlines)
    as [H1 H2].
  split; [exact H1 |].
  exact (H2 ∅ "20141213" "20141225" [] bd (VInt 0, VInt 0)
            eq_refl eq_refl eq_refl eq_refl).
Defined.

(** ** Preparing the geometry files again *)

Lemma join_last (a b : string) (c : ascii) :
  last (chars b) = Some c -> last (chars (join a b)) = Some c.
Proof.
  intros Hb. unfold join. destruct (startswith b "/"); [done |].
  destruct (_ || _)%bool; rewrite !chars_app, !last_app, Hb; reflexivity.
Qed.

Lemma sidecar_loop_current (E : Extern) (build : string -> result dict)
    (l : list string) (w : World) :
  (forall f, In f l -> sidecar_holds E build w f) ->
  forIO l (sidecar_step E build true) w = (Ok tt, w).
Proof.
  induction l as [| f l IH]; intros Hall; [reflexivity |].
  cbn [forIO]. unfold bindM at 1.
  destruct (Hall f (or_introl eq_refl)) as (md & file & Hmd & Hfile & Hrsc).
  assert (Hstep : sidecar_step E build true f w = (Ok tt, w)).
  { unfold sidecar_step, bindM, lift. rewrite Hmd. unfold write_roipac_rsc.
    rewrite Hfile. cbn [fmap option_fmap option_map andb]. rewrite Hrsc.
    by rewrite bool_decide_eq_true_2. }
  rewrite Hstep. apply IH. intros g Hg. apply Hall. by right.
Qed.

(** X20: after a call of [prepare_geometry] that returned, in either mode,
    a call in update mode with the same metadata finds every sidecar
    current: it returns the metadata and leaves the file system as it
    is. *)
Theorem prepare_geometry_again (E : Extern) (w w' : World) (geom_dir : string)
    (metadata r : dict) (update_mode : bool) :
  prepare_geometry E geom_dir metadata update_mode w = (Ok r, w') ->
  prepare_geometry E geom_dir metadata true w' = (Ok metadata, w').
Proof.
  intros H.
  assert (Hpg : forall um v,
             prepare_geometry E geom_dir metadata um v
             = (forIO (geometry_rdr_files E v geom_dir)
                  (sidecar_step E (attributes_with E metadata) um) ;;;
                ret metadata) v) by reflexivity.
  rewrite Hpg in H. rewrite Hpg. unfold bindM in *.
  destruct (sidecar_loop E (attributes_with E metadata) update_mode
              (geometry_rdr_files E w geom_dir) w) as [Hok Hinv].
  destruct (forIO (geometry_rdr_files E w geom_dir) _ w) as [[u | e] w1] eqn:Hrun;
    [| discriminate].
  unfold ret in H. injection H as _ <-.
  destruct (Hok (Hinv _ _ eq_refl)) as (w2 & Hrun2 & Hin & _ & Hother).
  assert (w2 = w1) as -> by congruence.
  assert (Hfiles : geometry_rdr_files E w1 geom_dir = geometry_rdr_files E w geom_dir).
  { unfold geometry_rdr_files. apply filter_ext_in. intros p Hp.
    unfold isfile. rewrite Hother; [reflexivity |].
    intros f _ Heq. apply (f_equal (fun s => last (chars s))) in Heq.
    rewrite chars_app, last_app in Heq. change (last (chars ".rsc")) with (Some "c"%char) in Heq.
    apply in_map_iff in Hp as (i & <- & Hi).
    rewrite (join_last _ _ "r"%char) in Heq; [discriminate |].
    rewrite chars_app, last_app. reflexivity. }
  rewrite Hfiles, (sidecar_loop_current E _ _ w1 Hin). reflexivity.
Qed.

(** The geometry directory of the sample world, prepared twice. *)
Lemma prepare_geometry_again_witness :
  let w := {| files := {[ "/g/hgt.rdr" := Demo.plain 4 ]}; dirs := ∅; clock := 9 |} in
  let metadata : dict := {[ "WIDTH" := VInt 7 ]} in
  let run := prepare_geometry Demo.extern "/g" metadata false w in
  fst run = Ok metadata
  /\ prepare_geometry Demo.extern "/g" metadata true (snd run)
     = (Ok metadata, snd run).
Proof.
  intros w metadata run.
  assert (H1 : fst run = Ok metadata) by (vm_compute; reflexivity).
  split; [exact H1 |].
  apply (prepare_geometry_again Demo.extern w (snd run) "/g" metadata metadata false).
  rewrite <- H1. apply surjective_pairing.
Defined.

(** ** main with a metadata file of unknown kind *)

(** X21: for a metadata file that is neither beside [IW*.xml] files nor
    beside [data.dat] and does not end with [.xml], [main] raises
    [ValueError] before it reads or writes anything, in update mode too,
    whatever the other arguments are. *)
Theorem main_unrecognized_processor (E : Extern) (w : World) (inps : Inps)
    (meta_file : string) :
  metaFile inps = Some meta_file -> meta_file <> "" ->
  ~ file_matching w (join (dirname meta_file) "IW*.xml") ->
  isfile w (join (dirname meta_file) "data.dat") = false ->
  endswith meta_file ".xml" = false ->
  main E inps w = (Raise ValueError, w).
Proof.
  intros Hm Hne Hiw Hdat Hxml.
  unfold main, bindM, lift, cmd_line_parse, get_processor. rewrite Hm.
  assert (Ht : is_truthy (Some meta_file) = true).
  { unfold is_truthy, truthy. destruct (String.eqb meta_file "") eqn:Heq; [| done].
    by apply String.eqb_eq in Heq. }
  cbn [forallb]. rewrite Ht. cbn [negb andb]. rewrite !andb_false_r. rewrite Hm.
  rewrite <- glob_nonempty in Hiw.
  destruct (0 <? _)%nat; [done |]. by rewrite Hdat, Hxml.
Qed.

Lemma main_unrecognized_processor_witness :
  let inps := {| ifgramDir := Some "/i"; ifgramFiles := ["filt_*.unw"];
                 metaFile := Some "/b/notes.txt"; baselineDir := Some "/b";
                 geometryDir := Some "/g"; update_mode := true |} in
  main Demo.extern inps Demo.world = (Raise ValueError, Demo.world).
Proof.
  intros inps.
  apply (main_unrecognized_processor Demo.extern Demo.world inps "/b/notes.txt").
  - reflexivity.
  - discriminate.
  - rewrite <- glob_nonempty. vm_compute. discriminate.
  - vm_compute. reflexivity.
  - reflexivity.
Defined.
